(** * OAuth relay for a fitness-data API: a shallow embedding of
      [functions/main.py] and the properties its specification states.

    The Flask handlers are embedded as computations in a small
    state-and-exception monad.  The state is the observable history of
    the run (log records, outbound HTTP calls, sleeps); the upstream
    HTTP client is an oracle giving the outcome of the k-th outbound
    call.  Library functions whose text output is not decided by this
    repository ([json.dumps], [repr]) are section variables. *)

From Stdlib Require Import ZArith List String Ascii Bool Lia Floats DecimalString.
From Equations Require Import Equations.
Import ListNotations.

Set Warnings "-register-all".
Open Scope string_scope.
Open Scope Z_scope.

(* ===================================================================== *)
(** ** Values decoded from JSON, as Python sees them *)
(* ===================================================================== *)

(** The result of [json.loads]: [None], [bool], [int], [float], [str],
    [list] and [dict].  A [dict] is kept as its [items()] in insertion
    order. *)
Inductive json : Type :=
| JNull
| JBool (b : bool)
| JInt (z : Z)
| JFloat (f : float)
| JStr (s : string)
| JList (l : list json)
| JDict (d : list (string * json)).

Definition dict := list (string * json).

(** Python truth value, as tested by [if not code]. *)
Definition truthy (v : json) : bool :=
  match v with
  | JNull => false
  | JBool b => b
  | JInt z => negb (z =? 0)
  | JFloat f => negb (PrimFloat.eqb f PrimFloat.zero)
  | JStr s => negb (s =? "")%string
  | JList l => match l with [] => false | _ => true end
  | JDict d => match d with [] => false | _ => true end
  end.

(** [type(v).__name__], used in the text of an [AttributeError]. *)
Definition type_name (v : json) : string :=
  match v with
  | JNull => "NoneType"
  | JBool _ => "bool"
  | JInt _ => "int"
  | JFloat _ => "float"
  | JStr _ => "str"
  | JList _ => "list"
  | JDict _ => "dict"
  end.

(** [d.get(k)]: [None] in Python is [None] here; the caller maps it. *)
Fixpoint dict_lookup (k : string) (d : dict) : option json :=
  match d with
  | [] => None
  | (k', v) :: d' => if (k' =? k)%string then Some v else dict_lookup k d'
  end.

(** [d.get(k, default)]. *)
Definition dict_get (k : string) (default : json) (d : dict) : json :=
  match dict_lookup k d with
  | Some v => v
  | None => default
  end.

(** [{**d, k: v}]: an existing key keeps its place, a new one goes last. *)
Fixpoint dict_set (k : string) (v : json) (d : dict) : dict :=
  match d with
  | [] => [(k, v)]
  | (k', v') :: d' =>
      if (k' =? k)%string then (k', v) :: d' else (k', v') :: dict_set k v d'
  end.

(** [str(n)] for an [int]. *)
Definition str_of_int (n : Z) : string := NilZero.string_of_int (Z.to_int n).

(** Truth value of a [str]. *)
Definition truthy_str (s : string) : bool := negb (s =? "")%string.

(** A module-level constant read from the environment: [None] or a [str]. *)
Definition truthy_env (o : option string) : bool :=
  match o with
  | None => false
  | Some s => negb (s =? "")%string
  end.

Definition json_of_env (o : option string) : json :=
  match o with
  | None => JNull
  | Some s => JStr s
  end.

(** [s.replace(old, '')] for a non-empty [old]: scanning from the left,
    each occurrence of [old] is dropped and the scan resumes after it.
    [skip] counts the characters of the current occurrence still to drop. *)
Fixpoint remove_all_from (old : string) (skip : nat) (s : string) : string :=
  match s with
  | EmptyString => EmptyString
  | String c s' =>
      match skip with
      | S n => remove_all_from old n s'
      | O =>
          if String.prefix old s
          then remove_all_from old (Nat.pred (String.length old)) s'
          else String c (remove_all_from old O s')
      end
  end.

Definition str_remove_all (old s : string) : string := remove_all_from old O s.

(** A Python [str] is kept as its UTF-8 encoding: one [ascii] per byte.
    The bytes [10xxxxxx] continue a code point; every other byte starts
    one. *)
Definition is_continuation (c : ascii) : bool :=
  let n := nat_of_ascii c in (128 <=? n)%nat && (n <? 192)%nat.

(** [len(s)]: the number of code points. *)
Fixpoint code_points (s : string) : nat :=
  match s with
  | EmptyString => O
  | String c s' =>
      if is_continuation c then code_points s' else S (code_points s')
  end.

(** [s[:n]]: the first [n] code points, each with all its bytes. *)
Fixpoint str_take (n : nat) (s : string) : string :=
  match s with
  | EmptyString => EmptyString
  | String c s' =>
      if is_continuation c then String c (str_take n s')
      else match n with
           | O => EmptyString
           | S n' => String c (str_take n' s')
           end
  end.

(* ===================================================================== *)
(** ** Exceptions, responses, the outside world *)
(* ===================================================================== *)

(** The exception classes the handlers tell apart; all of them derive
    from [Exception], which is what [except Exception] and the bare
    [except] meet here.  [JSONDecodeError] is the one [Response.json()]
    raises for a body that is no JSON
    ([requests.exceptions.JSONDecodeError], requests 2.27 and later): it
    derives from both [RequestException] and [ValueError] and carries
    no response.  [ValueError] is a [ValueError] that is no
    [RequestException] (the decoder refusing an integer of too many
    digits).  [BadRequest] is what [request.json] raises on a body that
    does not parse.  [OtherRequestException] stands for the remaining
    subclasses of [RequestException], [OtherException] for any other
    subclass of [Exception] ([RecursionError] among them). *)
Inductive ExnClass : Type :=
| ConnectionError
| Timeout
| HTTPError
| JSONDecodeError
| OtherRequestException
| ValueError
| AttributeError
| BadRequest
| OtherException.

(** How [Response.json()] can fail: the body is no JSON, with the
    decoder's message; or the decoder raises something else while
    reading it, an exception of class [cls] with text [msg] and no
    response attached. *)
Inductive Undecoded : Type :=
| NotJson (msg : string)
| DecoderFault (cls : ExnClass) (msg : string).

(** What [requests] hands back for a completed exchange.  [json_body] is
    the outcome of [.json()]: the decoded value, or how decoding
    fails. *)
Record Response : Type := mkResponse {
  status_code : Z;
  reason : string;
  url : string;
  text : string;
  json_body : Undecoded + json
}.

Record Exn : Type := mkExn {
  exn_class : ExnClass;
  exn_str : string;                 (* str(e) *)
  exn_response : option Response    (* e.response *)
}.

(** [except (requests.ConnectionError, requests.Timeout)] *)
Definition is_transport_fault (e : Exn) : bool :=
  match exn_class e with
  | ConnectionError | Timeout => true
  | _ => false
  end.

(** [except requests.RequestException] *)
Definition is_RequestException (e : Exn) : bool :=
  match exn_class e with
  | ConnectionError | Timeout | HTTPError | JSONDecodeError
  | OtherRequestException => true
  | _ => false
  end.

(** [except ValueError] *)
Definition is_ValueError (e : Exn) : bool :=
  match exn_class e with
  | JSONDecodeError | ValueError => true
  | _ => false
  end.

(** The exception a failing [.json()] raises. *)
Definition undecoded_exn (u : Undecoded) : Exn :=
  match u with
  | NotJson msg => mkExn JSONDecodeError msg None
  | DecoderFault cls msg => mkExn cls msg None
  end.

(** Outcome of one outbound HTTP call. *)
Inductive Outcome : Type :=
| Responds (r : Response)
| Fails (e : Exn).

(** The upstream as the relay sees it: the outcome of the k-th outbound
    call of the run, counted from 0. *)
Definition Upstream := nat -> Outcome.

Inductive LogLevel := INFO | WARNING | ERROR.

Inductive Event : Type :=
| EvLog (level : LogLevel) (msg : string)
| EvPost (target : string) (data : dict) (timeout : Z)
| EvGet (target : string) (headers : list (string * string))
        (params : list (string * string))
| EvSleep (seconds : Z).

(** Observable history of a run, oldest event first, with the number of
    outbound HTTP calls made so far. *)
Record World : Type := mkWorld {
  calls : nat;
  events : list Event
}.

Definition world0 : World := mkWorld 0%nat [].

Inductive Result (A : Type) : Type :=
| Ok (a : A)
| Raise (e : Exn).
Arguments Ok {A} a.
Arguments Raise {A} e.

(** Computations: read the upstream oracle, thread the world, return a
    value or raise. *)
Definition M (A : Type) : Type := Upstream -> World -> Result A * World.

Definition ret {A} (a : A) : M A := fun _ w => (Ok a, w).

Definition bind {A B} (m : M A) (k : A -> M B) : M B :=
  fun net w =>
    match m net w with
    | (Ok a, w') => k a net w'
    | (Raise e, w') => (Raise e, w')
    end.

Definition raise {A} (e : Exn) : M A := fun _ w => (Raise e, w).

(** [try: m except <filter>: h e]; an exception the filter rejects
    propagates. *)
Definition try_except {A} (m : M A) (filter : Exn -> bool) (h : Exn -> M A)
  : M A :=
  fun net w =>
    match m net w with
    | (Ok a, w') => (Ok a, w')
    | (Raise e, w') => if filter e then h e net w' else (Raise e, w')
    end.

Declare Scope relay_scope.
Delimit Scope relay_scope with relay.
Notation "x <- m ;; k" := (bind m (fun x => k))
  (at level 100, m at next level, right associativity) : relay_scope.
Notation "m ;; k" := (bind m (fun _ => k))
  (at level 100, right associativity) : relay_scope.
Open Scope relay_scope.

(** The world after one more event, and after one more outbound call. *)
Definition note (w : World) (ev : Event) : World :=
  mkWorld (calls w) (events w ++ [ev]).

Definition called (w : World) (ev : Event) : World :=
  mkWorld (S (calls w)) (events w ++ [ev]).

Definition emit (ev : Event) : M unit := fun _ w => (Ok tt, note w ev).

Definition log (level : LogLevel) (msg : string) : M unit :=
  emit (EvLog level msg).

(** [time.sleep(n)] *)
Definition sleep (n : Z) : M unit := emit (EvSleep n).

(** One outbound call: record it, consume the oracle's next outcome. *)
Definition http_call (ev : Event) : M Response :=
  fun net w =>
    match net (calls w) with
    | Responds r => (Ok r, called w ev)
    | Fails e => (Raise e, called w ev)
    end.

(** [requests.post(url, data=payload, timeout=t)] *)
Definition requests_post (target : string) (data : dict) (timeout : Z)
  : M Response :=
  http_call (EvPost target data timeout).

(** [requests.get(url, headers=..., params=...)] *)
Definition requests_get (target : string) (headers : list (string * string))
    (params : list (string * string)) : M Response :=
  http_call (EvGet target headers params).

(** [response.json()] *)
Definition response_json (r : Response) : M json :=
  match json_body r with
  | inr v => ret v
  | inl u => raise (undecoded_exn u)
  end.

(** The message [raise_for_status] builds: empty unless the status is
    4xx or 5xx. *)
Definition http_error_msg (r : Response) : string :=
  if (400 <=? status_code r) && (status_code r <? 500) then
    str_of_int (status_code r) ++ " Client Error: " ++ reason r
      ++ " for url: " ++ url r
  else if (500 <=? status_code r) && (status_code r <? 600) then
    str_of_int (status_code r) ++ " Server Error: " ++ reason r
      ++ " for url: " ++ url r
  else "".

(** [response.raise_for_status()] *)
Definition raise_for_status (r : Response) : M unit :=
  if negb (http_error_msg r =? "")%string
  then raise (mkExn HTTPError (http_error_msg r) (Some r))
  else ret tt.

(** Calling a [dict] method ([get], [items]) on a decoded value: any
    other type has no such attribute. *)
Definition dict_method (attr : string) (v : json) : M dict :=
  match v with
  | JDict d => ret d
  | _ => raise (mkExn AttributeError
                  ("'" ++ type_name v ++ "' object has no attribute '"
                     ++ attr ++ "'")
                  None)
  end.

(** The value a Flask view returns: the object handed to [jsonify] and a
    status code. *)
Record HttpResponse : Type := mkHttp {
  body : json;
  status : Z
}.

(** [jsonify(v)] answers with status 200; [jsonify(v), s] with [s]. *)
Definition jsonify (v : json) : HttpResponse := mkHttp v 200.
Definition jsonify_with (v : json) (s : Z) : HttpResponse := mkHttp v s.

(** [{"error": msg}] *)
Definition error_json (msg : string) : json := JDict [("error", JStr msg)].

(** What the handlers read of the inbound request. *)
Record FlaskRequest : Type := mkRequest {
  request_json : Exn + json;              (* request.json, or what it raises *)
  header_Authorization : option string;   (* request.headers.get('Authorization') *)
  request_args : list (string * string)   (* request.args.items() *)
}.

(** Module-level configuration, read once from the environment. *)
Record Config : Type := mkConfig {
  STRAVA_CLIENT_ID : option string;
  STRAVA_CLIENT_SECRET : option string;
  EXPECTED_REDIRECT_URI : string
}.

Definition STRAVA_AUTHORIZATION_URL := "https://www.strava.com/oauth/authorize".
Definition STRAVA_TOKEN_URL := "https://www.strava.com/api/v3/oauth/token".
Definition STRAVA_ACTIVITIES_URL := "https://www.strava.com/api/v3/athlete/activities".
Definition STRAVA_ATHLETE_ZONES_URL := "https://www.strava.com/api/v3/athlete/zones".

(* ===================================================================== *)
(** ** The retrying token request *)
(* ===================================================================== *)

(** The four log lines of [make_token_request_with_retry]. *)
Definition msg_attempt (retries max_retries : Z) : string :=
  "Attempting token exchange (attempt " ++ str_of_int (retries + 1) ++ "/"
    ++ str_of_int max_retries ++ ")".

Definition msg_retrying (e : Exn) : string :=
  "Network error during token exchange: " ++ exn_str e ++ ". Retrying...".

Definition msg_exhausted (max_retries : Z) (e : Exn) : string :=
  "Failed to exchange token after " ++ str_of_int max_retries
    ++ " attempts: " ++ exn_str e.

Definition msg_unexpected (e : Exn) : string :=
  "Unexpected error during token exchange: " ++ exn_str e.

(** The [while retries < max_retries] loop of
    [make_token_request_with_retry], entered with the current value of
    [retries].  Falling out of the loop returns [None]. *)
Equations? retry_loop (payload : dict) (max_retries retries : Z)
    (net : Upstream) (w : World) : Result (option Response) * World
    by wf (Z.to_nat (max_retries - retries)) lt :=
  retry_loop payload max_retries retries net w
    with Z_lt_dec retries max_retries := {
    | right _ => (Ok None, w)
    | left Hlt =>
        match
          (log INFO (msg_attempt retries max_retries) ;;
           requests_post STRAVA_TOKEN_URL payload 10) net w
        with
        | (Ok response, w1) => (Ok (Some response), w1)
        | (Raise e, w1) =>
            if is_transport_fault e then
              let retries' := retries + 1 in
              match Z_lt_dec retries' max_retries with
              | left _ =>
                  match
                    (log WARNING (msg_retrying e) ;; sleep 1) net w1
                  with
                  | (_, w2) => retry_loop payload max_retries retries' net w2
                  end
              | right _ =>
                  (log ERROR (msg_exhausted max_retries e) ;; raise e) net w1
              end
            else
              (log ERROR (msg_unexpected e) ;; raise e) net w1
        end }.
Proof. subst retries'. lia. Qed.

(** [make_token_request_with_retry(payload, max_retries)] *)
Definition make_token_request_with_retry (payload : dict) (max_retries : Z)
  : M (option Response) :=
  retry_loop payload max_retries 0.

(* ===================================================================== *)
(** ** The five operations *)
(* ===================================================================== *)

(** [request.args.get(k, default)] *)
Fixpoint args_get (k default : string) (args : list (string * string))
  : string :=
  match args with
  | [] => default
  | (k', v) :: args' => if (k' =? k)%string then v else args_get k default args'
  end.

(** [request.json] *)
Definition flask_json (req : FlaskRequest) : M json :=
  match request_json req with
  | inl e => raise e
  | inr v => ret v
  end.

(** The [{k: v if k not in ('access_token', 'refresh_token') else
    '[REDACTED]' for k, v in token_data.items()}] comprehension. *)
Definition REDACTED : json := JStr "[REDACTED]".

Definition is_token_key (k : string) : bool :=
  (k =? "access_token")%string || (k =? "refresh_token")%string.

Definition log_safe (token_data : dict) : dict :=
  map (fun kv => (fst kv, if negb (is_token_key (fst kv)) then snd kv
                          else REDACTED))
      token_data.

Section Relay.

(** [json.dumps] and [repr] on decoded values: library functions, total
    on what [json.loads] produces. *)
Variable json_dumps : json -> string.
Variable py_repr : json -> string.

(** The module-level constants of this process. *)
Variable cfg : Config.

(** [str(v)], as an f-string formats a decoded value. *)
Definition py_str (v : json) : string :=
  match v with
  | JStr s => s
  | JNull => "None"
  | JBool true => "True"
  | JBool false => "False"
  | JInt z => str_of_int z
  | _ => py_repr v
  end.

(** f-string rendering of a module constant that is [None] or a [str]. *)
Definition env_str (o : option string) : string :=
  match o with
  | Some s => s
  | None => "None"
  end.

Definition credentials_missing : bool :=
  negb (truthy_env (STRAVA_CLIENT_ID cfg))
  || negb (truthy_env (STRAVA_CLIENT_SECRET cfg)).

(** [response.status_code] on what the retrying request returned. *)
Definition the_response (r : option Response) : M Response :=
  match r with
  | Some response => ret response
  | None => raise (mkExn AttributeError
                     "'NoneType' object has no attribute 'status_code'" None)
  end.

Definition get_auth_url (req : FlaskRequest) : M HttpResponse :=
  let redirect_uri :=
    args_get "redirect_uri" (EXPECTED_REDIRECT_URI cfg) (request_args req) in
  let scopes :=
    args_get "scopes" "read,activity:read_all,profile:read_all"
             (request_args req) in
  log INFO ("Generating auth URL with redirect_uri: " ++ redirect_uri
              ++ ", client_id: "
              ++ match STRAVA_CLIENT_ID cfg with
                 | Some _ => "True"
                 | None => "False"
                 end) ;;
  if negb (truthy_env (STRAVA_CLIENT_ID cfg)) then
    log ERROR "STRAVA_CLIENT_ID is not set." ;;
    ret (jsonify_with
           (error_json "Server configuration error: STRAVA_CLIENT_ID missing")
           500)
  else
    let auth_url :=
      STRAVA_AUTHORIZATION_URL ++ "?client_id="
        ++ env_str (STRAVA_CLIENT_ID cfg) ++ "&redirect_uri=" ++ redirect_uri
        ++ "&response_type=code&scope=" ++ scopes in
    ret (jsonify (JDict [("url", JStr auth_url)])).

Definition exchange_token (req : FlaskRequest) : M HttpResponse :=
  try_except
    (request_data <- flask_json req ;;
     log INFO ("Token exchange request received: "
                 ++ json_dumps request_data) ;;
     d <- dict_method "get" request_data ;;
     let code := dict_get "code" JNull d in
     if negb (truthy code) then
       log WARNING "No authorization code provided in request" ;;
       ret (jsonify_with (error_json "No authorization code provided") 400)
     else if credentials_missing then
       log ERROR "Strava API credentials are not configured on the server." ;;
       ret (jsonify_with
              (error_json "Server configuration error: API credentials missing")
              500)
     else
       let payload :=
         [("client_id", json_of_env (STRAVA_CLIENT_ID cfg));
          ("client_secret", json_of_env (STRAVA_CLIENT_SECRET cfg));
          ("code", code);
          ("grant_type", JStr "authorization_code")] in
       log INFO ("Exchanging code for token with payload: "
                   ++ json_dumps
                        (JDict (dict_set "client_secret" REDACTED payload))) ;;
       response <- make_token_request_with_retry payload 3 ;;
       response <- the_response response ;;
       let status_code := status_code response in
       log INFO ("Token exchange response status: "
                   ++ str_of_int status_code) ;;
       if negb (status_code =? 200) then
         let error_msg := "Strava API error: " ++ str_of_int status_code in
         error_msg <-
           try_except
             (error_data <- response_json response ;;
              log ERROR ("Token exchange error response: "
                           ++ json_dumps error_data) ;;
              ed <- dict_method "get" error_data ;;
              let error_detail :=
                dict_get "message"
                  (dict_get "error" (JStr (json_dumps error_data)) ed) ed in
              ret (error_msg ++ " - " ++ py_str error_detail))
             (fun _ => true)
             (fun _ =>
                let error_body := str_take 500 (text response) in
                log ERROR ("Token exchange error body: " ++ error_body) ;;
                ret (error_msg ++ " - " ++ error_body)) ;;
         ret (jsonify_with (error_json error_msg) status_code)
       else
         token_data <- response_json response ;;
         items <- dict_method "items" token_data ;;
         let log_safe_data := log_safe items in
         log INFO ("Token exchange successful: "
                     ++ json_dumps (JDict log_safe_data)) ;;
         ret (jsonify token_data))
    (fun _ => true)
    (fun e =>
       let error_msg := "Exception during token exchange: " ++ exn_str e in
       log ERROR "Token exchange failed" ;;
       ret (jsonify_with (error_json error_msg) 500)).

Definition get_activities (req : FlaskRequest) : M HttpResponse :=
  let access_token :=
    str_remove_all "Bearer "
      (match header_Authorization req with Some h => h | None => "" end) in
  if negb (truthy_str access_token) then
    ret (jsonify_with (error_json "No access token provided") 401)
  else
    let params := map (fun kv => (fst kv, snd kv)) (request_args req) in
    try_except
      (response <- requests_get STRAVA_ACTIVITIES_URL
                     [("Authorization", "Bearer " ++ access_token)] params ;;
       raise_for_status response ;;
       v <- response_json response ;;
       ret (jsonify v))
      is_RequestException
      (fun e =>
         log ERROR ("Error fetching activities: " ++ exn_str e) ;;
         match exn_response e with
         | Some r =>
             try_except
               (v <- response_json r ;;
                ret (jsonify_with v (status_code r)))
               is_ValueError
               (fun _ =>
                  ret (jsonify_with (error_json (exn_str e)) (status_code r)))
         | None => ret (jsonify_with (error_json (exn_str e)) 500)
         end).

Definition get_athlete_zones (req : FlaskRequest) : M HttpResponse :=
  let access_token :=
    str_remove_all "Bearer "
      (match header_Authorization req with Some h => h | None => "" end) in
  if negb (truthy_str access_token) then
    ret (jsonify_with (error_json "No access token provided") 401)
  else
    try_except
      (response <- requests_get STRAVA_ATHLETE_ZONES_URL
                     [("Authorization", "Bearer " ++ access_token)] [] ;;
       raise_for_status response ;;
       v <- response_json response ;;
       ret (jsonify v))
      is_RequestException
      (fun e =>
         log ERROR ("Error fetching athlete zones: " ++ exn_str e) ;;
         match exn_response e with
         | Some r =>
             try_except
               (v <- response_json r ;;
                ret (jsonify_with v (status_code r)))
               is_ValueError
               (fun _ =>
                  ret (jsonify_with (error_json (exn_str e)) (status_code r)))
         | None => ret (jsonify_with (error_json (exn_str e)) 500)
         end).

Definition refresh_token (req : FlaskRequest) : M HttpResponse :=
  try_except
    (request_data <- flask_json req ;;
     d <- dict_method "get" request_data ;;
     let refresh_token_val := dict_get "refresh_token" JNull d in
     if negb (truthy refresh_token_val) then
       ret (jsonify_with (error_json "No refresh token provided") 400)
     else if credentials_missing then
       log ERROR "Strava API credentials are not configured on the server." ;;
       ret (jsonify_with
              (error_json "Server configuration error: API credentials missing")
              500)
     else
       let payload :=
         [("client_id", json_of_env (STRAVA_CLIENT_ID cfg));
          ("client_secret", json_of_env (STRAVA_CLIENT_SECRET cfg));
          ("refresh_token", refresh_token_val);
          ("grant_type", JStr "refresh_token")] in
       log INFO ("Refreshing token with payload: "
                   ++ json_dumps
                        (JDict (dict_set "refresh_token" REDACTED
                                  (dict_set "client_secret" REDACTED
                                     payload)))) ;;
       response <- make_token_request_with_retry payload 3 ;;
       response <- the_response response ;;
       let status_code := status_code response in
       log INFO ("Token refresh response status: "
                   ++ str_of_int status_code) ;;
       if negb (status_code =? 200) then
         let error_msg := "Strava API error: " ++ str_of_int status_code in
         error_msg <-
           try_except
             (error_data <- response_json response ;;
              log ERROR ("Token refresh error response: "
                           ++ json_dumps error_data) ;;
              ed <- dict_method "get" error_data ;;
              let error_detail :=
                dict_get "message"
                  (dict_get "error" (JStr (json_dumps error_data)) ed) ed in
              ret (error_msg ++ " - " ++ py_str error_detail))
             (fun _ => true)
             (fun _ =>
                let error_body := str_take 500 (text response) in
                log ERROR ("Token refresh error body: " ++ error_body) ;;
                ret (error_msg ++ " - " ++ error_body)) ;;
         ret (jsonify_with (error_json error_msg) status_code)
       else
         token_data <- response_json response ;;
         items <- dict_method "items" token_data ;;
         let log_safe_data := log_safe items in
         log INFO ("Token refresh successful: "
                     ++ json_dumps (JDict log_safe_data)) ;;
         ret (jsonify token_data))
    (fun _ => true)
    (fun e =>
       let error_msg := "Exception during token refresh: " ++ exn_str e in
       log ERROR "Token refresh failed" ;;
       ret (jsonify_with (error_json error_msg) 500)).

End Relay.

(* ===================================================================== *)
(** ** Reading a run *)
(* ===================================================================== *)

(** The outbound side of a history: HTTP calls and sleeps, without the
    log records. *)
Definition is_io (ev : Event) : bool :=
  match ev with
  | EvLog _ _ => false
  | _ => true
  end.

Definition io_trace (w : World) : list Event := filter is_io (events w).

(** [n] POST attempts with the 1-unit sleep between each two of them. *)
Fixpoint attempts_trace (payload : dict) (n : nat) : list Event :=
  match n with
  | O => []
  | S n' =>
      EvPost STRAVA_TOKEN_URL payload 10
        :: match n' with
           | O => []
           | S _ => EvSleep 1 :: attempts_trace payload n'
           end
  end.

(** From the call numbered [from] on, the upstream fails at the transport
    level [N] times in a row. *)
Definition transport_faults (net : Upstream) (from N : nat) : Prop :=
  forall k, (k < N)%nat ->
    exists e, net (from + k)%nat = Fails e /\ is_transport_fault e = true.

(* ===================================================================== *)
(** ** Vocabulary of the statements *)
(* ===================================================================== *)

(** A request the token operations accept: a JSON object carrying a
    truthy value under [field]. *)
Definition carries (field : string) (req : FlaskRequest) (v : json) : Prop :=
  exists d, request_json req = inr (JDict d) /\
            dict_get field JNull d = v /\ truthy v = true.

(** The upstream answers [resp] after [N] transport faults. *)
Definition answers_after (net : Upstream) (from N : nat) (resp : Response)
  : Prop :=
  transport_faults net from N /\ net (from + N)%nat = Responds resp.

Definition code_grant (cfg : Config) (code : json) : dict :=
  [("client_id", json_of_env (STRAVA_CLIENT_ID cfg));
   ("client_secret", json_of_env (STRAVA_CLIENT_SECRET cfg));
   ("code", code);
   ("grant_type", JStr "authorization_code")].

Definition refresh_grant (cfg : Config) (refresh_token_val : json) : dict :=
  [("client_id", json_of_env (STRAVA_CLIENT_ID cfg));
   ("client_secret", json_of_env (STRAVA_CLIENT_SECRET cfg));
   ("refresh_token", refresh_token_val);
   ("grant_type", JStr "refresh_token")].

(** Two upstreams that fail at the same calls with the same faults; what
    they answer elsewhere may differ. *)
Definition same_faults (net net' : Upstream) : Prop :=
  forall k,
    match net k, net' k with
    | Responds _, Responds _ => True
    | Fails e, Fails e' => e = e'
    | _, _ => False
    end.

(** The history of [exchange_token] up to the POST. *)
Definition before_exchange (json_dumps : json -> string) (cfg : Config)
    (req_body code : json) (w : World) : World :=
  note (note w (EvLog INFO ("Token exchange request received: "
                              ++ json_dumps req_body)))
       (EvLog INFO ("Exchanging code for token with payload: "
                      ++ json_dumps
                           (JDict (dict_set "client_secret" REDACTED
                                     (code_grant cfg code))))).

(** The history of [refresh_token] up to the POST. *)
Definition before_refresh (json_dumps : json -> string) (cfg : Config)
    (refresh_token_val : json) (w : World) : World :=
  note w (EvLog INFO ("Refreshing token with payload: "
                        ++ json_dumps
                             (JDict (dict_set "refresh_token" REDACTED
                                       (dict_set "client_secret" REDACTED
                                          (refresh_grant cfg
                                             refresh_token_val)))))).

(** The token the fetch operations read off the [Authorization] header. *)
Definition access_token_of (req : FlaskRequest) : string :=
  str_remove_all "Bearer "
    (match header_Authorization req with Some h => h | None => "" end).

(** A decoded body that is no JSON object. *)
Definition not_object (v : json) : Prop := forall d, v <> JDict d.

Definition is_error_status (r : Response) : bool :=
  (400 <=? status_code r) && (status_code r <? 600).

(** The part of [get_activities] and [get_athlete_zones] that follows the
    token check, with what the two differ in as arguments. *)
Definition fetch_from (target : string) (params : list (string * string))
    (what access_token : string) : M HttpResponse :=
  try_except
    (response <- requests_get target
                   [("Authorization", "Bearer " ++ access_token)] params ;;
     raise_for_status response ;;
     v <- response_json response ;;
     ret (jsonify v))
    is_RequestException
    (fun e =>
       log ERROR (what ++ exn_str e) ;;
       match exn_response e with
       | Some r =>
           try_except
             (v <- response_json r ;;
              ret (jsonify_with v (status_code r)))
             is_ValueError
             (fun _ =>
                ret (jsonify_with (error_json (exn_str e)) (status_code r)))
       | None => ret (jsonify_with (error_json (exn_str e)) 500)
       end).

Definition activities_params (req : FlaskRequest) : list (string * string) :=
  map (fun kv => (fst kv, snd kv)) (request_args req).

(** The handler of [except requests.RequestException as e], as a
    function of the exception and the world it is entered in. *)
Definition fetch_failure (what : string) (e : Exn) (w : World)
  : Result HttpResponse * World :=
  let w' := note w (EvLog ERROR (what ++ exn_str e)) in
  match exn_response e with
  | Some r =>
      match json_body r with
      | inr v => (Ok (mkHttp v (status_code r)), w')
      | inl u =>
          if is_ValueError (undecoded_exn u)
          then (Ok (mkHttp (error_json (exn_str e)) (status_code r)), w')
          else (Raise (undecoded_exn u), w')
      end
  | None => (Ok (mkHttp (error_json (exn_str e)) 500), w')
  end.

(** [{'Authorization': f'Bearer {access_token}'}] *)
Definition bearer_header (access_token : string) : list (string * string) :=
  [("Authorization", "Bearer " ++ access_token)].

(** The response of the upstream behind an outcome, if there is one. *)
Definition upstream_response (o : Outcome) : option Response :=
  match o with
  | Responds r => Some r
  | Fails e => exn_response e
  end.

(** A body taken over from the upstream together with its status code. *)
Definition relayed (net : Upstream) (w : World) (r : HttpResponse) : Prop :=
  exists resp,
    upstream_response (net (calls w)) = Some resp /\
    json_body resp = inr (body r) /\
    status r = status_code resp.

Definition is_error_json (v : json) : Prop := exists msg, v = error_json msg.

(** The outbound side of a history with the POST bodies blanked: which
    calls and sleeps were made, in which order. *)
Definition erase_payload (ev : Event) : Event :=
  match ev with
  | EvPost target _ timeout => EvPost target [] timeout
  | _ => ev
  end.

Definition io_shape (w : World) : list Event := map erase_payload (io_trace w).

(** The refresh request carries under [refresh_token] what the exchange
    request carries under [code]; bodies that are no objects, and
    bodies that do not parse, are the same on both sides. *)
Definition same_grant_input (req_e req_r : FlaskRequest) : Prop :=
  match request_json req_e, request_json req_r with
  | inl e, inl e' => e = e'
  | inr (JDict d), inr (JDict d') =>
      dict_get "code" JNull d = dict_get "refresh_token" JNull d'
  | inr v, inr v' => v = v'
  | _, _ => False
  end.

(** How the two bodies may differ: only in the wording of the two
    messages that name the operation. *)
Definition same_up_to_wording (r_e r_r : HttpResponse) : Prop :=
  body r_r = body r_e
  \/ (status r_e = 400 /\
      body r_e = error_json "No authorization code provided" /\
      body r_r = error_json "No refresh token provided")
  \/ (status r_e = 500 /\
      exists x,
        body r_e = error_json ("Exception during token exchange: " ++ x) /\
        body r_r = error_json ("Exception during token refresh: " ++ x)).

(** The two keys whose values are tokens. *)
Definition is_token_name (k : string) : Prop :=
  k = "access_token" \/ k = "refresh_token".

(** An item and its redacted copy: the key stays, a token value becomes
    the marker, any other value stays. *)
Definition redacted_pair (kv kv' : string * json) : Prop :=
  fst kv' = fst kv /\
  (is_token_name (fst kv) -> snd kv' = JStr "[REDACTED]") /\
  (~ is_token_name (fst kv) -> snd kv' = snd kv).

(** Two mappings with the same keys in the same order that differ, if at
    all, in the values under the two token keys. *)
Definition same_but_token_values (d d' : dict) : Prop :=
  Forall2 (fun kv kv' => fst kv' = fst kv /\
                         (~ is_token_name (fst kv) -> snd kv' = snd kv))
          d d'.

(** A response whose body decodes or is rejected as no JSON. *)
Definition decodes_or_not_json (resp : Response) : Prop :=
  forall cls msg, json_body resp <> inl (DecoderFault cls msg).

(** A request a token operation passes on to the upstream: credentials
    are configured and the body is an object with a truthy [field]. *)
Definition accepted (field : string) (cfg : Config) (req : FlaskRequest)
  : Prop :=
  credentials_missing cfg = false /\ exists v, carries field req v.

(** The upstream [net] with the outcome of call [k] replaced by the
    answer [resp']. *)
Definition answering (net : Upstream) (k : nat) (resp' : Response)
  : Upstream :=
  fun i => if (i =? k)%nat then Responds resp' else net i.

(* ===================================================================== *)
(** ** Sample configuration, requests and upstreams *)
(* ===================================================================== *)

(** A double quote, for writing raw JSON text. *)
Definition q : string := String (ascii_of_nat 34) "".

Definition token_response_200 : Response :=
  mkResponse 200 "OK" STRAVA_TOKEN_URL
    ("{" ++ q ++ "access_token" ++ q ++ ":" ++ q ++ "X" ++ q ++ ","
         ++ q ++ "refresh_token" ++ q ++ ":" ++ q ++ "Y" ++ q ++ ","
         ++ q ++ "expires_at" ++ q ++ ":123}")
    (inr (JDict [("access_token", JStr "X"); ("refresh_token", JStr "Y");
                 ("expires_at", JInt 123)])).

(** An upstream that times out twice and then answers 200. *)
Definition two_timeouts : Upstream :=
  fun k => match k with
           | 0%nat | 1%nat => Fails (mkExn Timeout "Read timed out." None)
           | _ => Responds token_response_200
           end.

(** A stand-in for [json.dumps], exact on flat objects of strings and
    integers; the theorems hold for any such function. *)
Definition sample_dumps (v : json) : string :=
  let atom (x : json) : string :=
    match x with
    | JStr s => q ++ s ++ q
    | JInt z => str_of_int z
    | JNull => "null"
    | JBool true => "true"
    | JBool false => "false"
    | _ => "..."
    end in
  match v with
  | JDict d =>
      "{" ++ String.concat ", "
               (map (fun kv => q ++ fst kv ++ q ++ ": " ++ atom (snd kv)) d)
          ++ "}"
  | _ => atom v
  end.

Definition sample_cfg : Config :=
  mkConfig (Some "42") (Some "s3cr3t") "http://localhost:3000/exchange_token".

Definition code_request : FlaskRequest :=
  mkRequest (inr (JDict [("code", JStr "abc123")])) None [].

Definition unauthorized_401 : Response :=
  mkResponse 401 "Unauthorized" STRAVA_TOKEN_URL
    ("{" ++ q ++ "message" ++ q ++ ":" ++ q ++ "Authorization Error" ++ q ++ "}")
    (inr (JDict [("message", JStr "Authorization Error")])).

Definition activities_401 : Response :=
  mkResponse 401 "Unauthorized" STRAVA_ACTIVITIES_URL
    ("{" ++ q ++ "message" ++ q ++ ":" ++ q ++ "Authorization Error" ++ q ++ "}")
    (inr (JDict [("message", JStr "Authorization Error")])).

Definition created_201 : Response :=
  mkResponse 201 "Created" STRAVA_TOKEN_URL
    ("{" ++ q ++ "access_token" ++ q ++ ":" ++ q ++ "X" ++ q ++ "}")
    (inr (JDict [("access_token", JStr "X")])).

Definition always (resp : Response) : Upstream := fun _ => Responds resp.

Definition no_code_request : FlaskRequest :=
  mkRequest (inr (JDict [("state", JStr "xyz")])) None [].

Definition null_request : FlaskRequest := mkRequest (inr JNull) None [].

Definition bearer_request : FlaskRequest :=
  mkRequest (inr JNull) (Some "Bearer abc") [("per_page", "30")].

Definition basic_request : FlaskRequest :=
  mkRequest (inr JNull) (Some "Basic xyz") [].

Definition mangled_request : FlaskRequest :=
  mkRequest (inr JNull) (Some "Bearer abBearer c") [].

Definition empty_request : FlaskRequest := mkRequest (inr (JDict [])) None [].

Definition refresh_abc_request : FlaskRequest :=
  mkRequest (inr (JDict [("refresh_token", JStr "abc123")])) None [].

(** The same token response with other token values. *)
Definition token_response_200' : Response :=
  mkResponse 200 "OK" STRAVA_TOKEN_URL
    ("{" ++ q ++ "access_token" ++ q ++ ":" ++ q ++ "P" ++ q ++ ","
         ++ q ++ "refresh_token" ++ q ++ ":" ++ q ++ "Q" ++ q ++ ","
         ++ q ++ "expires_at" ++ q ++ ":123}")
    (inr (JDict [("access_token", JStr "P"); ("refresh_token", JStr "Q");
                 ("expires_at", JInt 123)])).

(* ===================================================================== *)
(** ** The rest of the module: configuration at import, debug-info *)
(* ===================================================================== *)

(** [os.environ], as the module-level statements read it. *)
Definition Environ := string -> option string.

(** [a or b] on values that are [None] or a [str]. *)
Definition env_or (a b : option string) : option string :=
  if truthy_env a then a else b.

(** [os.getenv(name, default)] *)
Definition getenv_default (environ : Environ) (name default : string)
  : string :=
  match environ name with
  | Some s => s
  | None => default
  end.

(** The module-level assignments of [STRAVA_CLIENT_ID],
    [STRAVA_CLIENT_SECRET] and [EXPECTED_REDIRECT_URI]. *)
Definition load_config (environ : Environ) : Config :=
  let FIREBASE_REDIRECT_URI := environ "FIREBASE_CONFIG_STRAVA_REDIRECT_URI" in
  mkConfig
    (env_or (environ "FIREBASE_CONFIG_STRAVA_CLIENT_ID")
            (environ "STRAVA_CLIENT_ID"))
    (env_or (environ "FIREBASE_CONFIG_STRAVA_CLIENT_SECRET")
            (environ "STRAVA_CLIENT_SECRET"))
    (if truthy_env FIREBASE_REDIRECT_URI
     then env_str FIREBASE_REDIRECT_URI
     else getenv_default environ "EXPECTED_REDIRECT_URI"
            "http://localhost:3000/exchange_token").

Definition msg_credentials_missing : string :=
  "Strava API credentials are missing! Check your environment variables or Firebase function config.".

(** The statements the module runs when it is imported, with the records
    they log; [dotenv_installed] tells which branch of the
    [try: from dotenv import load_dotenv] is taken, [environ] is the
    environment the assignments then read. *)
Definition module_init (dotenv_installed : bool) (environ : Environ)
  : M Config :=
  (if dotenv_installed
   then log INFO "Attempted to load .env file."
   else log WARNING "dotenv module not found, skipping load_dotenv(). Ensure environment variables are set via cloud configuration for deployment.") ;;
  let cfg := load_config environ in
  log INFO ("Running with firebase config: "
              ++ (if truthy_env (environ "FIREBASE_CONFIG_STRAVA_CLIENT_ID")
                  then "True" else "False")) ;;
  (if negb (truthy_env (STRAVA_CLIENT_ID cfg))
      || negb (truthy_env (STRAVA_CLIENT_SECRET cfg))
   then log ERROR msg_credentials_missing
   else ret tt) ;;
  log INFO ("Expected redirect URI: " ++ EXPECTED_REDIRECT_URI cfg) ;;
  ret cfg.

(** [debug_info]; [server_time] is what [time.strftime] gives for the
    current time, the three numbers are [sys.version_info]. *)
Definition debug_info (cfg : Config) (server_time : string)
    (major minor micro : Z) : M HttpResponse :=
  ret (jsonify
         (JDict
            [("strava_client_id_set",
              JBool match STRAVA_CLIENT_ID cfg with
                    | Some _ => true
                    | None => false
                    end);
             ("expected_redirect_uri", JStr (EXPECTED_REDIRECT_URI cfg));
             ("server_time", JStr server_time);
             ("python_version",
              JStr (str_of_int major ++ "." ++ str_of_int minor ++ "."
                      ++ str_of_int micro))])).

(* ===================================================================== *)
(** ** Vocabulary of the further statements *)
(* ===================================================================== *)

(** The log side of a history. *)
Definition log_records (w : World) : list Event :=
  filter (fun ev => negb (is_io ev)) (events w).

(** What the blanket [except Exception as e] of a token operation
    makes of [e]; [op] is "exchange" or "refresh". *)
Definition token_blanket (op : string) (e : Exn) (w : World)
  : Result HttpResponse * World :=
  (Ok (mkHttp (error_json ("Exception during token " ++ op ++ ": "
                             ++ exn_str e)) 500),
   note w (EvLog ERROR ("Token " ++ op ++ " failed"))).

(** The detail a token operation appends to ["Strava API error: <status>"]. *)
Definition error_detail (json_dumps py_repr : json -> string)
    (resp : Response) : string :=
  match json_body resp with
  | inr (JDict ed) =>
      py_str py_repr
        (match dict_lookup "message" ed with
         | Some m => m
         | None =>
             match dict_lookup "error" ed with
             | Some e => e
             | None => JStr (json_dumps (JDict ed))
             end
         end)
  | _ => str_take 500 (text resp)
  end.

(** A token operation from the return of the retrying request on, as a
    function of what that returned. *)
Definition token_finish (op : string) (json_dumps py_repr : json -> string)
    (run : Result (option Response) * World) : Result HttpResponse * World :=
  match run with
  | (Raise e, w2) => token_blanket op e w2
  | (Ok None, w2) =>
      token_blanket op
        (mkExn AttributeError
           "'NoneType' object has no attribute 'status_code'" None) w2
  | (Ok (Some resp), w2) =>
      let w3 := note w2 (EvLog INFO ("Token " ++ op ++ " response status: "
                                       ++ str_of_int (status_code resp))) in
      let answer :=
        Ok (mkHttp (error_json
                      (("Strava API error: " ++ str_of_int (status_code resp))
                         ++ " - " ++ error_detail json_dumps py_repr resp))
                   (status_code resp)) in
      let body_logged w :=
        note w (EvLog ERROR ("Token " ++ op ++ " error body: "
                               ++ str_take 500 (text resp))) in
      if negb (status_code resp =? 200) then
        match json_body resp with
        | inr (JDict ed) =>
            (answer,
             note w3 (EvLog ERROR ("Token " ++ op ++ " error response: "
                                     ++ json_dumps (JDict ed))))
        | inr v =>
            (answer,
             body_logged
               (note w3 (EvLog ERROR ("Token " ++ op ++ " error response: "
                                        ++ json_dumps v))))
        | inl _ => (answer, body_logged w3)
        end
      else
        match json_body resp with
        | inr (JDict d) =>
            (Ok (mkHttp (JDict d) 200),
             note w3 (EvLog INFO ("Token " ++ op ++ " successful: "
                                    ++ json_dumps (JDict (log_safe d)))))
        | inr v =>
            token_blanket op
              (mkExn AttributeError
                 ("'" ++ type_name v ++ "' object has no attribute 'items'")
                 None) w3
        | inl u => token_blanket op (undecoded_exn u) w3
        end
  end.

(** The query string [get_auth_url] builds. *)
Definition auth_url (client_id redirect_uri scopes : string) : string :=
  STRAVA_AUTHORIZATION_URL ++ "?client_id=" ++ client_id
    ++ "&redirect_uri=" ++ redirect_uri
    ++ "&response_type=code&scope=" ++ scopes.

Definition DEFAULT_SCOPES : string := "read,activity:read_all,profile:read_all".

(** Sample environments and requests for the further statements. *)
Definition firebase_environ : Environ :=
  fun name =>
    if (name =? "FIREBASE_CONFIG_STRAVA_CLIENT_ID")%string then Some "42"
    else if (name =? "STRAVA_CLIENT_ID")%string then Some "local-id"
    else if (name =? "STRAVA_CLIENT_SECRET")%string then Some "s3cr3t"
    else None.

Definition three_timeouts : Upstream :=
  fun _ => Fails (mkExn Timeout "Read timed out." None).

Definition fault_then_other : Upstream :=
  fun k => match k with
           | 0%nat => Fails (mkExn ConnectionError "Connection aborted." None)
           | 1%nat => Fails (mkExn OtherRequestException "Invalid URL" None)
           | _ => Responds token_response_200
           end.

Definition broken_client : Upstream :=
  fun _ => Fails (mkExn OtherException "unsupported operand" None).

Definition bad_request_400 : Response :=
  mkResponse 400 "Bad Request" STRAVA_TOKEN_URL
    ("{" ++ q ++ "message" ++ q ++ ":" ++ q ++ "Bad Request" ++ q ++ "}")
    (inr (JDict [("message", JStr "Bad Request");
                 ("error", JStr "invalid code")])).

Definition html_200 : Response :=
  mkResponse 200 "OK" STRAVA_TOKEN_URL "<html>maintenance</html>"
    (inl (NotJson "Expecting value: line 1 column 1 (char 0)")).

(** A 200 whose body is an integer of 5000 digits, more than the
    decoder accepts (the digits after the first are left out of the text
    here). *)
Definition huge_integer_200 : Response :=
  mkResponse 200 "OK" STRAVA_ACTIVITIES_URL "1"
    (inl (DecoderFault ValueError
            ("Exceeds the limit (4300 digits) for integer string conversion: "
               ++ "value has 5000 digits; use sys.set_int_max_str_digits() "
               ++ "to increase the limit"))).

(** A 401 whose body nests arrays deeper than the decoder follows (the
    text is cut short here): decoding raises [RecursionError]. *)
Definition deep_401 : Response :=
  mkResponse 401 "Unauthorized" STRAVA_ACTIVITIES_URL "[[[["
    (inl (DecoderFault OtherException
            ("maximum recursion depth exceeded while decoding a JSON array "
               ++ "from a unicode string"))).



(** A 201 that carries tokens, and the same with other token values. *)
Definition tokens_201 : Response :=
  mkResponse 201 "Created" STRAVA_TOKEN_URL
    ("{" ++ q ++ "access_token" ++ q ++ ":" ++ q ++ "X" ++ q ++ ","
         ++ q ++ "refresh_token" ++ q ++ ":" ++ q ++ "Y" ++ q ++ "}")
    (inr (JDict [("access_token", JStr "X"); ("refresh_token", JStr "Y")])).

Definition tokens_201' : Response :=
  mkResponse 201 "Created" STRAVA_TOKEN_URL
    ("{" ++ q ++ "access_token" ++ q ++ ":" ++ q ++ "P" ++ q ++ ","
         ++ q ++ "refresh_token" ++ q ++ ":" ++ q ++ "Q" ++ q ++ "}")
    (inr (JDict [("access_token", JStr "P"); ("refresh_token", JStr "Q")])).

Definition activities_204 : Response :=
  mkResponse 204 "No Content" STRAVA_ACTIVITIES_URL "[]" (inr (JList [])).

Definition no_secret_cfg : Config :=
  mkConfig (Some "42") None "http://localhost:3000/exchange_token".

Definition other_secret_cfg : Config :=
  mkConfig (Some "42") (Some "0th3r") "http://localhost:3000/exchange_token".

Definition empty_id_cfg : Config :=
  mkConfig (Some "") (Some "s3cr3t") "http://localhost:3000/exchange_token".

Definition refresh_other_request : FlaskRequest :=
  mkRequest (inr (JDict [("refresh_token", JStr "Z9"); ("note", JInt 1)]))
            None [].

Definition auth_url_request : FlaskRequest :=
  mkRequest (inr JNull) None [("scopes", "read"); ("state", "s")].

(* ===================================================================== *)
(** ** Basic facts *)
(* ===================================================================== *)

Lemma calls_note w ev : calls (note w ev) = calls w.
Proof. reflexivity. Qed.

Lemma calls_called w ev : calls (called w ev) = S (calls w).
Proof. reflexivity. Qed.

Lemma io_trace_note_log w level msg :
  io_trace (note w (EvLog level msg)) = io_trace w.
Proof.
  unfold io_trace, note; simpl.
  rewrite filter_app; simpl. apply app_nil_r.
Qed.

Lemma io_trace_note_io w ev :
  is_io ev = true -> io_trace (note w ev) = (io_trace w ++ [ev])%list.
Proof.
  intros H. unfold io_trace, note; simpl.
  rewrite filter_app; simpl. now rewrite H.
Qed.

Lemma io_trace_called w ev :
  is_io ev = true -> io_trace (called w ev) = (io_trace w ++ [ev])%list.
Proof.
  intros H. unfold io_trace, called; simpl.
  rewrite filter_app; simpl. now rewrite H.
Qed.

(* ===================================================================== *)
(** ** C1: the retry bound *)
(* ===================================================================== *)

(** One turn of the loop, with the [Z_lt_dec] tests read as booleans. *)
Lemma retry_loop_step payload max_retries retries net w :
  retry_loop payload max_retries retries net w =
  if retries <? max_retries then
    let w1 := called (note w (EvLog INFO (msg_attempt retries max_retries)))
                     (EvPost STRAVA_TOKEN_URL payload 10) in
    match net (calls w) with
    | Responds response => (Ok (Some response), w1)
    | Fails e =>
        if is_transport_fault e then
          if retries + 1 <? max_retries then
            retry_loop payload max_retries (retries + 1) net
              (note (note w1 (EvLog WARNING (msg_retrying e))) (EvSleep 1))
          else
            (Raise e, note w1 (EvLog ERROR (msg_exhausted max_retries e)))
        else
          (Raise e, note w1 (EvLog ERROR (msg_unexpected e)))
    end
  else (Ok None, w).
Proof.
  rewrite retry_loop_equation_1.
  destruct (Z_lt_dec retries max_retries) as [Hlt | Hge]; simpl.
  - destruct (Z.ltb_spec retries max_retries); [| lia].
    unfold bind, log, emit, requests_post, http_call; simpl.
    destruct (net (calls w)) as [r | e]; [reflexivity |].
    destruct (is_transport_fault e); [| reflexivity].
    destruct (Z_lt_dec (retries + 1) max_retries);
      destruct (Z.ltb_spec (retries + 1) max_retries); try lia; reflexivity.
  - destruct (Z.ltb_spec retries max_retries); [lia | reflexivity].
Qed.

Lemma attempts_trace_S payload n :
  attempts_trace payload (S (S n)) =
  EvPost STRAVA_TOKEN_URL payload 10 :: EvSleep 1
    :: attempts_trace payload (S n).
Proof. reflexivity. Qed.

Lemma transport_faults_tail net from N :
  transport_faults net from (S N) -> transport_faults net (S from) N.
Proof.
  intros H k Hk. destruct (H (S k)) as [e He]; [lia |].
  exists e. now replace (S from + k)%nat with (from + S k)%nat by lia.
Qed.

(** The loop entered with [retries] below the bound, against an upstream
    that fails [N] times and then answers: it makes
    [min (N+1) (max_retries - retries)] attempts, sleeps between any two
    of them, and ends with the answer or with the last fault. *)
Lemma retry_loop_bound payload max_retries (N : nat) :
  forall retries net w resp,
    retries < max_retries ->
    transport_faults net (calls w) N ->
    net (calls w + N)%nat = Responds resp ->
    let attempts :=
      Z.to_nat (Z.min (Z.of_nat N + 1) (max_retries - retries)) in
    let run := retry_loop payload max_retries retries net w in
    calls (snd run) = (calls w + attempts)%nat /\
    io_trace (snd run) = (io_trace w ++ attempts_trace payload attempts)%list /\
    (Z.of_nat N < max_retries - retries -> fst run = Ok (Some resp)) /\
    (max_retries - retries <= Z.of_nat N ->
     exists e, fst run = Raise e /\ is_transport_fault e = true /\
               net (calls w + attempts - 1)%nat = Fails e).
Proof.
  induction N as [| N IH]; intros retries net w resp Hlt Hfaults Hresp;
    cbv zeta; rewrite retry_loop_step; cbv zeta;
    destruct (Z.ltb_spec retries max_retries) as [_ | ?]; try lia.
  - (* the first attempt is answered *)
    rewrite Nat.add_0_r in Hresp. rewrite Hresp; simpl fst; simpl snd.
    replace (Z.to_nat (Z.min (Z.of_nat 0 + 1) (max_retries - retries)))
      with 1%nat by lia.
    rewrite calls_called, calls_note, io_trace_called, io_trace_note_log
      by reflexivity.
    repeat split; try lia; try reflexivity.
  - (* the first attempt fails *)
    destruct (Hfaults 0%nat) as [e [Hnet He]]; [lia |].
    rewrite Nat.add_0_r in Hnet. rewrite Hnet, He.
    destruct (Z.ltb_spec (retries + 1) max_retries) as [Hmore | Hlast].
    + set (w2 := note (note (called _ _) _) (EvSleep 1)).
      assert (Hc : calls w2 = S (calls w)) by reflexivity.
      assert (Hio : io_trace w2 =
                    (io_trace w ++ [EvPost STRAVA_TOKEN_URL payload 10;
                                    EvSleep 1])%list).
      { unfold w2.
        rewrite io_trace_note_io, io_trace_note_log, io_trace_called,
          io_trace_note_log by reflexivity.
        now rewrite <- app_assoc. }
      destruct (IH (retries + 1) net w2 resp Hmore) as (IHc & IHio & IHok & IHerr).
      { rewrite Hc. now apply transport_faults_tail. }
      { rewrite Hc. now replace (S (calls w) + N)%nat
                          with (calls w + S N)%nat by lia. }
      remember (Z.to_nat (Z.min (Z.of_nat N + 1) (max_retries - (retries + 1))))
        as a' eqn:Ea'.
      assert (Ea : Z.to_nat (Z.min (Z.of_nat (S N) + 1) (max_retries - retries))
                   = S a') by lia.
      rewrite Ea. destruct a' as [| a'']; [lia |].
      repeat split.
      * rewrite IHc, Hc. lia.
      * rewrite IHio, Hio, attempts_trace_S, <- app_assoc. reflexivity.
      * intros ?. apply IHok. lia.
      * intros ?. destruct IHerr as (e' & Hr & Ht & Hn); [lia |].
        exists e'. repeat split; trivial.
        rewrite <- Hn. f_equal. lia.
    + replace (Z.to_nat (Z.min (Z.of_nat (S N) + 1) (max_retries - retries)))
        with 1%nat by lia.
      simpl fst; simpl snd.
      rewrite calls_note, calls_called, calls_note, io_trace_note_log,
        io_trace_called, io_trace_note_log by reflexivity.
      repeat split; try lia; try reflexivity.
      intros _. exists e. repeat split; trivial.
      now replace (calls w + 1 - 1)%nat with (calls w) by lia.
Qed.

(** C1 — retry bound.  For every payload and every [max_retries >= 1],
    against an upstream whose POST fails at the transport level exactly
    [N] times and then answers, [make_token_request_with_retry] makes
    exactly [min (N+1) max_retries] POST attempts, with the fixed
    1-unit sleep between each two consecutive attempts (after a failed
    attempt that another one follows) and nowhere else; it returns the
    answer iff [N < max_retries], and otherwise raises the transport
    fault of its last attempt. *)
Theorem C1_retry_bound :
  forall payload max_retries (N : nat) net w resp,
    1 <= max_retries ->
    transport_faults net (calls w) N ->
    net (calls w + N)%nat = Responds resp ->
    let attempts := Z.to_nat (Z.min (Z.of_nat N + 1) max_retries) in
    let run := make_token_request_with_retry payload max_retries net w in
    calls (snd run) = (calls w + attempts)%nat /\
    io_trace (snd run) = (io_trace w ++ attempts_trace payload attempts)%list /\
    (fst run = Ok (Some resp) <-> Z.of_nat N < max_retries) /\
    ((exists r, fst run = Ok r) <-> Z.of_nat N < max_retries) /\
    (max_retries <= Z.of_nat N ->
     exists e, fst run = Raise e /\ is_transport_fault e = true /\
               net (calls w + attempts - 1)%nat = Fails e).
Proof.
  intros payload max_retries N net w resp Hmax Hfaults Hresp.
  destruct (retry_loop_bound payload max_retries N 0 net w resp)
    as (Hc & Hio & Hok & Herr); trivial; [lia |].
  rewrite Z.sub_0_r in *. cbv zeta. unfold make_token_request_with_retry.
  repeat split; trivial.
  - intros Hr. destruct (Z.lt_ge_cases (Z.of_nat N) max_retries) as [| Hge];
      trivial.
    destruct (Herr Hge) as (e & He & _). congruence.
  - intros [r Hr]. destruct (Z.lt_ge_cases (Z.of_nat N) max_retries) as [| Hge];
      trivial.
    destruct (Herr Hge) as (e & He & _). congruence.
  - intros Hlt. eauto.
Qed.

Lemma two_timeouts_faults : transport_faults two_timeouts 0 2.
Proof.
  intros k Hk. destruct k as [| [| k]]; [| | lia];
    (eexists; split; reflexivity).
Qed.

Lemma C1_retry_bound_witness :
  let run := make_token_request_with_retry [] 3 two_timeouts world0 in
  calls (snd run) = 3%nat /\ fst run = Ok (Some token_response_200).
Proof.
  destruct (C1_retry_bound [] 3 2 two_timeouts world0 token_response_200)
    as (Hc & _ & Hok & _).
  - lia.
  - exact two_timeouts_faults.
  - reflexivity.
  - split; [exact Hc | apply Hok; lia].
Defined.

(* ===================================================================== *)
(** ** The token operations, phase by phase *)
(* ===================================================================== *)

Arguments String.append : simpl never.
Arguments str_of_int : simpl never.
Arguments str_take : simpl never.
Arguments str_remove_all : simpl never.
Arguments note : simpl never.
Arguments called : simpl never.
Arguments dict_set : simpl never.
Arguments dict_get : simpl never.
Arguments truthy : simpl never.
Arguments log_safe : simpl never.
Arguments make_token_request_with_retry : simpl never.

Ltac unfold_monad :=
  unfold try_except, bind, ret, raise, log, sleep, emit, flask_json,
    dict_method, the_response, response_json, requests_get, requests_post,
    http_call, jsonify, jsonify_with in *.

(** With the default of three attempts, fewer than three faults end in
    the answer. *)
Lemma retry_answered payload net w N resp :
  (N < 3)%nat ->
  answers_after net (calls w) N resp ->
  exists w2,
    make_token_request_with_retry payload 3 net w = (Ok (Some resp), w2) /\
    calls w2 = (calls w + S N)%nat /\
    io_trace w2 = (io_trace w ++ attempts_trace payload (S N))%list.
Proof.
  intros HN [Hfaults Hresp].
  destruct (retry_loop_bound payload 3 N 0 net w resp)
    as (Hc & Hio & Hok & _); trivial; [lia |].
  unfold make_token_request_with_retry.
  destruct (retry_loop payload 3 0 net w) as [res w2].
  simpl fst in *; simpl snd in *.
  replace (Z.to_nat (Z.min (Z.of_nat N + 1) (3 - 0))) with (S N) in * by lia.
  exists w2. rewrite Hok by lia. auto.
Qed.

(** A single answered attempt: one POST, no sleep. *)
Lemma answered_at_once payload max_retries net w resp :
  1 <= max_retries ->
  net (calls w) = Responds resp ->
  make_token_request_with_retry payload max_retries net w =
  (Ok (Some resp),
   called (note w (EvLog INFO (msg_attempt 0 max_retries)))
          (EvPost STRAVA_TOKEN_URL payload 10)).
Proof.
  intros Hmax Hnet. unfold make_token_request_with_retry.
  rewrite retry_loop_step.
  destruct (Z.ltb_spec 0 max_retries); [| lia].
  cbv zeta. now rewrite Hnet.
Qed.

(** The history the loop leaves depends on the upstream through its
    faults only: the content of an answer is never recorded. *)
Lemma retry_loop_same_faults payload max_retries net net' :
  same_faults net net' ->
  forall n retries w,
    Z.to_nat (max_retries - retries) = n ->
    snd (retry_loop payload max_retries retries net w)
    = snd (retry_loop payload max_retries retries net' w).
Proof.
  intros Hsame. induction n as [| n IH]; intros retries w Hn;
    rewrite !retry_loop_step;
    destruct (Z.ltb_spec retries max_retries); try lia; trivial.
  cbv zeta. specialize (Hsame (calls w)).
  destruct (net (calls w)) as [r | e], (net' (calls w)) as [r' | e'];
    try contradiction; trivial.
  subst e'. destruct (is_transport_fault e); trivial.
  destruct (Z.ltb_spec (retries + 1) max_retries); trivial.
  apply IH. lia.
Qed.

Section TokenOperations.

Variable json_dumps : json -> string.
Variable py_repr : json -> string.
Variable cfg : Config.
Hypothesis configured : credentials_missing cfg = false.

(** [exchange_token] once the retrying request has returned [resp]:
    any status but 200 becomes [{error: ...}] under that status; a 200
    carrying a JSON object is handed on as it is, after one log record
    of the redacted copy. *)
Lemma exchange_token_answered req d net w resp w2 :
  request_json req = inr (JDict d) ->
  truthy (dict_get "code" JNull d) = true ->
  make_token_request_with_retry
    (code_grant cfg (dict_get "code" JNull d)) 3 net
    (before_exchange json_dumps cfg (JDict d) (dict_get "code" JNull d) w)
  = (Ok (Some resp), w2) ->
  let run := exchange_token json_dumps py_repr cfg req net w in
  calls (snd run) = calls w2 /\
  io_trace (snd run) = io_trace w2 /\
  (status_code resp <> 200 ->
   exists detail,
     fst run = Ok (mkHttp (error_json
                             (("Strava API error: "
                                 ++ str_of_int (status_code resp))
                                ++ " - " ++ detail))
                          (status_code resp))) /\
  (status_code resp = 200 ->
   forall token_data, json_body resp = inr (JDict token_data) ->
     fst run = Ok (mkHttp (JDict token_data) 200) /\
     events (snd run) =
     (events w2
        ++ [EvLog INFO "Token exchange response status: 200";
            EvLog INFO ("Token exchange successful: "
                          ++ json_dumps (JDict (log_safe token_data)))])%list).
Proof.
  intros Hreq Htruthy Hrun. cbv zeta.
  unfold exchange_token. unfold_monad.
  rewrite Hreq. cbn. rewrite Htruthy. cbn. rewrite configured. cbn.
  fold (code_grant cfg (dict_get "code" JNull d)).
  fold (before_exchange json_dumps cfg (JDict d) (dict_get "code" JNull d) w).
  rewrite Hrun. cbn.
  destruct (Z.eqb_spec (status_code resp) 200) as [E200 | NE200]; cbn.
  - (* 200 *)
    split; [| split; [| split]]; try contradiction.
    + destruct (json_body resp) as [? | []]; reflexivity.
    + destruct (json_body resp) as [? | []]; cbn;
        now rewrite !io_trace_note_log.
    + intros _ token_data Hbody. rewrite Hbody; cbn. rewrite E200.
      split; [reflexivity |].
      unfold note; cbn. now rewrite <- app_assoc.
  - (* any other status *)
    split; [| split; [| split]]; try contradiction.
    + destruct (json_body resp) as [? | []]; reflexivity.
    + destruct (json_body resp) as [? | []]; cbn;
        now rewrite !io_trace_note_log.
    + intros _. destruct (json_body resp) as [? | []]; cbn; eauto.
Qed.

(** The same reading of [refresh_token]. *)
Lemma refresh_token_answered req d net w resp w2 :
  request_json req = inr (JDict d) ->
  truthy (dict_get "refresh_token" JNull d) = true ->
  make_token_request_with_retry
    (refresh_grant cfg (dict_get "refresh_token" JNull d)) 3 net
    (before_refresh json_dumps cfg (dict_get "refresh_token" JNull d) w)
  = (Ok (Some resp), w2) ->
  let run := refresh_token json_dumps py_repr cfg req net w in
  calls (snd run) = calls w2 /\
  io_trace (snd run) = io_trace w2 /\
  (status_code resp <> 200 ->
   exists detail,
     fst run = Ok (mkHttp (error_json
                             (("Strava API error: "
                                 ++ str_of_int (status_code resp))
                                ++ " - " ++ detail))
                          (status_code resp))) /\
  (status_code resp = 200 ->
   forall token_data, json_body resp = inr (JDict token_data) ->
     fst run = Ok (mkHttp (JDict token_data) 200) /\
     events (snd run) =
     (events w2
        ++ [EvLog INFO "Token refresh response status: 200";
            EvLog INFO ("Token refresh successful: "
                          ++ json_dumps (JDict (log_safe token_data)))])%list).
Proof.
  intros Hreq Htruthy Hrun. cbv zeta.
  unfold refresh_token. unfold_monad.
  rewrite Hreq. cbn. rewrite Htruthy. cbn. rewrite configured. cbn.
  fold (refresh_grant cfg (dict_get "refresh_token" JNull d)).
  fold (before_refresh json_dumps cfg (dict_get "refresh_token" JNull d) w).
  rewrite Hrun. cbn.
  destruct (Z.eqb_spec (status_code resp) 200) as [E200 | NE200]; cbn.
  - split; [| split; [| split]]; try contradiction.
    + destruct (json_body resp) as [? | []]; reflexivity.
    + destruct (json_body resp) as [? | []]; cbn;
        now rewrite !io_trace_note_log.
    + intros _ token_data Hbody. rewrite Hbody; cbn. rewrite E200.
      split; [reflexivity |].
      unfold note; cbn. now rewrite <- app_assoc.
  - split; [| split; [| split]]; try contradiction.
    + destruct (json_body resp) as [? | []]; reflexivity.
    + destruct (json_body resp) as [? | []]; cbn;
        now rewrite !io_trace_note_log.
    + intros _. destruct (json_body resp) as [? | []]; cbn; eauto.
Qed.

Lemma io_trace_before_exchange req_body code w :
  io_trace (before_exchange json_dumps cfg req_body code w) = io_trace w.
Proof. unfold before_exchange. now rewrite !io_trace_note_log. Qed.

Lemma io_trace_before_refresh v w :
  io_trace (before_refresh json_dumps cfg v w) = io_trace w.
Proof. unfold before_refresh. now rewrite !io_trace_note_log. Qed.

(** Both operations against an upstream that answers [resp] after
    [N < 3] transport faults. *)
Lemma exchange_token_after_faults req code net w N resp :
  carries "code" req code ->
  (N < 3)%nat ->
  answers_after net (calls w) N resp ->
  let run := exchange_token json_dumps py_repr cfg req net w in
  calls (snd run) = (calls w + S N)%nat /\
  io_trace (snd run)
  = (io_trace w ++ attempts_trace (code_grant cfg code) (S N))%list /\
  (status_code resp <> 200 ->
   exists detail,
     fst run = Ok (mkHttp (error_json
                             (("Strava API error: "
                                 ++ str_of_int (status_code resp))
                                ++ " - " ++ detail))
                          (status_code resp))) /\
  (status_code resp = 200 ->
   forall token_data, json_body resp = inr (JDict token_data) ->
     fst run = Ok (mkHttp (JDict token_data) 200)).
Proof.
  intros (d & Hreq & Hcode & Htruthy) HN Hnet. subst code.
  destruct (retry_answered
              (code_grant cfg (dict_get "code" JNull d)) net
              (before_exchange json_dumps cfg (JDict d) (dict_get "code" JNull d) w)
              N resp HN Hnet) as (w2 & Hrun & Hc & Hio).
  destruct (exchange_token_answered req d net w resp w2 Hreq Htruthy Hrun)
    as (Rc & Rio & Rerr & Rok).
  cbv zeta. rewrite Rc, Rio, Hc, Hio, io_trace_before_exchange.
  repeat split; trivial.
  intros E200 token_data Hbody. now apply Rok.
Qed.

Lemma refresh_token_after_faults req refresh_token_val net w N resp :
  carries "refresh_token" req refresh_token_val ->
  (N < 3)%nat ->
  answers_after net (calls w) N resp ->
  let run := refresh_token json_dumps py_repr cfg req net w in
  calls (snd run) = (calls w + S N)%nat /\
  io_trace (snd run)
  = (io_trace w
       ++ attempts_trace (refresh_grant cfg refresh_token_val) (S N))%list /\
  (status_code resp <> 200 ->
   exists detail,
     fst run = Ok (mkHttp (error_json
                             (("Strava API error: "
                                 ++ str_of_int (status_code resp))
                                ++ " - " ++ detail))
                          (status_code resp))) /\
  (status_code resp = 200 ->
   forall token_data, json_body resp = inr (JDict token_data) ->
     fst run = Ok (mkHttp (JDict token_data) 200)).
Proof.
  intros (d & Hreq & Hcode & Htruthy) HN Hnet. subst refresh_token_val.
  destruct (retry_answered
              (refresh_grant cfg (dict_get "refresh_token" JNull d)) net
              (before_refresh json_dumps cfg (dict_get "refresh_token" JNull d) w)
              N resp HN Hnet) as (w2 & Hrun & Hc & Hio).
  destruct (refresh_token_answered req d net w resp w2 Hreq Htruthy Hrun)
    as (Rc & Rio & Rerr & Rok).
  cbv zeta. rewrite Rc, Rio, Hc, Hio, io_trace_before_refresh.
  repeat split; trivial.
  intros E200 token_data Hbody. now apply Rok.
Qed.

End TokenOperations.

Lemma answers_at_once net from resp :
  net from = Responds resp -> answers_after net from 0 resp.
Proof.
  intros H. split; [intros k Hk; lia | now rewrite Nat.add_0_r].
Qed.

Lemma sample_configured : credentials_missing sample_cfg = false.
Proof. reflexivity. Qed.

Lemma code_request_carries : carries "code" code_request (JStr "abc123").
Proof. exists [("code", JStr "abc123")]. repeat split. Qed.

(* ===================================================================== *)
(** ** C2, C3: what the token operations make of an answer *)
(* ===================================================================== *)

(** C2 — an HTTP error status is not retried.  When the first POST is
    answered with an error status (4xx or 5xx), the retrying request
    makes that one attempt, never sleeps and returns the answer; both
    token operations then return an [{error: message}] body under the
    upstream's status code. *)
Theorem C2_http_error_not_retried :
  forall json_dumps py_repr cfg payload max_retries net w resp,
    1 <= max_retries ->
    net (calls w) = Responds resp ->
    400 <= status_code resp < 600 ->
    (let run := make_token_request_with_retry payload max_retries net w in
     fst run = Ok (Some resp) /\
     calls (snd run) = S (calls w) /\
     io_trace (snd run)
     = (io_trace w ++ [EvPost STRAVA_TOKEN_URL payload 10])%list) /\
    (credentials_missing cfg = false ->
     forall req code, carries "code" req code ->
       let run := exchange_token json_dumps py_repr cfg req net w in
       (exists msg,
          fst run = Ok (mkHttp (error_json msg) (status_code resp))) /\
       calls (snd run) = S (calls w) /\
       io_trace (snd run)
       = (io_trace w ++ [EvPost STRAVA_TOKEN_URL (code_grant cfg code) 10])%list) /\
    (credentials_missing cfg = false ->
     forall req tok, carries "refresh_token" req tok ->
       let run := refresh_token json_dumps py_repr cfg req net w in
       (exists msg,
          fst run = Ok (mkHttp (error_json msg) (status_code resp))) /\
       calls (snd run) = S (calls w) /\
       io_trace (snd run)
       = (io_trace w ++ [EvPost STRAVA_TOKEN_URL (refresh_grant cfg tok) 10])%list).
Proof.
  intros json_dumps py_repr cfg payload max_retries net w resp Hmax Hnet Hst.
  split; [| split].
  - rewrite (answered_at_once payload max_retries net w resp Hmax Hnet).
    cbv zeta; simpl fst; simpl snd.
    now rewrite calls_called, calls_note, io_trace_called, io_trace_note_log.
  - intros Hcfg req code Hreq.
    destruct (exchange_token_after_faults json_dumps py_repr cfg Hcfg
                req code net w 0 resp Hreq) as (Hc & Hio & Herr & _);
      [lia | now apply answers_at_once |].
    cbv zeta. rewrite Hc, Hio. repeat split; [| lia].
    destruct Herr as [detail ->]; [lia | eauto].
  - intros Hcfg req tok Hreq.
    destruct (refresh_token_after_faults json_dumps py_repr cfg Hcfg
                req tok net w 0 resp Hreq) as (Hc & Hio & Herr & _);
      [lia | now apply answers_at_once |].
    cbv zeta. rewrite Hc, Hio. repeat split; [| lia].
    destruct Herr as [detail ->]; [lia | eauto].
Qed.

Lemma C2_http_error_not_retried_witness :
  (let run := make_token_request_with_retry
                (code_grant sample_cfg (JStr "abc123")) 3
                (always unauthorized_401) world0 in
   fst run = Ok (Some unauthorized_401) /\ calls (snd run) = 1%nat) /\
  (let run := exchange_token sample_dumps sample_dumps sample_cfg
                code_request (always unauthorized_401) world0 in
   (exists msg, fst run = Ok (mkHttp (error_json msg) 401)) /\
   calls (snd run) = 1%nat).
Proof.
  destruct (C2_http_error_not_retried sample_dumps sample_dumps sample_cfg
              (code_grant sample_cfg (JStr "abc123")) 3
              (always unauthorized_401) world0 unauthorized_401)
    as ((Hr & Hc & _) & Hex & _).
  - lia.
  - reflexivity.
  - simpl; lia.
  - split; [split; [exact Hr | exact Hc] |].
    destruct (Hex sample_configured code_request (JStr "abc123")
                code_request_carries) as (Hm & Hc' & _).
    split; [exact Hm | exact Hc'].
Defined.

(** C3 (as amended) — the upstream's answer to exchange-token.  With a
    truthy code and configured credentials, once the upstream answers
    (after fewer than three transport faults): any status other than
    200, the non-2xx ones and 201..299 alike, comes back as
    [{error: message}] under the upstream's status code; status 200 with
    a JSON object comes back as that object under status 200. *)
Theorem C3_upstream_status_relayed :
  forall json_dumps py_repr cfg req code net w N resp,
    credentials_missing cfg = false ->
    carries "code" req code ->
    (N < 3)%nat ->
    answers_after net (calls w) N resp ->
    let run := exchange_token json_dumps py_repr cfg req net w in
    (status_code resp <> 200 ->
     exists msg, fst run = Ok (mkHttp (error_json msg) (status_code resp))) /\
    (status_code resp = 200 ->
     forall token_data, json_body resp = inr (JDict token_data) ->
       fst run = Ok (mkHttp (JDict token_data) 200)).
Proof.
  intros json_dumps py_repr cfg req code net w N resp Hcfg Hreq HN Hnet.
  destruct (exchange_token_after_faults json_dumps py_repr cfg Hcfg
              req code net w N resp Hreq HN Hnet) as (_ & _ & Herr & Hok).
  cbv zeta. split; trivial.
  intros Hst. destruct (Herr Hst) as [detail ->]. eauto.
Qed.

Lemma two_timeouts_answer :
  answers_after two_timeouts (calls world0) 2 token_response_200.
Proof. split; [exact two_timeouts_faults | reflexivity]. Qed.

Lemma C3_upstream_status_relayed_witness :
  fst (exchange_token sample_dumps sample_dumps sample_cfg code_request
         two_timeouts world0)
  = Ok (mkHttp (JDict [("access_token", JStr "X"); ("refresh_token", JStr "Y");
                       ("expires_at", JInt 123)]) 200).
Proof.
  refine (proj2 (C3_upstream_status_relayed sample_dumps sample_dumps
                   sample_cfg code_request (JStr "abc123") two_timeouts
                   world0 2 token_response_200 sample_configured
                   code_request_carries _ two_timeouts_answer)
                eq_refl _ eq_refl).
  lia.
Defined.

(** C3 as stated fails: a 201 answer carrying a JSON object is a 2xx
    answer, and exchange-token does not hand its body on under 200: it
    answers [{error: message}] under 201. *)
Lemma C3_counterexample :
  let run := exchange_token sample_dumps sample_dumps sample_cfg code_request
               (always created_201) world0 in
  200 <= status_code created_201 < 300 /\
  json_body created_201 = inr (JDict [("access_token", JStr "X")]) /\
  (exists msg, fst run = Ok (mkHttp (error_json msg) 201)) /\
  fst run <> Ok (mkHttp (JDict [("access_token", JStr "X")]) 200).
Proof.
  cbv zeta. split; [simpl; lia |]. split; [reflexivity |]. split.
  - eexists. vm_compute. reflexivity.
  - vm_compute. discriminate.
Qed.

(* ===================================================================== *)
(** ** C4, C10: requests turned away before any upstream call *)
(* ===================================================================== *)

Lemma falsy_when_missing_or_empty field d :
  dict_lookup field d = None \/ dict_lookup field d = Some (JStr "") ->
  truthy (dict_get field JNull d) = false.
Proof. unfold dict_get. intros [-> | ->]; reflexivity. Qed.

(** C4 — missing fields.  A JSON-object body without [code] (or with an
    empty one) gets 400 from exchange-token, one without
    [refresh_token] (or with an empty one) gets 400 from refresh-token,
    a request without bearer token gets 401 from activities and from
    athlete-zones; each time the body is [{error: message}] and the
    upstream is not called. *)
Theorem C4_missing_field_rejected :
  forall json_dumps py_repr cfg net w,
    (forall req d,
       request_json req = inr (JDict d) ->
       dict_lookup "code" d = None \/ dict_lookup "code" d = Some (JStr "") ->
       let run := exchange_token json_dumps py_repr cfg req net w in
       fst run = Ok (mkHttp (error_json "No authorization code provided") 400)
       /\ calls (snd run) = calls w /\ io_trace (snd run) = io_trace w) /\
    (forall req d,
       request_json req = inr (JDict d) ->
       dict_lookup "refresh_token" d = None
       \/ dict_lookup "refresh_token" d = Some (JStr "") ->
       let run := refresh_token json_dumps py_repr cfg req net w in
       fst run = Ok (mkHttp (error_json "No refresh token provided") 400)
       /\ calls (snd run) = calls w /\ io_trace (snd run) = io_trace w) /\
    (forall req,
       header_Authorization req = None \/ access_token_of req = "" ->
       get_activities req net w
       = (Ok (mkHttp (error_json "No access token provided") 401), w)
       /\ get_athlete_zones req net w
          = (Ok (mkHttp (error_json "No access token provided") 401), w)).
Proof.
  intros json_dumps py_repr cfg net w. split; [| split].
  - intros req d Hreq Hmissing. cbv zeta.
    apply falsy_when_missing_or_empty in Hmissing.
    unfold exchange_token. unfold_monad.
    rewrite Hreq. cbn. rewrite Hmissing. cbn.
    now rewrite !io_trace_note_log.
  - intros req d Hreq Hmissing. cbv zeta.
    apply falsy_when_missing_or_empty in Hmissing.
    unfold refresh_token. unfold_monad.
    rewrite Hreq. cbn. rewrite Hmissing. cbn. auto.
  - intros req Hno.
    assert (Htok : access_token_of req = "").
    { destruct Hno as [Hnone | Hempty]; trivial.
      unfold access_token_of. now rewrite Hnone. }
    unfold get_activities, get_athlete_zones, truthy_str.
    fold (access_token_of req). rewrite Htok. split; reflexivity.
Qed.

Lemma C4_missing_field_rejected_witness :
  exchange_token sample_dumps sample_dumps sample_cfg no_code_request
    two_timeouts world0
  = (Ok (mkHttp (error_json "No authorization code provided") 400),
     snd (exchange_token sample_dumps sample_dumps sample_cfg no_code_request
            two_timeouts world0))
  /\ calls (snd (exchange_token sample_dumps sample_dumps sample_cfg
                   no_code_request two_timeouts world0)) = 0%nat
  /\ get_activities no_code_request two_timeouts world0
     = (Ok (mkHttp (error_json "No access token provided") 401), world0).
Proof.
  destruct (C4_missing_field_rejected sample_dumps sample_dumps sample_cfg
              two_timeouts world0) as (Hex & _ & Hget).
  destruct (Hex no_code_request [("state", JStr "xyz")] eq_refl
              (or_introl eq_refl)) as (Hr & Hc & _).
  destruct (Hget no_code_request (or_introl eq_refl)) as (Ha & _).
  split; [| split; [exact Hc | exact Ha]].
  rewrite <- Hr. apply surjective_pairing.
Defined.

(** C10 — a body that is no JSON object.  When [request.json] raises
    (the body does not parse) or yields anything but an object ([null],
    a list, a string, a number), exchange-token and refresh-token answer
    500 with [{error: message}], the message being the blanket handler's
    prefix followed by the text of the exception; the upstream is not
    called. *)
Theorem C10_non_object_body_is_500 :
  forall json_dumps py_repr cfg req net w,
    (exists e, request_json req = inl e)
    \/ (exists v, request_json req = inr v /\ not_object v) ->
    (let run := exchange_token json_dumps py_repr cfg req net w in
     (exists x, fst run
                = Ok (mkHttp (error_json
                                ("Exception during token exchange: " ++ x))
                             500)) /\
     calls (snd run) = calls w /\ io_trace (snd run) = io_trace w) /\
    (let run := refresh_token json_dumps py_repr cfg req net w in
     (exists x, fst run
                = Ok (mkHttp (error_json
                                ("Exception during token refresh: " ++ x))
                             500)) /\
     calls (snd run) = calls w /\ io_trace (snd run) = io_trace w).
Proof.
  intros json_dumps py_repr cfg req net w [[e He] | [v [Hv Hnot]]]; cbv zeta;
    unfold exchange_token, refresh_token; unfold_monad; rewrite ?He, ?Hv; cbn.
  - rewrite !io_trace_note_log. repeat split; eauto.
  - destruct v; try (now exfalso; eapply Hnot); cbn;
      rewrite !io_trace_note_log; repeat split; eauto.
Qed.

Lemma null_is_not_object : not_object JNull.
Proof. intros d; discriminate. Qed.

Lemma C10_non_object_body_is_500_witness :
  exists x,
    fst (exchange_token sample_dumps sample_dumps sample_cfg null_request
           two_timeouts world0)
    = Ok (mkHttp (error_json ("Exception during token exchange: " ++ x)) 500).
Proof.
  exact (proj1 (proj1 (C10_non_object_body_is_500 sample_dumps sample_dumps
                         sample_cfg null_request two_timeouts world0
                         (or_intror (ex_intro _ JNull
                                       (conj eq_refl null_is_not_object)))))).
Defined.

(* ===================================================================== *)
(** ** Removing the bearer prefix *)
(* ===================================================================== *)

Lemma prefix_split p : forall s, prefix p s = true -> exists t, s = p ++ t.
Proof.
  induction p as [| c p IH]; intros s H.
  - now exists s.
  - destruct s as [| c' s]; simpl in H; [discriminate |].
    destruct (Ascii.ascii_dec c c') as [-> | _]; [| discriminate].
    destruct (IH s H) as [t ->]. now exists t.
Qed.

Lemma prefix_append p t : prefix p (p ++ t) = true.
Proof.
  induction p as [| c p IH]; simpl.
  - now destruct t.
  - destruct (Ascii.ascii_dec c c); [exact IH | contradiction].
Qed.

Lemma remove_all_from_skip old u : forall t,
  remove_all_from old (String.length u) (u ++ t) = remove_all_from old 0 t.
Proof.
  induction u as [| c u IH]; intros t; simpl.
  - now destruct t.
  - apply IH.
Qed.

(** The three equations that determine [s.replace(old, '')]. *)
Lemma str_remove_all_empty old : str_remove_all old "" = "".
Proof. reflexivity. Qed.

Lemma str_remove_all_occurrence c old t :
  str_remove_all (String c old) (String c old ++ t)
  = str_remove_all (String c old) t.
Proof.
  unfold str_remove_all.
  change (String c old ++ t) with (String c (old ++ t)).
  cbn [remove_all_from].
  change (String c (old ++ t)) with (String c old ++ t).
  rewrite prefix_append. apply remove_all_from_skip.
Qed.

Lemma str_remove_all_other old c t :
  prefix old (String c t) = false ->
  str_remove_all old (String c t) = String c (str_remove_all old t).
Proof.
  intros H. unfold str_remove_all. cbn [remove_all_from]. now rewrite H.
Qed.

(** A string in which [old] does not occur is left as it is. *)
Lemma str_remove_all_absent old s :
  (forall a b, s <> a ++ old ++ b) -> str_remove_all old s = s.
Proof.
  induction s as [| c s IH]; intros Habsent; [reflexivity |].
  rewrite str_remove_all_other.
  - f_equal. apply IH. intros a b ->.
    now apply (Habsent (String c a) b).
  - destruct (prefix old (String c s)) eqn:E; trivial.
    destruct (prefix_split _ _ E) as [t Ht].
    now destruct (Habsent "" t).
Qed.

(* ===================================================================== *)
(** ** The fetch operations as one decision tree *)
(* ===================================================================== *)

Lemma append_nonempty a c b : (a ++ String c b =? "")%string = false.
Proof. destruct a; reflexivity. Qed.

Lemma http_error_msg_empty r :
  (http_error_msg r =? "")%string = negb (is_error_status r).
Proof.
  unfold http_error_msg, is_error_status.
  destruct (Z.leb_spec 400 (status_code r)), (Z.ltb_spec (status_code r) 500),
    (Z.leb_spec 500 (status_code r)), (Z.ltb_spec (status_code r) 600);
    cbn [andb negb]; try lia; try reflexivity;
    rewrite (append_assoc _ " " _) || idtac; apply append_nonempty.
Qed.

Lemma get_activities_fetch req :
  get_activities req =
  if (access_token_of req =? "")%string
  then ret (jsonify_with (error_json "No access token provided") 401)
  else fetch_from STRAVA_ACTIVITIES_URL (activities_params req)
         "Error fetching activities: " (access_token_of req).
Proof.
  unfold get_activities, truthy_str. fold (access_token_of req).
  now destruct (access_token_of req =? "")%string.
Qed.

Lemma get_athlete_zones_fetch req :
  get_athlete_zones req =
  if (access_token_of req =? "")%string
  then ret (jsonify_with (error_json "No access token provided") 401)
  else fetch_from STRAVA_ATHLETE_ZONES_URL []
         "Error fetching athlete zones: " (access_token_of req).
Proof.
  unfold get_athlete_zones, truthy_str. fold (access_token_of req).
  now destruct (access_token_of req =? "")%string.
Qed.

Lemma fetch_from_run target params what tok net w :
  fetch_from target params what tok net w =
  let w1 := called w (EvGet target [("Authorization", "Bearer " ++ tok)]
                        params) in
  match net (calls w) with
  | Responds r =>
      if is_error_status r then
        fetch_failure what (mkExn HTTPError (http_error_msg r) (Some r)) w1
      else
        match json_body r with
        | inr v => (Ok (mkHttp v 200), w1)
        | inl u =>
            if is_RequestException (undecoded_exn u)
            then fetch_failure what (undecoded_exn u) w1
            else (Raise (undecoded_exn u), w1)
        end
  | Fails e =>
      if is_RequestException e then fetch_failure what e w1
      else (Raise e, w1)
  end.
Proof.
  unfold fetch_from, fetch_failure. unfold_monad. unfold raise_for_status.
  cbv zeta. destruct (net (calls w)) as [r | e].
  - rewrite http_error_msg_empty.
    destruct (is_error_status r); cbn.
    + destruct (json_body r) as [[m | [] m] | v]; reflexivity.
    + destruct (json_body r) as [[m | [] m] | v]; reflexivity.
  - destruct (is_RequestException e); [| reflexivity].
    destruct (exn_response e) as [r |]; [| reflexivity].
    destruct (json_body r) as [[m | [] m] | v]; reflexivity.
Qed.

Lemma fetch_failure_world what e w :
  calls (snd (fetch_failure what e w)) = calls w /\
  io_trace (snd (fetch_failure what e w)) = io_trace w.
Proof.
  unfold fetch_failure. cbv zeta.
  destruct (exn_response e) as [r |];
    [destruct (json_body r) as [u | v];
     [destruct (is_ValueError (undecoded_exn u)) |] |];
    simpl snd; now rewrite calls_note, io_trace_note_log.
Qed.

(** A fetch makes exactly one GET, carrying the token, whatever comes
    back. *)
Lemma fetch_from_once target params what tok net w :
  let run := fetch_from target params what tok net w in
  calls (snd run) = S (calls w) /\
  io_trace (snd run)
  = (io_trace w ++ [EvGet target (bearer_header tok)
                      params])%list.
Proof.
  cbv zeta. rewrite fetch_from_run. cbv zeta.
  set (w1 := called w _).
  assert (Hw1 : calls w1 = S (calls w) /\
                io_trace w1
                = (io_trace w ++ [EvGet target (bearer_header tok) params])%list).
  { unfold w1. now rewrite calls_called, io_trace_called. }
  destruct (net (calls w)) as [r | e].
  - destruct (is_error_status r).
    + destruct (fetch_failure_world what
                  (mkExn HTTPError (http_error_msg r) (Some r)) w1) as [-> ->].
      exact Hw1.
    + destruct (json_body r) as [u | v]; [| exact Hw1].
      destruct (is_RequestException (undecoded_exn u)); [| exact Hw1].
      destruct (fetch_failure_world what (undecoded_exn u) w1) as [-> ->].
      exact Hw1.
  - destruct (is_RequestException e); [| exact Hw1].
    destruct (fetch_failure_world what e w1) as [-> ->]. exact Hw1.
Qed.

Lemma transport_fault_is_RequestException e :
  is_transport_fault e = true -> is_RequestException e = true.
Proof.
  unfold is_transport_fault, is_RequestException.
  now destruct (exn_class e).
Qed.

Lemma token_present req :
  access_token_of req <> "" -> (access_token_of req =? "")%string = false.
Proof. intros H. now apply String.eqb_neq. Qed.

(* ===================================================================== *)
(** ** C7, C9: the fetch operations *)
(* ===================================================================== *)


Lemma bearer_request_token : access_token_of bearer_request <> "".
Proof. discriminate. Qed.


(** C9 — the access token is the header with ["Bearer "] removed
    wherever it occurs.  The three equations fix the removal: nothing
    is left of an empty string, an occurrence at the front is dropped
    and the scan goes on behind it, any other character is kept.  A
    header in which ["Bearer "] does not occur is the token as it
    stands.  The request is turned away with 401, before any upstream
    call, exactly when the token is empty; otherwise one GET goes out
    with [Bearer <token>]. *)
Theorem C9_bearer_token_extraction :
  forall req net w,
    let h := match header_Authorization req with
             | Some h => h
             | None => ""
             end in
    access_token_of req = str_remove_all "Bearer " h /\
    (str_remove_all "Bearer " "" = "" /\
     (forall t, str_remove_all "Bearer " ("Bearer " ++ t)
                = str_remove_all "Bearer " t) /\
     (forall c t, prefix "Bearer " (String c t) = false ->
                  str_remove_all "Bearer " (String c t)
                  = String c (str_remove_all "Bearer " t))) /\
    ((forall a b, h <> a ++ "Bearer " ++ b) -> access_token_of req = h) /\
    (access_token_of req = "" ->
     get_activities req net w
     = (Ok (mkHttp (error_json "No access token provided") 401), w) /\
     get_athlete_zones req net w
     = (Ok (mkHttp (error_json "No access token provided") 401), w)) /\
    (access_token_of req <> "" ->
     io_trace (snd (get_activities req net w))
     = (io_trace w ++ [EvGet STRAVA_ACTIVITIES_URL
                         [("Authorization",
                           ("Bearer " ++ access_token_of req)%string)]
                         (activities_params req)])%list /\
     io_trace (snd (get_athlete_zones req net w))
     = (io_trace w ++ [EvGet STRAVA_ATHLETE_ZONES_URL
                         [("Authorization",
                           ("Bearer " ++ access_token_of req)%string)]
                         []])%list).
Proof.
  intros req net w. cbv zeta.
  split; [reflexivity |].
  split; [split; [reflexivity | split] |].
  - intros t. apply (str_remove_all_occurrence "B" "earer " t).
  - intros c t. apply str_remove_all_other.
  - split; [intros Habsent; now apply str_remove_all_absent |].
    rewrite get_activities_fetch, get_athlete_zones_fetch. split.
    + intros ->. split; reflexivity.
    + intros Htok. rewrite token_present by trivial.
      split; apply fetch_from_once.
Qed.

Lemma C9_bearer_token_extraction_witness :
  access_token_of mangled_request = "abc" /\
  io_trace (snd (get_athlete_zones basic_request (always activities_401)
                   world0))
  = [EvGet STRAVA_ATHLETE_ZONES_URL [("Authorization", "Bearer Basic xyz")] []].
Proof.
  split.
  - exact (proj1 (C9_bearer_token_extraction mangled_request
                    (always activities_401) world0)).
  - refine (proj2 (proj2 (proj2 (proj2 (proj2
             (C9_bearer_token_extraction basic_request
                (always activities_401) world0)))) _)).
    discriminate.
Defined.

(* ===================================================================== *)
(** ** C6: no exception leaves an operation *)
(* ===================================================================== *)

Ltac answer_found :=
  eexists; split; [reflexivity | cbn; solve [auto | right; eexists; reflexivity]].

Lemma exchange_token_total json_dumps py_repr cfg req net w :
  exists r,
    fst (exchange_token json_dumps py_repr cfg req net w) = Ok r /\
    (status r = 200 \/ is_error_json (body r)).
Proof.
  unfold exchange_token, is_error_json. unfold_monad.
  destruct (request_json req) as [e | v]; cbn; [answer_found |].
  destruct v; cbn; try answer_found.
  destruct (truthy (dict_get "code" JNull d)); cbn; [| answer_found].
  destruct (credentials_missing cfg); cbn; [answer_found |].
  destruct (make_token_request_with_retry _ _ _ _) as [[[resp |] | e] w2]; cbn;
    try answer_found.
  destruct (status_code resp =? 200); cbn;
    destruct (json_body resp) as [m | []]; cbn; answer_found.
Qed.

Lemma refresh_token_total json_dumps py_repr cfg req net w :
  exists r,
    fst (refresh_token json_dumps py_repr cfg req net w) = Ok r /\
    (status r = 200 \/ is_error_json (body r)).
Proof.
  unfold refresh_token, is_error_json. unfold_monad.
  destruct (request_json req) as [e | v]; cbn; [answer_found |].
  destruct v; cbn; try answer_found.
  destruct (truthy (dict_get "refresh_token" JNull d)); cbn; [| answer_found].
  destruct (credentials_missing cfg); cbn; [answer_found |].
  destruct (make_token_request_with_retry _ _ _ _) as [[[resp |] | e] w2]; cbn;
    try answer_found.
  destruct (status_code resp =? 200); cbn;
    destruct (json_body resp) as [m | []]; cbn; answer_found.
Qed.

Lemma get_auth_url_total cfg req net w :
  exists r,
    fst (get_auth_url cfg req net w) = Ok r /\
    (status r = 200 \/ is_error_json (body r)).
Proof.
  unfold get_auth_url, is_error_json. unfold_monad. cbn.
  destruct (truthy_env (STRAVA_CLIENT_ID cfg)); cbn; answer_found.
Qed.

Lemma fetch_failure_total what e net w :
  (exists resp, upstream_response (net (calls w)) = Some resp /\
                exn_response e = Some resp /\
                decodes_or_not_json resp)
  \/ exn_response e = None ->
  forall w1, exists r,
    fst (fetch_failure what e w1) = Ok r /\
    (is_error_json (body r) \/ relayed net w r).
Proof.
  intros Hresp w1. unfold fetch_failure, is_error_json, relayed. cbv zeta.
  destruct Hresp as [(resp & Hup & -> & Hdec) | ->].
  - destruct (json_body resp) as [[m | cls m] | v] eqn:Hbody.
    + eexists; split; [reflexivity | left; eexists; reflexivity].
    + now destruct (Hdec cls m).
    + eexists; split; [reflexivity | right; exists resp; cbn; auto].
  - eexists; split; [reflexivity | left; eexists; reflexivity].
Qed.

Lemma fetch_from_total target params what tok net w :
  (forall e, net (calls w) = Fails e -> is_RequestException e = true) ->
  (forall resp, upstream_response (net (calls w)) = Some resp ->
                decodes_or_not_json resp) ->
  exists r,
    fst (fetch_from target params what tok net w) = Ok r /\
    (status r = 200 \/ is_error_json (body r) \/ relayed net w r).
Proof.
  intros Hfaults Hdec. rewrite fetch_from_run. cbv zeta.
  destruct (net (calls w)) as [resp | e] eqn:Hnet.
  - destruct (is_error_status resp).
    + destruct (fetch_failure_total what
                  (mkExn HTTPError (http_error_msg resp) (Some resp)) net w)
        with (w1 := called w (EvGet target
                                [("Authorization", "Bearer " ++ tok)] params))
        as (r & Hr & Hshape).
      { left. exists resp. rewrite Hnet. auto. }
      exists r. auto.
    + destruct (json_body resp) as [[m | cls m] | v] eqn:Hbody.
      * destruct (fetch_failure_total what (mkExn JSONDecodeError m None)
                    net w)
          with (w1 := called w (EvGet target
                                  [("Authorization", "Bearer " ++ tok)]
                                  params))
          as (r & Hr & Hshape); [now right |].
        exists r. auto.
      * now destruct (Hdec resp eq_refl cls m).
      * eexists; split; [reflexivity | now left].
  - rewrite (Hfaults e eq_refl).
    destruct (fetch_failure_total what e net w)
      with (w1 := called w (EvGet target
                              [("Authorization", "Bearer " ++ tok)] params))
      as (r & Hr & Hshape).
    { rewrite Hnet. cbn. destruct (exn_response e) as [resp |] eqn:He; eauto.
      left. exists resp. auto. }
    exists r. auto.
Qed.

(** The hypothesis on the client's faults is needed for the fetch
    operations: a fault outside [RequestException] passes through
    them. *)
Remark fetch_from_other_fault target params what tok net w e :
  net (calls w) = Fails e ->
  is_RequestException e = false ->
  fst (fetch_from target params what tok net w) = Raise e.
Proof.
  intros Hnet Hother. rewrite fetch_from_run. cbv zeta.
  now rewrite Hnet, Hother.
Qed.

(** A response whose decoding the handler does not expect is the other
    way out of the fetch operations: a non-error response whose body
    makes the decoder raise outside [RequestException] leaves them as
    that exception. *)
Remark fetch_from_decoder_fault target params what tok net w resp cls msg :
  net (calls w) = Responds resp ->
  is_error_status resp = false ->
  json_body resp = inl (DecoderFault cls msg) ->
  is_RequestException (mkExn cls msg None) = false ->
  fst (fetch_from target params what tok net w) = Raise (mkExn cls msg None).
Proof.
  intros Hnet Hst Hbody Hother. rewrite fetch_from_run. cbv zeta.
  rewrite Hnet, Hst, Hbody. cbn [undecoded_exn]. now rewrite Hother.
Qed.

(** C6 (as amended) — every operation answers.  Whatever the request and
    whatever the upstream does, auth-url, exchange-token and
    refresh-token return a body with a status code and raise nothing;
    so do activities and athlete-zones against a client whose faults
    are [RequestException]s and whose response, when there is one,
    has a body that decodes as JSON or is rejected as not being JSON.
    The body is [{error: message}] unless the status is 200 or, for the
    two fetch operations, the body and status are the upstream's own,
    relayed as they came. *)
Theorem C6_every_operation_answers :
  forall json_dumps py_repr cfg req net w,
    (exists r, fst (get_auth_url cfg req net w) = Ok r /\
               (status r = 200 \/ is_error_json (body r))) /\
    (exists r, fst (exchange_token json_dumps py_repr cfg req net w) = Ok r /\
               (status r = 200 \/ is_error_json (body r))) /\
    (exists r, fst (refresh_token json_dumps py_repr cfg req net w) = Ok r /\
               (status r = 200 \/ is_error_json (body r))) /\
    ((forall e, net (calls w) = Fails e -> is_RequestException e = true) ->
     (forall resp, upstream_response (net (calls w)) = Some resp ->
                   decodes_or_not_json resp) ->
     (exists r, fst (get_activities req net w) = Ok r /\
                (status r = 200 \/ is_error_json (body r) \/ relayed net w r)) /\
     (exists r, fst (get_athlete_zones req net w) = Ok r /\
                (status r = 200 \/ is_error_json (body r) \/ relayed net w r))).
Proof.
  intros json_dumps py_repr cfg req net w.
  split; [apply get_auth_url_total |].
  split; [apply exchange_token_total |].
  split; [apply refresh_token_total |].
  intros Hfaults Hdec.
  rewrite get_activities_fetch, get_athlete_zones_fetch.
  destruct (access_token_of req =? "")%string.
  - split; (eexists; split; [reflexivity |]);
      right; left; eexists; reflexivity.
  - split; now apply fetch_from_total.
Qed.

Lemma always_no_fault resp w :
  forall e, always resp (calls w) = Fails e -> is_RequestException e = true.
Proof. intros e H. discriminate H. Qed.

Lemma activities_401_decodes w :
  forall resp, upstream_response (always activities_401 (calls w)) = Some resp ->
               decodes_or_not_json resp.
Proof. intros resp H cls msg. injection H as <-. discriminate. Qed.

Lemma C6_every_operation_answers_witness :
  exists r,
    fst (get_activities bearer_request (always activities_401) world0) = Ok r
    /\ (status r = 200 \/ is_error_json (body r)
        \/ relayed (always activities_401) world0 r).
Proof.
  exact (proj1 (proj2 (proj2 (proj2
           (C6_every_operation_answers sample_dumps sample_dumps sample_cfg
              bearer_request (always activities_401) world0)))
           (always_no_fault activities_401 world0)
           (activities_401_decodes world0))).
Defined.

(** C6 as stated fails: a 401 from the upstream with a JSON body reaches
    the caller of activities as that body, which is no
    [{error: message}]. *)
Lemma C6_counterexample :
  always activities_401 (calls world0) = Responds activities_401 /\
  status_code activities_401 = 401 /\
  ~ (exists msg s w',
       get_activities bearer_request (always activities_401) world0
       = (Ok (mkHttp (error_json msg) s), w')).
Proof.
  split; [reflexivity |]. split; [reflexivity |].
  intros (msg & s & w' & Hrun).
  vm_compute in Hrun. discriminate Hrun.
Qed.

(* ===================================================================== *)
(** ** C5: refresh-token beside exchange-token *)
(* ===================================================================== *)

Lemma io_shape_note_log w level msg :
  io_shape (note w (EvLog level msg)) = io_shape w.
Proof. unfold io_shape. now rewrite io_trace_note_log. Qed.

Lemma io_shape_note_sleep w n :
  io_shape (note w (EvSleep n)) = (io_shape w ++ [EvSleep n])%list.
Proof.
  unfold io_shape. rewrite io_trace_note_io by reflexivity.
  now rewrite map_app.
Qed.

Lemma io_shape_called_post w target payload timeout :
  io_shape (called w (EvPost target payload timeout))
  = (io_shape w ++ [EvPost target [] timeout])%list.
Proof.
  unfold io_shape. rewrite io_trace_called by reflexivity.
  now rewrite map_app.
Qed.

(** The loop does not look at the payload: two runs that start after the
    same number of calls end alike, whatever they post and whatever was
    logged before. *)
Lemma retry_loop_payload_blind p p' max_retries net :
  forall n retries w w',
    Z.to_nat (max_retries - retries) = n ->
    calls w = calls w' ->
    io_shape w = io_shape w' ->
    let run := retry_loop p max_retries retries net w in
    let run' := retry_loop p' max_retries retries net w' in
    fst run = fst run' /\
    calls (snd run) = calls (snd run') /\
    io_shape (snd run) = io_shape (snd run').
Proof.
  induction n as [| n IH]; intros retries w w' Hn Hc Hs; cbv zeta;
    rewrite !retry_loop_step;
    destruct (Z.ltb_spec retries max_retries); try lia; auto.
  cbv zeta. rewrite <- Hc.
  assert (Hposted :
            forall q1 q2,
              io_shape (called (note w (EvLog INFO q1))
                               (EvPost STRAVA_TOKEN_URL p 10))
              = io_shape (called (note w' (EvLog INFO q2))
                                 (EvPost STRAVA_TOKEN_URL p' 10))).
  { intros. now rewrite !io_shape_called_post, !io_shape_note_log, Hs. }
  destruct (net (calls w)) as [r | e]; simpl fst; simpl snd.
  - rewrite !calls_called, !calls_note. auto.
  - destruct (is_transport_fault e).
    + destruct (Z.ltb_spec (retries + 1) max_retries).
      * apply IH; [lia | |].
        -- now rewrite !calls_note, !calls_called, !calls_note, Hc.
        -- rewrite !io_shape_note_sleep, !io_shape_note_log. f_equal.
           apply Hposted.
      * simpl fst; simpl snd.
        rewrite !io_shape_note_log, !calls_note, !calls_called, !calls_note.
        auto.
    + simpl fst; simpl snd.
      rewrite !io_shape_note_log, !calls_note, !calls_called, !calls_note.
      auto.
Qed.

Ltac same_answer :=
  eexists _, _;
  split; [reflexivity |]; split; [reflexivity |]; split; [reflexivity |];
  cbn;
  split;
  [ first [ left; reflexivity
          | right; left; repeat split; reflexivity
          | right; right; split; [reflexivity |];
            eexists; split; reflexivity ]
  | rewrite ?calls_note, ?io_shape_note_log; auto ].

(** C5 (as amended) — refresh-token beside exchange-token.  On
    corresponding requests, against the same upstream, both operations
    answer with the same status code after the same POSTs and sleeps;
    the bodies are equal too, except that the 400 for the missing field
    and the 500 of the blanket handler name the operation in their
    message. *)
Theorem C5_refresh_mirrors_exchange :
  forall json_dumps py_repr cfg req_e req_r net w,
    same_grant_input req_e req_r ->
    let run_e := exchange_token json_dumps py_repr cfg req_e net w in
    let run_r := refresh_token json_dumps py_repr cfg req_r net w in
    exists r_e r_r,
      fst run_e = Ok r_e /\
      fst run_r = Ok r_r /\
      status r_r = status r_e /\
      same_up_to_wording r_e r_r /\
      calls (snd run_r) = calls (snd run_e) /\
      io_shape (snd run_r) = io_shape (snd run_e).
Proof.
  intros json_dumps py_repr cfg req_e req_r net w Hsame. cbv zeta.
  unfold same_grant_input in Hsame. unfold same_up_to_wording.
  unfold exchange_token, refresh_token. unfold_monad.
  destruct (request_json req_e) as [e | v];
    [| destruct v];
    (destruct (request_json req_r) as [e' | v']; try contradiction);
    try (subst e'; cbn; same_answer);
    try (subst v'; cbn; same_answer).
  - destruct v'; try discriminate Hsame.
    cbn. rewrite <- Hsame.
    destruct (truthy (dict_get "code" JNull d)); cbn; [| same_answer].
    destruct (credentials_missing cfg); cbn; [same_answer |].
    match goal with
    | |- context [make_token_request_with_retry ?p 3 net ?we] =>
        match goal with
        | |- context [make_token_request_with_retry ?p' 3 net ?wr] =>
            lazymatch p' with
            | p => fail
            | _ =>
                destruct (retry_loop_payload_blind p p' 3 net 3 0 we wr)
                  as (Hfst & Hcalls & Hshape);
                [ reflexivity
                | now rewrite !calls_note
                | now rewrite !io_shape_note_log
                | unfold make_token_request_with_retry;
                  destruct (retry_loop p 3 0 net we) as [res w2e];
                  destruct (retry_loop p' 3 0 net wr) as [res' w2r] ]
            end
        end
    end.
    simpl fst in *; simpl snd in *. subst res'.
    destruct res as [[resp |] | e]; cbn; try same_answer.
    destruct (status_code resp =? 200); cbn;
      destruct (json_body resp) as [m | []]; cbn; same_answer.
Qed.

Lemma C5_refresh_mirrors_exchange_witness :
  exists r_e r_r,
    fst (exchange_token sample_dumps sample_dumps sample_cfg code_request
           two_timeouts world0) = Ok r_e /\
    fst (refresh_token sample_dumps sample_dumps sample_cfg refresh_abc_request
           two_timeouts world0) = Ok r_r /\
    status r_r = status r_e /\
    same_up_to_wording r_e r_r /\
    calls (snd (refresh_token sample_dumps sample_dumps sample_cfg
                  refresh_abc_request two_timeouts world0))
    = calls (snd (exchange_token sample_dumps sample_dumps sample_cfg
                    code_request two_timeouts world0)) /\
    io_shape (snd (refresh_token sample_dumps sample_dumps sample_cfg
                     refresh_abc_request two_timeouts world0))
    = io_shape (snd (exchange_token sample_dumps sample_dumps sample_cfg
                       code_request two_timeouts world0)).
Proof.
  exact (C5_refresh_mirrors_exchange sample_dumps sample_dumps sample_cfg
           code_request refresh_abc_request two_timeouts world0 eq_refl).
Defined.

(** C5 as stated fails: on the empty object both operations answer 400,
    with different bodies. *)
Lemma C5_counterexample :
  same_grant_input empty_request empty_request /\
  fst (refresh_token sample_dumps sample_dumps sample_cfg empty_request
         two_timeouts world0)
  = Ok (mkHttp (error_json "No refresh token provided") 400) /\
  fst (exchange_token sample_dumps sample_dumps sample_cfg empty_request
         two_timeouts world0)
  = Ok (mkHttp (error_json "No authorization code provided") 400) /\
  fst (refresh_token sample_dumps sample_dumps sample_cfg empty_request
         two_timeouts world0)
  <> fst (exchange_token sample_dumps sample_dumps sample_cfg empty_request
            two_timeouts world0).
Proof.
  split; [reflexivity |]. split; [reflexivity |]. split; [reflexivity |].
  vm_compute. discriminate.
Qed.

(* ===================================================================== *)
(** ** C8: redaction in the log *)
(* ===================================================================== *)

Lemma is_token_key_name k : is_token_key k = true <-> is_token_name k.
Proof.
  unfold is_token_key, is_token_name.
  rewrite Bool.orb_true_iff, !String.eqb_eq. reflexivity.
Qed.

Lemma is_token_key_other k : is_token_key k = false <-> ~ is_token_name k.
Proof.
  rewrite <- is_token_key_name. now destruct (is_token_key k).
Qed.

Lemma log_safe_redacted d : Forall2 redacted_pair d (log_safe d).
Proof.
  unfold log_safe.
  induction d as [| [k v] d IH]; constructor; trivial.
  unfold redacted_pair; cbn. split; [trivial |].
  destruct (is_token_key k) eqn:Hk; cbn.
  - split; [trivial |]. intros Hother.
    now apply is_token_key_other in Hother; rewrite Hother in Hk.
  - split; [| trivial]. intros Hname.
    now apply is_token_key_name in Hname; rewrite Hname in Hk.
Qed.

Lemma log_safe_same_but_token_values d d' :
  same_but_token_values d d' -> log_safe d' = log_safe d.
Proof.
  unfold same_but_token_values, log_safe.
  induction 1 as [| [k v] [k' v'] d d' [Hkey Hval] _ IH]; cbn; trivial.
  cbn in Hkey, Hval. subst k'. rewrite IH. f_equal.
  destruct (is_token_key k) eqn:Hk; cbn; trivial.
  f_equal. now apply Hval, is_token_key_other.
Qed.

Lemma log_safe_lookup k d :
  dict_lookup k (log_safe d)
  = match dict_lookup k d with
    | Some v => Some (if is_token_key k then REDACTED else v)
    | None => None
    end.
Proof.
  unfold log_safe.
  induction d as [| [k' v] d IH]; cbn; trivial.
  destruct (String.eqb_spec k' k) as [-> | _]; trivial.
  now destruct (is_token_key k).
Qed.

Lemma answering_same_faults net from N resp resp' :
  answers_after net from N resp ->
  same_faults net (answering net (from + N) resp') /\
  answers_after (answering net (from + N) resp') from N resp'.
Proof.
  intros [Hfaults Hresp]. unfold answering. split; [| split].
  - intros k. destruct (Nat.eqb_spec k (from + N)) as [-> | _].
    + now rewrite Hresp.
    + now destruct (net k).
  - intros k Hk. destruct (Nat.eqb_spec (from + k) (from + N)); [lia |].
    now apply Hfaults.
  - now rewrite Nat.eqb_refl.
Qed.

Lemma retry_same_faults payload net net' w :
  same_faults net net' ->
  snd (make_token_request_with_retry payload 3 net w)
  = snd (make_token_request_with_retry payload 3 net' w).
Proof.
  intros H. unfold make_token_request_with_retry.
  now apply (retry_loop_same_faults payload 3 net net' H 3%nat).
Qed.

Section Redaction.

Variable json_dumps : json -> string.
Variable py_repr : json -> string.
Variable cfg : Config.
Hypothesis configured : credentials_missing cfg = false.

Variables (net : Upstream) (w : World) (N : nat).
Variables (resp resp' : Response) (token_data token_data' : dict).
Hypothesis few_faults : (N < 3)%nat.
Hypothesis answered : answers_after net (calls w) N resp.
Hypothesis ok : status_code resp = 200.
Hypothesis ok' : status_code resp' = 200.
Hypothesis decoded : json_body resp = inr (JDict token_data).
Hypothesis decoded' : json_body resp' = inr (JDict token_data').
Hypothesis same_but_tokens : same_but_token_values token_data token_data'.

(** Two runs of exchange-token whose token responses differ in the
    token values only: each caller receives its own response, and the
    two histories are the same. *)
Lemma exchange_token_log_redacted req code :
  carries "code" req code ->
  let run := exchange_token json_dumps py_repr cfg req net w in
  let run' := exchange_token json_dumps py_repr cfg req
                (answering net (calls w + N) resp') w in
  fst run = Ok (mkHttp (JDict token_data) 200) /\
  fst run' = Ok (mkHttp (JDict token_data') 200) /\
  (exists earlier,
     events (snd run) =
     (earlier ++ [EvLog INFO ("Token exchange successful: "
                                ++ json_dumps (JDict (log_safe token_data)))%string])%list) /\
  events (snd run') = events (snd run).
Proof.
  intros (d & Hreq & Hcode & Htruthy). subst code.
  destruct (answering_same_faults net (calls w) N resp resp' answered)
    as [Hsame answered'].
  set (payload := code_grant cfg (dict_get "code" JNull d)).
  set (w1 := before_exchange json_dumps cfg (JDict d)
               (dict_get "code" JNull d) w).
  destruct (retry_answered payload net w1 N resp few_faults answered)
    as (w2 & Hrun & _).
  destruct (retry_answered payload _ w1 N resp' few_faults answered')
    as (w2' & Hrun' & _).
  pose proof (retry_same_faults payload _ _ w1 Hsame) as Hw.
  rewrite Hrun, Hrun' in Hw. simpl in Hw. subst w2'.
  destruct (exchange_token_answered json_dumps py_repr cfg configured
              req d net w resp w2 Hreq Htruthy Hrun) as (_ & _ & _ & Hok).
  destruct (exchange_token_answered json_dumps py_repr cfg configured
              req d _ w resp' w2 Hreq Htruthy Hrun') as (_ & _ & _ & Hok').
  destruct (Hok ok token_data decoded) as [Hbody Hevents].
  destruct (Hok' ok' token_data' decoded') as [Hbody' Hevents'].
  cbv zeta. repeat split; trivial.
  - rewrite Hevents. eexists (events w2 ++ [_])%list.
    now rewrite <- app_assoc.
  - now rewrite Hevents, Hevents',
      (log_safe_same_but_token_values _ _ same_but_tokens).
Qed.

Lemma refresh_token_log_redacted req tok :
  carries "refresh_token" req tok ->
  let run := refresh_token json_dumps py_repr cfg req net w in
  let run' := refresh_token json_dumps py_repr cfg req
                (answering net (calls w + N) resp') w in
  fst run = Ok (mkHttp (JDict token_data) 200) /\
  fst run' = Ok (mkHttp (JDict token_data') 200) /\
  (exists earlier,
     events (snd run) =
     (earlier ++ [EvLog INFO ("Token refresh successful: "
                                ++ json_dumps (JDict (log_safe token_data)))%string])%list) /\
  events (snd run') = events (snd run).
Proof.
  intros (d & Hreq & Hcode & Htruthy). subst tok.
  destruct (answering_same_faults net (calls w) N resp resp' answered)
    as [Hsame answered'].
  set (payload := refresh_grant cfg (dict_get "refresh_token" JNull d)).
  set (w1 := before_refresh json_dumps cfg
               (dict_get "refresh_token" JNull d) w).
  destruct (retry_answered payload net w1 N resp few_faults answered)
    as (w2 & Hrun & _).
  destruct (retry_answered payload _ w1 N resp' few_faults answered')
    as (w2' & Hrun' & _).
  pose proof (retry_same_faults payload _ _ w1 Hsame) as Hw.
  rewrite Hrun, Hrun' in Hw. simpl in Hw. subst w2'.
  destruct (refresh_token_answered json_dumps py_repr cfg configured
              req d net w resp w2 Hreq Htruthy Hrun) as (_ & _ & _ & Hok).
  destruct (refresh_token_answered json_dumps py_repr cfg configured
              req d _ w resp' w2 Hreq Htruthy Hrun') as (_ & _ & _ & Hok').
  destruct (Hok ok token_data decoded) as [Hbody Hevents].
  destruct (Hok' ok' token_data' decoded') as [Hbody' Hevents'].
  cbv zeta. repeat split; trivial.
  - rewrite Hevents. eexists (events w2 ++ [_])%list.
    now rewrite <- app_assoc.
  - now rewrite Hevents, Hevents',
      (log_safe_same_but_token_values _ _ same_but_tokens).
Qed.

End Redaction.

(** C8 (as amended) — redaction.  Let the token endpoint answer 200
    with a mapping that has [access_token] and [refresh_token].  Both
    token operations hand the mapping to the caller unmodified.  The
    record they log is the dump of a copy with the same keys in the same
    order in which the values under [access_token] and [refresh_token]
    are ['[REDACTED]'] and the value under every other key is as it was.
    The token values do not enter the log at all: a second run whose
    token response differs in those two values only leaves the same
    history, record for record. *)
Theorem C8_tokens_redacted_in_log :
  forall json_dumps py_repr cfg net w N resp resp' token_data token_data'
         access refresh,
    credentials_missing cfg = false ->
    (N < 3)%nat ->
    answers_after net (calls w) N resp ->
    status_code resp = 200 ->
    json_body resp = inr (JDict token_data) ->
    dict_lookup "access_token" token_data = Some access ->
    dict_lookup "refresh_token" token_data = Some refresh ->
    status_code resp' = 200 ->
    json_body resp' = inr (JDict token_data') ->
    same_but_token_values token_data token_data' ->
    let net' := answering net (calls w + N) resp' in
    exists logged,
      (Forall2 redacted_pair token_data logged /\
       dict_lookup "access_token" logged = Some (JStr "[REDACTED]") /\
       dict_lookup "refresh_token" logged = Some (JStr "[REDACTED]") /\
       (forall k, k <> "access_token" -> k <> "refresh_token" ->
          dict_lookup k logged = dict_lookup k token_data)) /\
      (forall req code, carries "code" req code ->
         let run := exchange_token json_dumps py_repr cfg req net w in
         let run' := exchange_token json_dumps py_repr cfg req net' w in
         fst run = Ok (mkHttp (JDict token_data) 200) /\
         fst run' = Ok (mkHttp (JDict token_data') 200) /\
         (exists earlier,
            events (snd run) =
            (earlier
               ++ [EvLog INFO ("Token exchange successful: "
                                 ++ json_dumps (JDict logged))%string])%list) /\
         events (snd run') = events (snd run)) /\
      (forall req tok, carries "refresh_token" req tok ->
         let run := refresh_token json_dumps py_repr cfg req net w in
         let run' := refresh_token json_dumps py_repr cfg req net' w in
         fst run = Ok (mkHttp (JDict token_data) 200) /\
         fst run' = Ok (mkHttp (JDict token_data') 200) /\
         (exists earlier,
            events (snd run) =
            (earlier
               ++ [EvLog INFO ("Token refresh successful: "
                                 ++ json_dumps (JDict logged))%string])%list) /\
         events (snd run') = events (snd run)).
Proof.
  intros json_dumps py_repr cfg net w N resp resp' token_data token_data'
    access refresh Hcfg HN Hnet Hok Hbody Ha Hr Hok' Hbody' Hsame.
  cbv zeta. exists (log_safe token_data). split; [| split].
  - split; [apply log_safe_redacted |].
    rewrite !log_safe_lookup, Ha, Hr. repeat split.
    intros k Hk1 Hk2. rewrite log_safe_lookup.
    replace (is_token_key k) with false.
    + now destruct (dict_lookup k token_data).
    + symmetry. apply is_token_key_other. now intros [-> | ->].
  - intros req code Hreq.
    exact (exchange_token_log_redacted json_dumps py_repr cfg Hcfg
             net w N resp resp' token_data token_data'
             HN Hnet Hok Hok' Hbody Hbody' Hsame req code Hreq).
  - intros req tok Hreq.
    exact (refresh_token_log_redacted json_dumps py_repr cfg Hcfg
             net w N resp resp' token_data token_data'
             HN Hnet Hok Hok' Hbody Hbody' Hsame req tok Hreq).
Qed.

Lemma sample_tokens_differ :
  same_but_token_values
    [("access_token", JStr "X"); ("refresh_token", JStr "Y");
     ("expires_at", JInt 123)]
    [("access_token", JStr "P"); ("refresh_token", JStr "Q");
     ("expires_at", JInt 123)].
Proof.
  repeat constructor; cbn; intros Hother;
    solve [reflexivity | exfalso; apply Hother; unfold is_token_name; auto].
Qed.

Lemma C8_tokens_redacted_in_log_witness :
  let run := exchange_token sample_dumps sample_dumps sample_cfg code_request
               two_timeouts world0 in
  let run' := exchange_token sample_dumps sample_dumps sample_cfg code_request
                (answering two_timeouts 2 token_response_200') world0 in
  fst run = Ok (mkHttp (JDict [("access_token", JStr "X");
                               ("refresh_token", JStr "Y");
                               ("expires_at", JInt 123)]) 200) /\
  fst run' = Ok (mkHttp (JDict [("access_token", JStr "P");
                                ("refresh_token", JStr "Q");
                                ("expires_at", JInt 123)]) 200) /\
  events (snd run') = events (snd run).
Proof.
  destruct (C8_tokens_redacted_in_log sample_dumps sample_dumps sample_cfg
              two_timeouts world0 2 token_response_200 token_response_200'
              [("access_token", JStr "X"); ("refresh_token", JStr "Y");
               ("expires_at", JInt 123)]
              [("access_token", JStr "P"); ("refresh_token", JStr "Q");
               ("expires_at", JInt 123)]
              (JStr "X") (JStr "Y")
              sample_configured)
    as (logged & _ & Hex & _);
    try reflexivity;
    [lia | exact two_timeouts_answer | exact sample_tokens_differ |].
  destruct (Hex code_request (JStr "abc123") code_request_carries)
    as (Hb & Hb' & _ & Hev).
  cbv zeta. split; [exact Hb | split; [exact Hb' | exact Hev]].
Defined.

(** C8 as stated fails: a 201 answer that carries both tokens is a
    successful answer, and exchange-token writes its dump to the log
    with the token values in it, so that other token values leave
    another log; the caller gets [{error: message}] with the dump in the
    message, not the mapping. *)
Lemma C8_counterexample :
  let token_data := [("access_token", JStr "X"); ("refresh_token", JStr "Y")] in
  let run := exchange_token sample_dumps sample_dumps sample_cfg code_request
               (always tokens_201) world0 in
  let run' := exchange_token sample_dumps sample_dumps sample_cfg code_request
                (always tokens_201') world0 in
  200 <= status_code tokens_201 < 300 /\
  json_body tokens_201 = inr (JDict token_data) /\
  sample_dumps (JDict token_data)
  = ("{" ++ q ++ "access_token" ++ q ++ ": " ++ q ++ "X" ++ q ++ ", "
         ++ q ++ "refresh_token" ++ q ++ ": " ++ q ++ "Y" ++ q ++ "}")%string /\
  In (EvLog ERROR ("Token exchange error response: "
                     ++ sample_dumps (JDict token_data))%string)
     (events (snd run)) /\
  fst run
  = Ok (mkHttp (error_json ("Strava API error: 201 - "
                              ++ sample_dumps (JDict token_data))%string) 201) /\
  fst run <> Ok (mkHttp (JDict token_data) 200) /\
  same_but_token_values token_data
    [("access_token", JStr "P"); ("refresh_token", JStr "Q")] /\
  events (snd run') <> events (snd run).
Proof.
  cbv zeta. split; [simpl; lia |]. split; [reflexivity |].
  split; [reflexivity |]. split; [vm_compute; tauto |].
  split; [reflexivity |]. split; [vm_compute; discriminate |].
  split; [| vm_compute; discriminate].
  repeat constructor; cbn; intros Hother;
    exfalso; apply Hother; unfold is_token_name; auto.
Qed.

(* ===================================================================== *)
(** ** The retrying request against any upstream *)
(* ===================================================================== *)

Lemma attempts_trace_snoc payload k :
  (1 <= k)%nat ->
  (EvPost STRAVA_TOKEN_URL payload 10 :: EvSleep 1 :: attempts_trace payload k)
  = attempts_trace payload (S k).
Proof. destruct k; [lia | reflexivity]. Qed.

(** Whatever the upstream does, a loop entered below the bound makes
    between one attempt and as many as are left; all attempts but the
    last met a transport fault; what the last attempt met is what the
    loop ends with, and a transport fault ends it only when no attempt
    is left. *)
Lemma retry_loop_any payload max_retries net :
  forall n retries w,
    Z.to_nat (max_retries - retries) = n ->
    retries < max_retries ->
    let run := retry_loop payload max_retries retries net w in
    exists k,
      (1 <= k <= n)%nat /\
      calls (snd run) = (calls w + k)%nat /\
      io_trace (snd run) = (io_trace w ++ attempts_trace payload k)%list /\
      transport_faults net (calls w) (k - 1) /\
      match fst run with
      | Ok (Some resp) => net (calls w + (k - 1))%nat = Responds resp
      | Ok None => False
      | Raise e =>
          net (calls w + (k - 1))%nat = Fails e /\
          (is_transport_fault e = true -> k = n)
      end.
Proof.
  induction n as [| n IH]; intros retries w Hn Hlt; [lia |].
  cbv zeta. rewrite retry_loop_step.
  destruct (Z.ltb_spec retries max_retries) as [_ | ?]; [| lia].
  cbv zeta.
  set (w1 := called (note w (EvLog INFO (msg_attempt retries max_retries)))
                    (EvPost STRAVA_TOKEN_URL payload 10)).
  assert (Hw1 : calls w1 = (calls w + 1)%nat /\
                io_trace w1 = (io_trace w ++ attempts_trace payload 1)%list).
  { unfold w1. rewrite calls_called, calls_note, io_trace_called,
      io_trace_note_log by reflexivity. split; [lia | reflexivity]. }
  assert (Hnone : transport_faults net (calls w) (1 - 1)).
  { intros j Hj. lia. }
  destruct (net (calls w)) as [resp | e] eqn:Hnet.
  - exists 1%nat. simpl fst; simpl snd.
    replace (calls w + (1 - 1))%nat with (calls w) by lia.
    repeat split; try lia; tauto.
  - destruct (is_transport_fault e) eqn:Hkind.
    + destruct (Z.ltb_spec (retries + 1) max_retries) as [Hmore | Hlast].
      * set (w2 := note (note w1 _) (EvSleep 1)).
        assert (Hc2 : calls w2 = S (calls w)).
        { unfold w2. rewrite !calls_note. lia. }
        assert (Hio2 : io_trace w2 =
                       (io_trace w ++ [EvPost STRAVA_TOKEN_URL payload 10;
                                       EvSleep 1])%list).
        { unfold w2. rewrite io_trace_note_io, io_trace_note_log by reflexivity.
          destruct Hw1 as [_ ->]. now rewrite <- app_assoc. }
        destruct (IH (retries + 1) w2) as (k & Hk & Hc & Hio & Hf & Hres);
          [lia | exact Hmore |].
        cbv iota. exists (S k). repeat split; try lia.
        -- rewrite Hio, Hio2, <- app_assoc. cbn [app].
           now rewrite attempts_trace_snoc by lia.
        -- intros j Hj. destruct j as [| j].
           ++ exists e. now rewrite Nat.add_0_r.
           ++ destruct (Hf j) as (e' & He' & Ht'); [lia |].
              exists e'. rewrite Hc2 in He'.
              now replace (calls w + S j)%nat with (S (calls w) + j)%nat by lia.
        -- rewrite Hc2 in Hres.
           replace (calls w + (S k - 1))%nat
             with (S (calls w) + (k - 1))%nat by lia.
           destruct (fst (retry_loop payload max_retries (retries + 1) net w2))
             as [[resp |] | e']; trivial.
           destruct Hres as [Hlastcall Hfull]. split; trivial.
           intros Ht. specialize (Hfull Ht). lia.
      * exists 1%nat. simpl fst; simpl snd.
        rewrite calls_note, io_trace_note_log.
        replace (calls w + (1 - 1))%nat with (calls w) by lia.
        repeat split; try lia; try tauto. 
    + exists 1%nat. simpl fst; simpl snd.
      rewrite calls_note, io_trace_note_log.
      replace (calls w + (1 - 1))%nat with (calls w) by lia.
      repeat split; try lia; try tauto. congruence.
Qed.

Lemma make_token_request_any payload max_retries net w :
  1 <= max_retries ->
  let run := make_token_request_with_retry payload max_retries net w in
  exists k,
    (1 <= k)%nat /\ Z.of_nat k <= max_retries /\
    calls (snd run) = (calls w + k)%nat /\
    io_trace (snd run) = (io_trace w ++ attempts_trace payload k)%list /\
    transport_faults net (calls w) (k - 1) /\
    match fst run with
    | Ok (Some resp) => net (calls w + (k - 1))%nat = Responds resp
    | Ok None => False
    | Raise e =>
        net (calls w + (k - 1))%nat = Fails e /\
        (is_transport_fault e = true -> Z.of_nat k = max_retries)
    end.
Proof.
  intros Hmax. cbv zeta. unfold make_token_request_with_retry.
  destruct (retry_loop_any payload max_retries net
              (Z.to_nat (max_retries - 0)) 0 w eq_refl)
    as (k & Hk & Hc & Hio & Hf & Hres); [lia |].
  exists k. repeat split; trivial; try lia.
  destruct (fst (retry_loop payload max_retries 0 net w)) as [[resp |] | e];
    trivial.
  destruct Hres as [Hlast Hfull]. split; trivial.
  intros Ht. specialize (Hfull Ht). lia.
Qed.

(** Against an upstream whose first [N] outcomes are transport faults
    and whose next one is not, the request ends at attempt [N+1]
    provided that attempt is within the bound. *)
Lemma make_token_request_ends_at payload max_retries (N : nat) net w :
  Z.of_nat N < max_retries ->
  transport_faults net (calls w) N ->
  (forall e, net (calls w + N)%nat = Fails e -> is_transport_fault e = false) ->
  let run := make_token_request_with_retry payload max_retries net w in
  calls (snd run) = (calls w + S N)%nat /\
  io_trace (snd run) = (io_trace w ++ attempts_trace payload (S N))%list /\
  match fst run with
  | Ok (Some resp) => net (calls w + N)%nat = Responds resp
  | Ok None => False
  | Raise e => net (calls w + N)%nat = Fails e
  end.
Proof.
  intros HN Hfaults Hend. cbv zeta.
  destruct (make_token_request_any payload max_retries net w)
    as (k & Hk & Hle & Hc & Hio & Hf & Hres); [lia |].
  assert (Hk' : k = S N).
  { destruct (Nat.lt_trichotomy (k - 1) N) as [Hlt | [Heq | Hgt]]; [| lia |].
    - exfalso. destruct (Hfaults (k - 1)%nat Hlt) as (e' & He' & Ht').
      destruct (fst (make_token_request_with_retry payload max_retries net w))
        as [[resp |] | e]; trivial.
      + congruence.
      + destruct Hres as [Hlast Hfull].
        assert (e = e') by congruence. subst e'.
        specialize (Hfull Ht'). lia.
    - exfalso. destruct (Hf N Hgt) as (e' & He' & Ht').
      specialize (Hend e' He'). congruence. }
  subst k. replace (S N - 1)%nat with N in Hres by lia.
  repeat split; trivial.
  destruct (fst (make_token_request_with_retry payload max_retries net w))
    as [[resp |] | e]; tauto.
Qed.

(** X1 — the retrying request against any upstream.  For every
    [max_retries >= 1] and every behaviour of the client,
    [make_token_request_with_retry] makes between 1 and [max_retries]
    POSTs with one sleep between each two; every attempt before the
    last met a transport fault; it returns the response of the last
    attempt or raises its fault, never [None]; and a transport fault is
    raised only after all [max_retries] attempts. *)
Theorem X1_retry_any_upstream :
  forall payload max_retries net w,
    1 <= max_retries ->
    let run := make_token_request_with_retry payload max_retries net w in
    exists k,
      (1 <= k)%nat /\ Z.of_nat k <= max_retries /\
      calls (snd run) = (calls w + k)%nat /\
      io_trace (snd run) = (io_trace w ++ attempts_trace payload k)%list /\
      transport_faults net (calls w) (k - 1) /\
      match fst run with
      | Ok (Some resp) => net (calls w + (k - 1))%nat = Responds resp
      | Ok None => False
      | Raise e =>
          net (calls w + (k - 1))%nat = Fails e /\
          (is_transport_fault e = true -> Z.of_nat k = max_retries)
      end.
Proof.
  intros payload max_retries net w Hmax.
  now apply make_token_request_any.
Qed.

Lemma X1_retry_any_upstream_witness :
  exists k,
    (1 <= k)%nat /\ Z.of_nat k <= 3 /\
    calls (snd (make_token_request_with_retry [] 3 fault_then_other world0))
    = (0 + k)%nat.
Proof.
  destruct (X1_retry_any_upstream [] 3 fault_then_other world0)
    as (k & Hk & Hle & Hc & _); [lia |].
  exists k. auto.
Defined.

(** X2 — a fault that is no transport fault is not retried.  After
    [N < max_retries] transport faults, a fault of any other kind ends
    the retrying request at once: [N+1] POSTs, [N] sleeps, and that
    fault raised. *)
Theorem X2_other_fault_not_retried :
  forall payload max_retries (N : nat) net w e,
    Z.of_nat N < max_retries ->
    transport_faults net (calls w) N ->
    net (calls w + N)%nat = Fails e ->
    is_transport_fault e = false ->
    let run := make_token_request_with_retry payload max_retries net w in
    fst run = Raise e /\
    calls (snd run) = (calls w + S N)%nat /\
    io_trace (snd run) = (io_trace w ++ attempts_trace payload (S N))%list.
Proof.
  intros payload max_retries N net w e HN Hfaults Hnet Hkind. cbv zeta.
  destruct (make_token_request_ends_at payload max_retries N net w HN Hfaults)
    as (Hc & Hio & Hres).
  { intros e' He'. congruence. }
  repeat split; trivial.
  destruct (fst (make_token_request_with_retry payload max_retries net w))
    as [[resp |] | e']; try congruence; contradiction.
Qed.

Lemma fault_then_other_first : transport_faults fault_then_other 0 1.
Proof.
  intros k Hk. destruct k; [| lia]. eexists; split; reflexivity.
Qed.

Lemma X2_other_fault_not_retried_witness :
  fst (make_token_request_with_retry [] 3 fault_then_other world0)
  = Raise (mkExn OtherRequestException "Invalid URL" None) /\
  calls (snd (make_token_request_with_retry [] 3 fault_then_other world0))
  = 2%nat.
Proof.
  destruct (X2_other_fault_not_retried [] 3 1 fault_then_other world0
              (mkExn OtherRequestException "Invalid URL" None))
    as (Hr & Hc & _).
  - lia.
  - exact fault_then_other_first.
  - reflexivity.
  - reflexivity.
  - split; [exact Hr | exact Hc].
Defined.

(** X3 — no attempt is left from the start.  With [max_retries <= 0]
    the loop body never runs: the retrying request returns [None]
    without a POST, a sleep or a log record. *)
Theorem X3_no_attempts_returns_none :
  forall payload max_retries net w,
    max_retries <= 0 ->
    make_token_request_with_retry payload max_retries net w = (Ok None, w).
Proof.
  intros payload max_retries net w Hmax.
  unfold make_token_request_with_retry. rewrite retry_loop_step.
  destruct (Z.ltb_spec 0 max_retries); [lia | reflexivity].
Qed.

Lemma X3_no_attempts_returns_none_witness :
  make_token_request_with_retry [] 0 two_timeouts world0 = (Ok None, world0).
Proof.
  apply (X3_no_attempts_returns_none [] 0 two_timeouts world0). lia.
Defined.

(* ===================================================================== *)
(** ** The token operations as decision trees *)
(* ===================================================================== *)

Lemma exchange_token_tree json_dumps py_repr cfg req net w :
  exchange_token json_dumps py_repr cfg req net w =
  match request_json req with
  | inl e => token_blanket "exchange" e w
  | inr v =>
      let w0 := note w (EvLog INFO ("Token exchange request received: "
                                      ++ json_dumps v)) in
      match v with
      | JDict d =>
          let code := dict_get "code" JNull d in
          if negb (truthy code) then
            (Ok (mkHttp (error_json "No authorization code provided") 400),
             note w0 (EvLog WARNING "No authorization code provided in request"))
          else if credentials_missing cfg then
            (Ok (mkHttp (error_json
                           "Server configuration error: API credentials missing")
                        500),
             note w0 (EvLog ERROR
                        "Strava API credentials are not configured on the server."))
          else
            token_finish "exchange" json_dumps py_repr
              (make_token_request_with_retry (code_grant cfg code) 3 net
                 (before_exchange json_dumps cfg v code w))
      | _ =>
          token_blanket "exchange"
            (mkExn AttributeError
               ("'" ++ type_name v ++ "' object has no attribute 'get'") None)
            w0
      end
  end.
Proof.
  unfold exchange_token, token_blanket. unfold_monad.
  destruct (request_json req) as [e | v]; cbn; [reflexivity |].
  destruct v; cbn; try reflexivity.
  destruct (truthy (dict_get "code" JNull d)); cbn; [| reflexivity].
  destruct (credentials_missing cfg); cbn; [reflexivity |].
  fold (code_grant cfg (dict_get "code" JNull d)).
  fold (before_exchange json_dumps cfg (JDict d) (dict_get "code" JNull d) w).
  destruct (make_token_request_with_retry _ _ _ _) as [[[resp |] | e] w2];
    cbn; try reflexivity.
  unfold error_detail.
  destruct (status_code resp =? 200); cbn;
    destruct (json_body resp) as [m | []]; reflexivity.
Qed.

Lemma refresh_token_tree json_dumps py_repr cfg req net w :
  refresh_token json_dumps py_repr cfg req net w =
  match request_json req with
  | inl e => token_blanket "refresh" e w
  | inr v =>
      match v with
      | JDict d =>
          let tok := dict_get "refresh_token" JNull d in
          if negb (truthy tok) then
            (Ok (mkHttp (error_json "No refresh token provided") 400), w)
          else if credentials_missing cfg then
            (Ok (mkHttp (error_json
                           "Server configuration error: API credentials missing")
                        500),
             note w (EvLog ERROR
                       "Strava API credentials are not configured on the server."))
          else
            token_finish "refresh" json_dumps py_repr
              (make_token_request_with_retry (refresh_grant cfg tok) 3 net
                 (before_refresh json_dumps cfg tok w))
      | _ =>
          token_blanket "refresh"
            (mkExn AttributeError
               ("'" ++ type_name v ++ "' object has no attribute 'get'") None)
            w
      end
  end.
Proof.
  unfold refresh_token, token_blanket. unfold_monad.
  destruct (request_json req) as [e | v]; cbn; [reflexivity |].
  destruct v; cbn; try reflexivity.
  destruct (truthy (dict_get "refresh_token" JNull d)); cbn; [| reflexivity].
  destruct (credentials_missing cfg); cbn; [reflexivity |].
  fold (refresh_grant cfg (dict_get "refresh_token" JNull d)).
  fold (before_refresh json_dumps cfg (dict_get "refresh_token" JNull d) w).
  destruct (make_token_request_with_retry _ _ _ _) as [[[resp |] | e] w2];
    cbn; try reflexivity.
  unfold error_detail.
  destruct (status_code resp =? 200); cbn;
    destruct (json_body resp) as [m | []]; reflexivity.
Qed.

(** For a request that carries the field, with credentials configured,
    only the last branch of the tree is left. *)
Lemma exchange_token_accepted json_dumps py_repr cfg req code net w :
  credentials_missing cfg = false ->
  carries "code" req code ->
  exists w1,
    calls w1 = calls w /\ io_trace w1 = io_trace w /\
    exchange_token json_dumps py_repr cfg req net w
    = token_finish "exchange" json_dumps py_repr
        (make_token_request_with_retry (code_grant cfg code) 3 net w1).
Proof.
  intros Hcfg (d & Hreq & Hcode & Htruthy).
  exists (before_exchange json_dumps cfg (JDict d) code w).
  rewrite exchange_token_tree, Hreq. cbv zeta.
  rewrite Hcode, Htruthy, Hcfg. cbn [negb].
  now rewrite io_trace_before_exchange.
Qed.

Lemma refresh_token_accepted json_dumps py_repr cfg req tok net w :
  credentials_missing cfg = false ->
  carries "refresh_token" req tok ->
  exists w1,
    calls w1 = calls w /\ io_trace w1 = io_trace w /\
    refresh_token json_dumps py_repr cfg req net w
    = token_finish "refresh" json_dumps py_repr
        (make_token_request_with_retry (refresh_grant cfg tok) 3 net w1).
Proof.
  intros Hcfg (d & Hreq & Hcode & Htruthy).
  exists (before_refresh json_dumps cfg tok w).
  rewrite refresh_token_tree, Hreq. cbv zeta.
  rewrite Hcode, Htruthy, Hcfg. cbn [negb].
  now rewrite io_trace_before_refresh.
Qed.

(** Finishing logs, and does nothing else to the world. *)
Lemma token_finish_world op json_dumps py_repr res w2 :
  calls (snd (token_finish op json_dumps py_repr (res, w2))) = calls w2 /\
  io_trace (snd (token_finish op json_dumps py_repr (res, w2))) = io_trace w2.
Proof.
  unfold token_finish, token_blanket.
  destruct res as [[resp |] | e]; cbv zeta;
    [destruct (negb (status_code resp =? 200));
     destruct (json_body resp) as [m | []] | |];
    simpl snd; now rewrite ?calls_note, ?io_trace_note_log.
Qed.

(** Three transport faults in a row use up the default bound. *)
Lemma make_token_request_exhausted payload net w :
  transport_faults net (calls w) 3 ->
  exists e,
    net (calls w + 2)%nat = Fails e /\
    fst (make_token_request_with_retry payload 3 net w) = Raise e /\
    calls (snd (make_token_request_with_retry payload 3 net w))
    = (calls w + 3)%nat /\
    io_trace (snd (make_token_request_with_retry payload 3 net w))
    = (io_trace w ++ attempts_trace payload 3)%list.
Proof.
  intros Hfaults.
  destruct (make_token_request_any payload 3 net w)
    as (k & Hk & Hle & Hc & Hio & _ & Hres); [lia |].
  assert (Hlast : exists e', net (calls w + (k - 1))%nat = Fails e' /\
                             is_transport_fault e' = true)
    by (apply Hfaults; lia).
  destruct Hlast as (e' & He' & Ht').
  destruct (fst (make_token_request_with_retry payload 3 net w))
    as [[resp |] | e]; [congruence | contradiction |].
  destruct Hres as [Hlast Hfull].
  assert (e = e') by congruence. subst e'.
  assert (k = 3%nat) by (specialize (Hfull Ht'); lia). subst k.
  exists e. now rewrite Hc, Hio.
Qed.

(* ===================================================================== *)
(** ** Further properties of the token operations *)
(* ===================================================================== *)

(** X4 — the transport fault that outlives the retries.  When the
    upstream fails at the transport level three times in a row, both
    token operations answer 500 with the blanket handler's message
    ending in the text of the third fault, after three POSTs and two
    sleeps. *)
Theorem X4_exhausted_retries_answer_500 :
  forall json_dumps py_repr cfg net w,
    credentials_missing cfg = false ->
    transport_faults net (calls w) 3 ->
    exists e,
      net (calls w + 2)%nat = Fails e /\
      (forall req code, carries "code" req code ->
         let run := exchange_token json_dumps py_repr cfg req net w in
         fst run = Ok (mkHttp (error_json ("Exception during token exchange: "
                                             ++ exn_str e)) 500) /\
         calls (snd run) = (calls w + 3)%nat /\
         io_trace (snd run)
         = (io_trace w ++ attempts_trace (code_grant cfg code) 3)%list) /\
      (forall req tok, carries "refresh_token" req tok ->
         let run := refresh_token json_dumps py_repr cfg req net w in
         fst run = Ok (mkHttp (error_json ("Exception during token refresh: "
                                             ++ exn_str e)) 500) /\
         calls (snd run) = (calls w + 3)%nat /\
         io_trace (snd run)
         = (io_trace w ++ attempts_trace (refresh_grant cfg tok) 3)%list).
Proof.
  intros json_dumps py_repr cfg net w Hcfg Hfaults.
  destruct (Hfaults 2%nat) as (e & He & _); [lia |].
  exists e. split; [exact He |]. split.
  - intros req code Hreq. cbv zeta.
    destruct (exchange_token_accepted json_dumps py_repr cfg req code net w
                Hcfg Hreq) as (w1 & Hc1 & Hio1 & ->).
    destruct (make_token_request_exhausted (code_grant cfg code) net w1)
      as (e' & He' & Hr & Hc & Hio); [now rewrite Hc1 |].
    rewrite Hc1 in He'. assert (e' = e) by congruence. subst e'.
    destruct (make_token_request_with_retry _ 3 net w1) as [res w2].
    simpl fst in Hr; simpl snd in Hc, Hio. subst res.
    destruct (token_finish_world "exchange" json_dumps py_repr (Raise e) w2)
      as [-> ->].
    rewrite Hc, Hio, Hc1, Hio1. repeat split.
  - intros req tok Hreq. cbv zeta.
    destruct (refresh_token_accepted json_dumps py_repr cfg req tok net w
                Hcfg Hreq) as (w1 & Hc1 & Hio1 & ->).
    destruct (make_token_request_exhausted (refresh_grant cfg tok) net w1)
      as (e' & He' & Hr & Hc & Hio); [now rewrite Hc1 |].
    rewrite Hc1 in He'. assert (e' = e) by congruence. subst e'.
    destruct (make_token_request_with_retry _ 3 net w1) as [res w2].
    simpl fst in Hr; simpl snd in Hc, Hio. subst res.
    destruct (token_finish_world "refresh" json_dumps py_repr (Raise e) w2)
      as [-> ->].
    rewrite Hc, Hio, Hc1, Hio1. repeat split.
Qed.

Lemma three_timeouts_faults : transport_faults three_timeouts (calls world0) 3.
Proof. intros k Hk. eexists; split; reflexivity. Qed.

Lemma X4_exhausted_retries_answer_500_witness :
  exists e,
    three_timeouts 2%nat = Fails e /\
    fst (exchange_token sample_dumps sample_dumps sample_cfg code_request
           three_timeouts world0)
    = Ok (mkHttp (error_json ("Exception during token exchange: "
                                ++ exn_str e)) 500).
Proof.
  destruct (X4_exhausted_retries_answer_500 sample_dumps sample_dumps
              sample_cfg three_timeouts world0 sample_configured
              three_timeouts_faults) as (e & He & Hex & _).
  exists e. split; [exact He |].
  exact (proj1 (Hex code_request (JStr "abc123") code_request_carries)).
Defined.

(** X5 — credentials missing.  A request that carries its field is
    answered 500 with the configuration message, and without any
    upstream call, whenever the client id or the client secret is unset
    or empty. *)
Theorem X5_missing_credentials_answer_500 :
  forall json_dumps py_repr cfg net w,
    truthy_env (STRAVA_CLIENT_ID cfg) = false
    \/ truthy_env (STRAVA_CLIENT_SECRET cfg) = false ->
    (forall req code, carries "code" req code ->
       let run := exchange_token json_dumps py_repr cfg req net w in
       fst run = Ok (mkHttp (error_json
                               "Server configuration error: API credentials missing")
                            500) /\
       calls (snd run) = calls w /\ io_trace (snd run) = io_trace w) /\
    (forall req tok, carries "refresh_token" req tok ->
       let run := refresh_token json_dumps py_repr cfg req net w in
       fst run = Ok (mkHttp (error_json
                               "Server configuration error: API credentials missing")
                            500) /\
       calls (snd run) = calls w /\ io_trace (snd run) = io_trace w).
Proof.
  intros json_dumps py_repr cfg net w Hmissing.
  assert (Hcfg : credentials_missing cfg = true).
  { unfold credentials_missing. destruct Hmissing as [-> | ->]; cbn [negb];
      [reflexivity | apply orb_true_r]. }
  split.
  - intros req code (d & Hreq & Hcode & Htruthy). cbv zeta.
    rewrite exchange_token_tree, Hreq. cbv zeta.
    rewrite Hcode, Htruthy, Hcfg. cbn [negb fst snd].
    now rewrite calls_note, !io_trace_note_log.
  - intros req tok (d & Hreq & Hcode & Htruthy). cbv zeta.
    rewrite refresh_token_tree, Hreq. cbv zeta.
    rewrite Hcode, Htruthy, Hcfg. cbn [negb fst snd].
    now rewrite calls_note, !io_trace_note_log.
Qed.

Lemma X5_missing_credentials_answer_500_witness :
  fst (exchange_token sample_dumps sample_dumps no_secret_cfg code_request
         two_timeouts world0)
  = Ok (mkHttp (error_json "Server configuration error: API credentials missing")
               500) /\
  calls (snd (exchange_token sample_dumps sample_dumps no_secret_cfg
                code_request two_timeouts world0)) = 0%nat.
Proof.
  destruct (X5_missing_credentials_answer_500 sample_dumps sample_dumps
              no_secret_cfg two_timeouts world0 (or_intror eq_refl))
    as (Hex & _).
  destruct (Hex code_request (JStr "abc123") code_request_carries)
    as (Hr & Hc & _).
  split; [exact Hr | exact Hc].
Defined.

Lemma str_take_cons n c s :
  str_take n (String c s)
  = if is_continuation c then String c (str_take n s)
    else match n with
         | O => EmptyString
         | S n' => String c (str_take n' s)
         end.
Proof. reflexivity. Qed.

Lemma code_points_cons c s :
  code_points (String c s)
  = if is_continuation c then code_points s else S (code_points s).
Proof. reflexivity. Qed.

(** [s[:n]] has [min(n, len(s))] code points. *)
Lemma str_take_code_points s :
  forall n, code_points (str_take n s) = Nat.min n (code_points s).
Proof.
  induction s as [| c s IH]; intros n.
  - now rewrite Nat.min_0_r.
  - rewrite str_take_cons, code_points_cons.
    destruct (is_continuation c) eqn:Hc.
    + now rewrite code_points_cons, Hc.
    + destruct n as [| n]; [reflexivity |].
      rewrite code_points_cons, Hc, IH. reflexivity.
Qed.

(** [s[:n]] starts [s], and what it leaves out starts with a new code
    point. *)
Lemma str_take_prefix s :
  forall n, exists rest,
    s = (str_take n s ++ rest)%string /\
    match rest with
    | EmptyString => True
    | String c _ => is_continuation c = false
    end.
Proof.
  induction s as [| c s IH]; intros n.
  - now exists EmptyString.
  - rewrite str_take_cons. destruct (is_continuation c) eqn:Hc.
    + destruct (IH n) as (rest & Hs & Hrest). exists rest.
      split; [| exact Hrest]. change (String c s = String c (str_take n s ++ rest)).
      now rewrite <- Hs.
    + destruct n as [| n].
      * exists (String c s). now split.
      * destruct (IH n) as (rest & Hs & Hrest). exists rest.
        split; [| exact Hrest].
        change (String c s = String c (str_take n s ++ rest)).
        now rewrite <- Hs.
Qed.

(** A two-byte character is taken whole: the first character of
    [U+00E9] followed by [t]. *)
Remark str_take_whole_character :
  let e_acute := String (ascii_of_nat 195) (String (ascii_of_nat 169) "") in
  str_take 1 (e_acute ++ "t") = e_acute /\
  code_points (e_acute ++ "t") = 2%nat /\
  String.length (e_acute ++ "t") = 3%nat.
Proof. repeat split. Qed.

(** [s[:n]] is [s] when [s] has no more than [n] code points. *)
Lemma str_take_all s :
  forall n, (code_points s <= n)%nat -> str_take n s = s.
Proof.
  induction s as [| c s IH]; intros n; [reflexivity |].
  rewrite str_take_cons, code_points_cons.
  destruct (is_continuation c); intros Hn.
  - now rewrite IH.
  - destruct n as [| n]; [lia |]. rewrite IH; [reflexivity | lia].
Qed.

(** What both operations answer once the retrying request has returned a
    response. *)
Lemma token_finish_answered op json_dumps py_repr resp w2 :
  let run := token_finish op json_dumps py_repr (Ok (Some resp), w2) in
  (status_code resp <> 200 ->
   fst run = Ok (mkHttp (error_json
                           (("Strava API error: "
                               ++ str_of_int (status_code resp))
                              ++ " - " ++ error_detail json_dumps py_repr resp))
                        (status_code resp))) /\
  (status_code resp = 200 ->
   match json_body resp with
   | inr (JDict d) => fst run = Ok (mkHttp (JDict d) 200)
   | inr v =>
       fst run = Ok (mkHttp (error_json
                               ("Exception during token " ++ op ++ ": "
                                  ++ "'" ++ type_name v
                                  ++ "' object has no attribute 'items'"))
                            500)
   | inl u =>
       fst run = Ok (mkHttp (error_json
                               ("Exception during token " ++ op ++ ": "
                                  ++ exn_str (undecoded_exn u)))
                            500)
   end).
Proof.
  cbv zeta. unfold token_finish, token_blanket. cbv zeta.
  destruct (Z.eqb_spec (status_code resp) 200) as [E | NE]; cbn [negb];
    split; intros H; try contradiction;
    destruct (json_body resp) as [m | []]; reflexivity.
Qed.

(** X6 — the message for an upstream status other than 200.  The body is
    [{error: "Strava API error: <status> - <detail>"}] under the
    upstream's status.  For a JSON object the detail is its [message],
    else its [error], else the dump of the whole object; for a body that
    is no JSON object, or does not decode, it is the first 500
    characters (code points) of the raw text: a prefix of the text that
    ends where a character ends, of 500 characters or of all there
    are. *)
Theorem X6_upstream_error_message :
  forall json_dumps py_repr cfg net w (N : nat) resp,
    credentials_missing cfg = false ->
    (N < 3)%nat ->
    answers_after net (calls w) N resp ->
    status_code resp <> 200 ->
    let answer :=
      Ok (mkHttp (error_json
                    (("Strava API error: " ++ str_of_int (status_code resp))
                       ++ " - " ++ error_detail json_dumps py_repr resp))
                 (status_code resp)) in
    (forall req code, carries "code" req code ->
       fst (exchange_token json_dumps py_repr cfg req net w) = answer) /\
    (forall req tok, carries "refresh_token" req tok ->
       fst (refresh_token json_dumps py_repr cfg req net w) = answer) /\
    (forall ed,
       json_body resp = inr (JDict ed) ->
       error_detail json_dumps py_repr resp
       = py_str py_repr
           match dict_lookup "message" ed, dict_lookup "error" ed with
           | Some m, _ => m
           | None, Some e => e
           | None, None => JStr (json_dumps (JDict ed))
           end) /\
    ((forall ed, json_body resp <> inr (JDict ed)) ->
     error_detail json_dumps py_repr resp = str_take 500 (text resp) /\
     code_points (error_detail json_dumps py_repr resp)
     = Nat.min 500 (code_points (text resp)) /\
     (exists rest,
        text resp = (error_detail json_dumps py_repr resp ++ rest)%string /\
        match rest with
        | EmptyString => True
        | String c _ => is_continuation c = false
        end)).
Proof.
  intros json_dumps py_repr cfg net w N resp Hcfg HN Hnet Hst. cbv zeta.
  split; [| split; [| split]].
  - intros req code Hreq.
    destruct (exchange_token_accepted json_dumps py_repr cfg req code net w
                Hcfg Hreq) as (w1 & Hc1 & _ & ->).
    destruct (retry_answered (code_grant cfg code) net w1 N resp HN)
      as (w2 & -> & _); [now rewrite Hc1 |].
    now apply token_finish_answered.
  - intros req tok Hreq.
    destruct (refresh_token_accepted json_dumps py_repr cfg req tok net w
                Hcfg Hreq) as (w1 & Hc1 & _ & ->).
    destruct (retry_answered (refresh_grant cfg tok) net w1 N resp HN)
      as (w2 & -> & _); [now rewrite Hc1 |].
    now apply token_finish_answered.
  - intros ed Hbody. unfold error_detail. rewrite Hbody.
    destruct (dict_lookup "message" ed), (dict_lookup "error" ed); reflexivity.
  - intros Hnot.
    assert (E : error_detail json_dumps py_repr resp
                = str_take 500 (text resp)).
    { unfold error_detail.
      destruct (json_body resp) as [m | []]; try reflexivity.
      now destruct (Hnot d). }
    rewrite E. split; [reflexivity |].
    split; [apply str_take_code_points | apply str_take_prefix].
Qed.

Lemma X6_upstream_error_message_witness :
  fst (exchange_token sample_dumps sample_dumps sample_cfg code_request
         (always bad_request_400) world0)
  = Ok (mkHttp (error_json "Strava API error: 400 - Bad Request") 400).
Proof.
  refine (proj1 (X6_upstream_error_message sample_dumps sample_dumps
                   sample_cfg (always bad_request_400) world0 0
                   bad_request_400 sample_configured _
                   (answers_at_once _ _ _ eq_refl) _)
            code_request (JStr "abc123") code_request_carries).
  - lia.
  - discriminate.
Defined.

(** X7 — a 200 that is no token mapping.  When the token endpoint
    answers 200 with a body that does not decode, or decodes to
    anything but a JSON object, both token operations answer 500
    through the blanket handler; the POSTs have been made by then. *)
Theorem X7_unusable_200_answer_500 :
  forall json_dumps py_repr cfg net w (N : nat) resp,
    credentials_missing cfg = false ->
    (N < 3)%nat ->
    answers_after net (calls w) N resp ->
    status_code resp = 200 ->
    (forall d, json_body resp <> inr (JDict d)) ->
    (forall req code, carries "code" req code ->
       let run := exchange_token json_dumps py_repr cfg req net w in
       (exists x,
          fst run = Ok (mkHttp (error_json
                                  ("Exception during token exchange: " ++ x))
                               500)) /\
       calls (snd run) = (calls w + S N)%nat) /\
    (forall req tok, carries "refresh_token" req tok ->
       let run := refresh_token json_dumps py_repr cfg req net w in
       (exists x,
          fst run = Ok (mkHttp (error_json
                                  ("Exception during token refresh: " ++ x))
                               500)) /\
       calls (snd run) = (calls w + S N)%nat).
Proof.
  intros json_dumps py_repr cfg net w N resp Hcfg HN Hnet Hst Hnot.
  split.
  - intros req code Hreq. cbv zeta.
    destruct (exchange_token_accepted json_dumps py_repr cfg req code net w
                Hcfg Hreq) as (w1 & Hc1 & _ & ->).
    destruct (retry_answered (code_grant cfg code) net w1 N resp HN)
      as (w2 & -> & Hc2 & _); [now rewrite Hc1 |].
    destruct (token_finish_world "exchange" json_dumps py_repr
                (Ok (Some resp)) w2) as [-> _].
    split; [| now rewrite Hc2, Hc1].
    pose proof (proj2 (token_finish_answered "exchange" json_dumps py_repr
                         resp w2) Hst) as H.
    destruct (json_body resp) as [m | []];
      try (eexists; exact H).
    exfalso. eapply Hnot. reflexivity.
  - intros req tok Hreq. cbv zeta.
    destruct (refresh_token_accepted json_dumps py_repr cfg req tok net w
                Hcfg Hreq) as (w1 & Hc1 & _ & ->).
    destruct (retry_answered (refresh_grant cfg tok) net w1 N resp HN)
      as (w2 & -> & Hc2 & _); [now rewrite Hc1 |].
    destruct (token_finish_world "refresh" json_dumps py_repr
                (Ok (Some resp)) w2) as [-> _].
    split; [| now rewrite Hc2, Hc1].
    pose proof (proj2 (token_finish_answered "refresh" json_dumps py_repr
                         resp w2) Hst) as H.
    destruct (json_body resp) as [m | []];
      try (eexists; exact H).
    exfalso. eapply Hnot. reflexivity.
Qed.

Lemma html_200_unusable : forall d, json_body html_200 <> inr (JDict d).
Proof. intros d. discriminate. Qed.

Lemma X7_unusable_200_answer_500_witness :
  (exists x,
     fst (exchange_token sample_dumps sample_dumps sample_cfg code_request
            (always html_200) world0)
     = Ok (mkHttp (error_json ("Exception during token exchange: " ++ x)) 500))
  /\ calls (snd (exchange_token sample_dumps sample_dumps sample_cfg
                   code_request (always html_200) world0)) = 1%nat.
Proof.
  refine (proj1 (X7_unusable_200_answer_500 sample_dumps sample_dumps
                   sample_cfg (always html_200) world0 0 html_200
                   sample_configured _ (answers_at_once _ _ _ eq_refl)
                   eq_refl html_200_unusable)
            code_request (JStr "abc123") code_request_carries).
  lia.
Defined.

Lemma token_finish_200 op json_dumps py_repr res w2 r :
  fst (token_finish op json_dumps py_repr (res, w2)) = Ok r ->
  status r = 200 ->
  exists resp d,
    res = Ok (Some resp) /\ status_code resp = 200 /\
    json_body resp = inr (JDict d) /\ body r = JDict d.
Proof.
  unfold token_finish, token_blanket.
  destruct res as [[resp |] | e]; cbv zeta;
    try (simpl fst; intros [= <-] Hst; discriminate Hst).
  destruct (Z.eqb_spec (status_code resp) 200) as [E | NE]; cbn [negb].
  - destruct (json_body resp) as [m | []] eqn:Hbody; simpl fst;
      intros [= <-] Hst; try discriminate Hst.
    exists resp, d. auto.
  - destruct (json_body resp) as [m | []]; simpl fst; intros [= <-] Hst;
      contradiction.
Qed.

(** X8 — success is never made up.  Whatever the request, the
    configuration and the upstream, a token operation answers 200 only
    with the JSON object of a 200 response that one of its at most
    three upstream calls received. *)
Theorem X8_success_only_from_upstream_200 :
  forall json_dumps py_repr cfg req net w r,
    fst (exchange_token json_dumps py_repr cfg req net w) = Ok r
    \/ fst (refresh_token json_dumps py_repr cfg req net w) = Ok r ->
    status r = 200 ->
    exists k resp d,
      (calls w <= k < calls w + 3)%nat /\
      net k = Responds resp /\
      status_code resp = 200 /\
      json_body resp = inr (JDict d) /\
      body r = JDict d.
Proof.
  intros json_dumps py_repr cfg req net w r Hrun Hst.
  assert (Hfinish :
            forall op payload w1,
              calls w1 = calls w ->
              fst (token_finish op json_dumps py_repr
                     (make_token_request_with_retry payload 3 net w1)) = Ok r ->
              exists k resp d,
                (calls w <= k < calls w + 3)%nat /\ net k = Responds resp /\
                status_code resp = 200 /\ json_body resp = inr (JDict d) /\
                body r = JDict d).
  { intros op payload w1 Hc1 Hr.
    destruct (make_token_request_any payload 3 net w1)
      as (k & Hk & Hle & _ & _ & _ & Hres); [lia |].
    destruct (make_token_request_with_retry payload 3 net w1) as [res w2].
    destruct (token_finish_200 op json_dumps py_repr res w2 r Hr Hst)
      as (resp & d & -> & H200 & Hbody & Hr').
    simpl fst in Hres.
    exists (calls w1 + (k - 1))%nat, resp, d. repeat split; trivial; lia. }
  destruct Hrun as [Hrun | Hrun].
  - rewrite exchange_token_tree in Hrun.
    destruct (request_json req) as [e | v];
      [injection Hrun as <-; discriminate Hst |].
    cbv zeta in Hrun.
    destruct v; try (injection Hrun as <-; discriminate Hst).
    destruct (truthy (dict_get "code" JNull d)); cbn [negb] in Hrun;
      [| injection Hrun as <-; discriminate Hst].
    destruct (credentials_missing cfg);
      [injection Hrun as <-; discriminate Hst |].
    eapply Hfinish; [| exact Hrun]. reflexivity.
  - rewrite refresh_token_tree in Hrun.
    destruct (request_json req) as [e | v];
      [injection Hrun as <-; discriminate Hst |].
    destruct v; try (injection Hrun as <-; discriminate Hst).
    cbv zeta in Hrun.
    destruct (truthy (dict_get "refresh_token" JNull d)); cbn [negb] in Hrun;
      [| injection Hrun as <-; discriminate Hst].
    destruct (credentials_missing cfg);
      [injection Hrun as <-; discriminate Hst |].
    eapply Hfinish; [| exact Hrun]. reflexivity.
Qed.

Lemma X8_success_only_from_upstream_200_witness :
  exists k resp d,
    (0 <= k < 3)%nat /\ two_timeouts k = Responds resp /\
    status_code resp = 200 /\ json_body resp = inr (JDict d) /\
    JDict [("access_token", JStr "X"); ("refresh_token", JStr "Y");
           ("expires_at", JInt 123)] = JDict d.
Proof.
  exact (X8_success_only_from_upstream_200 sample_dumps sample_dumps
           sample_cfg code_request two_timeouts world0
           (mkHttp (JDict [("access_token", JStr "X");
                           ("refresh_token", JStr "Y");
                           ("expires_at", JInt 123)]) 200)
           (or_introl eq_refl) eq_refl).
Defined.

Ltac turned_away :=
  split; [lia |];
  split; [simpl snd; now rewrite ?calls_note, ?Nat.add_0_r |];
  split; [simpl snd; rewrite ?io_trace_note_log; cbn [attempts_trace];
          now rewrite app_nil_r |];
  split; [| reflexivity];
  let Hcfg := fresh in
  let Hreq := fresh in
  let Hv := fresh in
  let Htruthy := fresh in
  intros (Hcfg & ? & ? & Hreq & Hv & Htruthy); exfalso; congruence.

(** X9 — the outbound side of a token operation.  Whatever the request
    and the upstream, exchange-token and refresh-token make at most
    three upstream calls, all of them POSTs of one grant payload to the
    token endpoint with the 10-unit timeout, with a 1-unit sleep between
    each two and nothing else: no GET, at most two sleeps.  A request
    that is passed on (credentials configured, an object body with a
    truthy field) makes at least one call, with the field's value in
    the payload; any other request makes none. *)
Theorem X9_token_operation_outbound_bound :
  forall json_dumps py_repr cfg req net w,
    (let run := exchange_token json_dumps py_repr cfg req net w in
     exists k code,
       (k <= 3)%nat /\ calls (snd run) = (calls w + k)%nat /\
       io_trace (snd run)
       = (io_trace w ++ attempts_trace (code_grant cfg code) k)%list /\
       (accepted "code" cfg req ->
        (1 <= k)%nat /\ carries "code" req code) /\
       (~ accepted "code" cfg req -> k = 0%nat)) /\
    (let run := refresh_token json_dumps py_repr cfg req net w in
     exists k tok,
       (k <= 3)%nat /\ calls (snd run) = (calls w + k)%nat /\
       io_trace (snd run)
       = (io_trace w ++ attempts_trace (refresh_grant cfg tok) k)%list /\
       (accepted "refresh_token" cfg req ->
        (1 <= k)%nat /\ carries "refresh_token" req tok) /\
       (~ accepted "refresh_token" cfg req -> k = 0%nat)).
Proof.
  intros json_dumps py_repr cfg req net w.
  assert (Hfinish :
            forall op payload w1,
              calls w1 = calls w -> io_trace w1 = io_trace w ->
              let run := token_finish op json_dumps py_repr
                           (make_token_request_with_retry payload 3 net w1) in
              exists k,
                (1 <= k <= 3)%nat /\ calls (snd run) = (calls w + k)%nat /\
                io_trace (snd run)
                = (io_trace w ++ attempts_trace payload k)%list).
  { intros op payload w1 Hc1 Hio1. cbv zeta.
    destruct (make_token_request_any payload 3 net w1)
      as (k & Hk & Hle & Hc & Hio & _); [lia |].
    destruct (make_token_request_with_retry payload 3 net w1) as [res w2].
    destruct (token_finish_world op json_dumps py_repr res w2) as [-> ->].
    simpl snd in Hc, Hio. exists k. rewrite Hc, Hio, Hc1, Hio1.
    repeat split; lia. }
  split; cbv zeta.
  - rewrite exchange_token_tree. unfold token_blanket.
    destruct (request_json req) as [e | v] eqn:Hreq; cbv zeta.
    { exists 0%nat, JNull. turned_away. }
    destruct v; try (exists 0%nat, JNull; turned_away).
    destruct (truthy (dict_get "code" JNull d)) eqn:Htruthy; cbn [negb];
      [| exists 0%nat, JNull; turned_away].
    destruct (credentials_missing cfg) eqn:Hcfg;
      [exists 0%nat, JNull; turned_away |].
    destruct (Hfinish "exchange" (code_grant cfg (dict_get "code" JNull d))
                (before_exchange json_dumps cfg (JDict d)
                   (dict_get "code" JNull d) w))
      as (k & Hk & Hc & Hio); [reflexivity | apply io_trace_before_exchange |].
    assert (Hcarries : carries "code" req (dict_get "code" JNull d))
      by (exists d; auto).
    exists k, (dict_get "code" JNull d).
    split; [lia |]. split; [exact Hc |]. split; [exact Hio |].
    split; [split; [lia | exact Hcarries] |].
    intros Hnot. exfalso. apply Hnot. split; [exact Hcfg | eauto].
  - rewrite refresh_token_tree. unfold token_blanket.
    destruct (request_json req) as [e | v] eqn:Hreq.
    { exists 0%nat, JNull. turned_away. }
    destruct v; try (exists 0%nat, JNull; turned_away).
    cbv zeta.
    destruct (truthy (dict_get "refresh_token" JNull d)) eqn:Htruthy;
      cbn [negb]; [| exists 0%nat, JNull; turned_away].
    destruct (credentials_missing cfg) eqn:Hcfg;
      [exists 0%nat, JNull; turned_away |].
    destruct (Hfinish "refresh"
                (refresh_grant cfg (dict_get "refresh_token" JNull d))
                (before_refresh json_dumps cfg
                   (dict_get "refresh_token" JNull d) w))
      as (k & Hk & Hc & Hio); [reflexivity | apply io_trace_before_refresh |].
    assert (Hcarries : carries "refresh_token" req
                         (dict_get "refresh_token" JNull d))
      by (exists d; auto).
    exists k, (dict_get "refresh_token" JNull d).
    split; [lia |]. split; [exact Hc |]. split; [exact Hio |].
    split; [split; [lia | exact Hcarries] |].
    intros Hnot. exfalso. apply Hnot. split; [exact Hcfg | eauto].
Qed.

Lemma X9_token_operation_outbound_bound_witness :
  exists k code,
    (k <= 3)%nat /\
    calls (snd (exchange_token sample_dumps sample_dumps sample_cfg
                  code_request three_timeouts world0)) = (0 + k)%nat /\
    io_trace (snd (exchange_token sample_dumps sample_dumps sample_cfg
                     code_request three_timeouts world0))
    = ([] ++ attempts_trace (code_grant sample_cfg code) k)%list /\
    (accepted "code" sample_cfg code_request ->
     (1 <= k)%nat /\ carries "code" code_request code) /\
    (~ accepted "code" sample_cfg code_request -> k = 0%nat).
Proof.
  exact (proj1 (X9_token_operation_outbound_bound sample_dumps sample_dumps
                  sample_cfg code_request three_timeouts world0)).
Defined.

(* ===================================================================== *)
(** ** What the log of a token operation depends on *)
(* ===================================================================== *)

Lemma log_records_note_log w level msg :
  log_records (note w (EvLog level msg))
  = (log_records w ++ [EvLog level msg])%list.
Proof.
  unfold log_records, note; cbn [events]. now rewrite filter_app.
Qed.

Lemma log_records_note_io w ev :
  is_io ev = true -> log_records (note w ev) = log_records w.
Proof.
  intros H. unfold log_records, note; cbn [events].
  rewrite filter_app; cbn [filter]. rewrite H. apply app_nil_r.
Qed.

Lemma log_records_called w ev :
  is_io ev = true -> log_records (called w ev) = log_records w.
Proof.
  intros H. unfold log_records, called; cbn [events].
  rewrite filter_app; cbn [filter]. rewrite H. apply app_nil_r.
Qed.

(** The loop logs attempt numbers and fault texts, never the payload. *)
Lemma retry_loop_log_blind p p' max_retries net :
  forall n retries w w',
    Z.to_nat (max_retries - retries) = n ->
    calls w = calls w' ->
    log_records w = log_records w' ->
    let run := retry_loop p max_retries retries net w in
    let run' := retry_loop p' max_retries retries net w' in
    fst run = fst run' /\
    calls (snd run) = calls (snd run') /\
    log_records (snd run) = log_records (snd run').
Proof.
  induction n as [| n IH]; intros retries w w' Hn Hc Hl; cbv zeta;
    rewrite !retry_loop_step;
    destruct (Z.ltb_spec retries max_retries); try lia; auto.
  cbv zeta. rewrite <- Hc.
  assert (Hposted :
            forall m,
              log_records (called (note w (EvLog INFO m))
                                  (EvPost STRAVA_TOKEN_URL p 10))
              = log_records (called (note w' (EvLog INFO m))
                                    (EvPost STRAVA_TOKEN_URL p' 10))).
  { intros. now rewrite !log_records_called, !log_records_note_log, Hl. }
  destruct (net (calls w)) as [r | e]; simpl fst; simpl snd.
  - rewrite !calls_called, !calls_note. auto.
  - destruct (is_transport_fault e).
    + destruct (Z.ltb_spec (retries + 1) max_retries).
      * apply IH; [lia | |].
        -- now rewrite !calls_note, !calls_called, !calls_note, Hc.
        -- rewrite !(log_records_note_io _ (EvSleep 1)) by reflexivity.
           rewrite !log_records_note_log. f_equal. apply Hposted.
      * simpl fst; simpl snd.
        rewrite !log_records_note_log, !calls_note, !calls_called, !calls_note.
        rewrite Hposted. auto.
    + simpl fst; simpl snd.
      rewrite !log_records_note_log, !calls_note, !calls_called, !calls_note.
      rewrite Hposted. auto.
Qed.

Lemma token_finish_log_blind op json_dumps py_repr res w2 w2' :
  log_records w2 = log_records w2' ->
  fst (token_finish op json_dumps py_repr (res, w2))
  = fst (token_finish op json_dumps py_repr (res, w2')) /\
  log_records (snd (token_finish op json_dumps py_repr (res, w2)))
  = log_records (snd (token_finish op json_dumps py_repr (res, w2'))).
Proof.
  intros Hl. unfold token_finish, token_blanket.
  destruct res as [[resp |] | e]; cbv zeta;
    [destruct (negb (status_code resp =? 200));
     destruct (json_body resp) as [m | []] | |];
    simpl fst; simpl snd; split; trivial;
    now rewrite ?log_records_note_log, Hl.
Qed.

(** Two accepted runs of one operation whose histories before the POST
    log the same: same answer, same log. *)
Lemma token_run_log_blind op json_dumps py_repr p p' net w1 w1' :
  calls w1 = calls w1' ->
  log_records w1 = log_records w1' ->
  let run := token_finish op json_dumps py_repr
               (make_token_request_with_retry p 3 net w1) in
  let run' := token_finish op json_dumps py_repr
                (make_token_request_with_retry p' 3 net w1') in
  fst run = fst run' /\ log_records (snd run) = log_records (snd run').
Proof.
  intros Hc Hl. cbv zeta. unfold make_token_request_with_retry.
  destruct (retry_loop_log_blind p p' 3 net 3 0 w1 w1' eq_refl Hc Hl)
    as (Hfst & _ & Hlog).
  destruct (retry_loop p 3 0 net w1) as [res w2],
    (retry_loop p' 3 0 net w1') as [res' w2'].
  simpl fst in Hfst; simpl snd in Hlog. subst res'.
  now apply token_finish_log_blind.
Qed.

Lemma refresh_payload_redacted cfg tok :
  dict_set "refresh_token" REDACTED
    (dict_set "client_secret" REDACTED (refresh_grant cfg tok))
  = [("client_id", json_of_env (STRAVA_CLIENT_ID cfg));
     ("client_secret", REDACTED);
     ("refresh_token", REDACTED);
     ("grant_type", JStr "refresh_token")].
Proof. reflexivity. Qed.

Lemma code_payload_redacted cfg code :
  dict_set "client_secret" REDACTED (code_grant cfg code)
  = [("client_id", json_of_env (STRAVA_CLIENT_ID cfg));
     ("client_secret", REDACTED);
     ("code", code);
     ("grant_type", JStr "authorization_code")].
Proof. reflexivity. Qed.

(** X10 — what the log of a token operation cannot tell.  With the same
    client id and credentials configured on both sides, the answer and
    every log record of exchange-token are the same under two different
    client secrets; those of refresh-token are the same under two
    different client secrets and two different refresh tokens (and
    whatever else the two request bodies carry).  The POSTs differ, the
    log does not. *)
Theorem X10_secrets_stay_out_of_the_log :
  forall json_dumps py_repr cfg cfg' net w,
    STRAVA_CLIENT_ID cfg = STRAVA_CLIENT_ID cfg' ->
    credentials_missing cfg = false ->
    credentials_missing cfg' = false ->
    (forall req code, carries "code" req code ->
       let run := exchange_token json_dumps py_repr cfg req net w in
       let run' := exchange_token json_dumps py_repr cfg' req net w in
       fst run = fst run' /\
       log_records (snd run) = log_records (snd run')) /\
    (forall req req' tok tok',
       carries "refresh_token" req tok ->
       carries "refresh_token" req' tok' ->
       let run := refresh_token json_dumps py_repr cfg req net w in
       let run' := refresh_token json_dumps py_repr cfg' req' net w in
       fst run = fst run' /\
       log_records (snd run) = log_records (snd run')).
Proof.
  intros json_dumps py_repr cfg cfg' net w Hid Hcfg Hcfg'. split.
  - intros req code (d & Hreq & Hcode & Htruthy). cbv zeta.
    rewrite !exchange_token_tree, Hreq. cbv zeta.
    rewrite Hcode, Htruthy, Hcfg, Hcfg'. cbn [negb].
    apply token_run_log_blind; [reflexivity |].
    unfold before_exchange.
    now rewrite !log_records_note_log, !code_payload_redacted, Hid.
  - intros req req' tok tok' (d & Hreq & Hcode & Htruthy)
      (d' & Hreq' & Hcode' & Htruthy'). cbv zeta.
    rewrite !refresh_token_tree, Hreq, Hreq'. cbv zeta.
    rewrite Hcode, Htruthy, Hcode', Htruthy', Hcfg, Hcfg'. cbn [negb].
    apply token_run_log_blind; [reflexivity |].
    unfold before_refresh.
    now rewrite !log_records_note_log, !refresh_payload_redacted, Hid.
Qed.

Lemma other_secret_configured : credentials_missing other_secret_cfg = false.
Proof. reflexivity. Qed.

Lemma refresh_abc_request_carries :
  carries "refresh_token" refresh_abc_request (JStr "abc123").
Proof. exists [("refresh_token", JStr "abc123")]. repeat split. Qed.

Lemma refresh_other_request_carries :
  carries "refresh_token" refresh_other_request (JStr "Z9").
Proof.
  exists [("refresh_token", JStr "Z9"); ("note", JInt 1)]. repeat split.
Qed.

Lemma X10_secrets_stay_out_of_the_log_witness :
  log_records (snd (refresh_token sample_dumps sample_dumps sample_cfg
                      refresh_abc_request two_timeouts world0))
  = log_records (snd (refresh_token sample_dumps sample_dumps other_secret_cfg
                        refresh_other_request two_timeouts world0)).
Proof.
  exact (proj2 (proj2 (X10_secrets_stay_out_of_the_log sample_dumps
                         sample_dumps sample_cfg other_secret_cfg two_timeouts
                         world0 eq_refl sample_configured
                         other_secret_configured)
                  refresh_abc_request refresh_other_request
                  (JStr "abc123") (JStr "Z9")
                  refresh_abc_request_carries refresh_other_request_carries)).
Defined.

(* ===================================================================== *)
(** ** Further properties of the fetch operations *)
(* ===================================================================== *)

Lemma activities_params_args req : activities_params req = request_args req.
Proof.
  unfold activities_params.
  induction (request_args req) as [| [k v] l IH]; cbn; [reflexivity |].
  now rewrite IH.
Qed.

Lemma not_error_status resp :
  ~ (400 <= status_code resp < 600) -> is_error_status resp = false.
Proof.
  intros H. unfold is_error_status.
  destruct (Z.leb_spec 400 (status_code resp)),
    (Z.ltb_spec (status_code resp) 600); trivial; lia.
Qed.

(** X11 — a fetch that succeeds.  With a bearer token, when the
    upstream answers with a status outside 400..599 and a body that
    decodes, activities and athlete-zones hand the decoded body on under
    status 200, whatever the upstream's own status was.  The run is one
    GET and nothing else, not even a log record: for activities with
    the query parameters of the inbound request as they came, for
    athlete-zones with none. *)
Theorem X11_fetch_success :
  forall req net w resp v,
    access_token_of req <> "" ->
    net (calls w) = Responds resp ->
    ~ (400 <= status_code resp < 600) ->
    json_body resp = inr v ->
    get_activities req net w
    = (Ok (mkHttp v 200),
       called w (EvGet STRAVA_ACTIVITIES_URL
                   (bearer_header (access_token_of req)) (request_args req)))
    /\ get_athlete_zones req net w
       = (Ok (mkHttp v 200),
          called w (EvGet STRAVA_ATHLETE_ZONES_URL
                      (bearer_header (access_token_of req)) [])).
Proof.
  intros req net w resp v Htok Hnet Hst Hbody.
  rewrite get_activities_fetch, get_athlete_zones_fetch, token_present
    by trivial.
  rewrite !fetch_from_run. cbv zeta.
  rewrite Hnet, (not_error_status resp Hst), Hbody, activities_params_args.
  split; reflexivity.
Qed.

Lemma X11_fetch_success_witness :
  get_activities bearer_request (always activities_204) world0
  = (Ok (mkHttp (JList []) 200),
     called world0 (EvGet STRAVA_ACTIVITIES_URL
                      [("Authorization", "Bearer abc")] [("per_page", "30")])).
Proof.
  refine (proj1 (X11_fetch_success bearer_request (always activities_204)
                   world0 activities_204 (JList []) bearer_request_token
                   eq_refl _ eq_refl)).
  simpl; lia.
Defined.

(** X12 — a success whose body does not decode.  When the upstream
    answers with a status outside 400..599 but the body is no JSON, the
    fetch operations answer 500 (not the upstream's status) with the
    decoding error as message, after their one GET. *)
Theorem X12_fetch_undecodable_success :
  forall req net w resp m,
    access_token_of req <> "" ->
    net (calls w) = Responds resp ->
    ~ (400 <= status_code resp < 600) ->
    json_body resp = inl (NotJson m) ->
    (fst (get_activities req net w) = Ok (mkHttp (error_json m) 500) /\
     calls (snd (get_activities req net w)) = S (calls w)) /\
    (fst (get_athlete_zones req net w) = Ok (mkHttp (error_json m) 500) /\
     calls (snd (get_athlete_zones req net w)) = S (calls w)).
Proof.
  intros req net w resp m Htok Hnet Hst Hbody.
  rewrite get_activities_fetch, get_athlete_zones_fetch, token_present
    by trivial.
  split; (split; [| apply fetch_from_once]);
    rewrite fetch_from_run; cbv zeta;
    rewrite Hnet, (not_error_status resp Hst), Hbody; reflexivity.
Qed.

Lemma X12_fetch_undecodable_success_witness :
  fst (get_athlete_zones bearer_request (always html_200) world0)
  = Ok (mkHttp (error_json "Expecting value: line 1 column 1 (char 0)") 500).
Proof.
  refine (proj1 (proj2 (X12_fetch_undecodable_success bearer_request
                          (always html_200) world0 html_200 _
                          bearer_request_token eq_refl _ eq_refl))).
  simpl; lia.
Defined.

(** X13 — a well-formed bearer header goes out as it came in.  For a
    header ["Bearer " ++ t] whose token [t] is not empty and does not
    itself contain ["Bearer "], the token read is [t] and the
    [Authorization] header of the GET is the inbound header value. *)
Theorem X13_bearer_header_round_trip :
  forall req net w t,
    header_Authorization req = Some ("Bearer " ++ t) ->
    t <> "" ->
    (forall a b, t <> a ++ "Bearer " ++ b) ->
    access_token_of req = t /\
    io_trace (snd (get_activities req net w))
    = (io_trace w ++ [EvGet STRAVA_ACTIVITIES_URL
                        [("Authorization", ("Bearer " ++ t)%string)]
                        (request_args req)])%list /\
    io_trace (snd (get_athlete_zones req net w))
    = (io_trace w ++ [EvGet STRAVA_ATHLETE_ZONES_URL
                        [("Authorization", ("Bearer " ++ t)%string)] []])%list.
Proof.
  intros req net w t Hheader Hne Habsent.
  assert (Htok : access_token_of req = t).
  { unfold access_token_of. rewrite Hheader.
    rewrite (str_remove_all_occurrence "B" "earer " t).
    now apply str_remove_all_absent. }
  split; [exact Htok |].
  rewrite get_activities_fetch, get_athlete_zones_fetch, token_present
    by (now rewrite Htok).
  rewrite Htok, <- activities_params_args.
  split; apply fetch_from_once.
Qed.

Lemma abc_has_no_bearer : forall a b, "abc" <> a ++ "Bearer " ++ b.
Proof.
  intros a b H.
  destruct a as [| c1 [| c2 [| c3 [| c4 a]]]]; discriminate H.
Qed.

Lemma X13_bearer_header_round_trip_witness :
  access_token_of bearer_request = "abc" /\
  io_trace (snd (get_activities bearer_request (always activities_401) world0))
  = [EvGet STRAVA_ACTIVITIES_URL [("Authorization", "Bearer abc")]
       [("per_page", "30")]].
Proof.
  destruct (X13_bearer_header_round_trip bearer_request
              (always activities_401) world0 "abc" eq_refl)
    as (Htok & Hact & _).
  - discriminate.
  - exact abc_has_no_bearer.
  - split; [exact Htok | exact Hact].
Defined.

(* ===================================================================== *)
(** ** auth-url, the configuration at import, debug-info *)
(* ===================================================================== *)

Lemma args_get_absent k default args :
  (forall v, ~ In (k, v) args) -> args_get k default args = default.
Proof.
  induction args as [| [k' v'] args IH]; intros Habsent; cbn; [reflexivity |].
  destruct (String.eqb_spec k' k) as [-> | _].
  - exfalso. apply (Habsent v'). now left.
  - apply IH. intros v Hin. apply (Habsent v). now right.
Qed.

(** X14 — the authorization URL.  auth-url never calls the upstream and
    never reads the client secret.  With a client id that is set and
    not empty it answers 200 with the URL made of the authorize
    endpoint, the client id, the redirect URI, [response_type=code] and
    the scopes, each inserted as it stands; [redirect_uri] and [scopes]
    are the query arguments of those names, and the configured redirect
    URI respectively the fixed scope list where the argument is absent.
    With the client id unset or empty it answers 500. *)
Theorem X14_auth_url :
  forall cfg req net w,
    let redirect_uri :=
      args_get "redirect_uri" (EXPECTED_REDIRECT_URI cfg) (request_args req) in
    let scopes := args_get "scopes" DEFAULT_SCOPES (request_args req) in
    let run := get_auth_url cfg req net w in
    (calls (snd run) = calls w /\ io_trace (snd run) = io_trace w) /\
    (forall id,
       STRAVA_CLIENT_ID cfg = Some id -> id <> "" ->
       fst run = Ok (mkHttp (JDict [("url",
                                     JStr (auth_url id redirect_uri scopes))])
                            200)) /\
    (STRAVA_CLIENT_ID cfg = None \/ STRAVA_CLIENT_ID cfg = Some "" ->
     fst run = Ok (mkHttp (error_json
                             "Server configuration error: STRAVA_CLIENT_ID missing")
                          500)) /\
    ((forall v, ~ In ("redirect_uri", v) (request_args req)) ->
     redirect_uri = EXPECTED_REDIRECT_URI cfg) /\
    ((forall v, ~ In ("scopes", v) (request_args req)) ->
     scopes = DEFAULT_SCOPES) /\
    (forall secret,
       get_auth_url (mkConfig (STRAVA_CLIENT_ID cfg) secret
                              (EXPECTED_REDIRECT_URI cfg)) req net w
       = run).
Proof.
  intros cfg req net w. cbv zeta.
  unfold get_auth_url. unfold_monad.
  split; [| split; [| split; [| split; [| split]]]].
  - destruct (truthy_env (STRAVA_CLIENT_ID cfg)); cbn;
      now rewrite ?calls_note, ?io_trace_note_log.
  - intros id Hid Hne. rewrite Hid. cbn [truthy_env].
    apply String.eqb_neq in Hne. rewrite Hne. reflexivity.
  - intros [-> | ->]; reflexivity.
  - apply args_get_absent.
  - apply args_get_absent.
  - reflexivity.
Qed.

Lemma X14_auth_url_witness :
  fst (get_auth_url sample_cfg auth_url_request two_timeouts world0)
  = Ok (mkHttp (JDict [("url",
                        JStr (auth_url "42"
                                "http://localhost:3000/exchange_token"
                                "read"))]) 200).
Proof.
  refine (proj1 (proj2 (X14_auth_url sample_cfg auth_url_request two_timeouts
                          world0)) "42" eq_refl _).
  discriminate.
Defined.

(** X15 — which variable configures what.  For the client id and the
    client secret alike, the [FIREBASE_CONFIG_...] variable is used when
    it is set and not empty, and the plain variable otherwise; so the
    credentials count as configured exactly when, for each of the two,
    one of its variables is set and not empty.  The redirect URI is the
    Firebase variable when set and not empty, else
    [EXPECTED_REDIRECT_URI] when set (even to the empty string), else
    the localhost default. *)
Theorem X15_config_precedence :
  forall environ : Environ,
    let cfg := load_config environ in
    (forall s, environ "FIREBASE_CONFIG_STRAVA_CLIENT_ID" = Some s ->
               s <> "" -> STRAVA_CLIENT_ID cfg = Some s) /\
    (truthy_env (environ "FIREBASE_CONFIG_STRAVA_CLIENT_ID") = false ->
     STRAVA_CLIENT_ID cfg = environ "STRAVA_CLIENT_ID") /\
    (forall s, environ "FIREBASE_CONFIG_STRAVA_CLIENT_SECRET" = Some s ->
               s <> "" -> STRAVA_CLIENT_SECRET cfg = Some s) /\
    (truthy_env (environ "FIREBASE_CONFIG_STRAVA_CLIENT_SECRET") = false ->
     STRAVA_CLIENT_SECRET cfg = environ "STRAVA_CLIENT_SECRET") /\
    (credentials_missing cfg = false <->
     (truthy_env (environ "FIREBASE_CONFIG_STRAVA_CLIENT_ID") = true
      \/ truthy_env (environ "STRAVA_CLIENT_ID") = true) /\
     (truthy_env (environ "FIREBASE_CONFIG_STRAVA_CLIENT_SECRET") = true
      \/ truthy_env (environ "STRAVA_CLIENT_SECRET") = true)) /\
    (forall s, environ "FIREBASE_CONFIG_STRAVA_REDIRECT_URI" = Some s ->
               s <> "" -> EXPECTED_REDIRECT_URI cfg = s) /\
    (truthy_env (environ "FIREBASE_CONFIG_STRAVA_REDIRECT_URI") = false ->
     EXPECTED_REDIRECT_URI cfg
     = match environ "EXPECTED_REDIRECT_URI" with
       | Some s => s
       | None => "http://localhost:3000/exchange_token"
       end).
Proof.
  intros environ. cbv zeta.
  unfold load_config, credentials_missing, env_or, getenv_default.
  cbn [STRAVA_CLIENT_ID STRAVA_CLIENT_SECRET EXPECTED_REDIRECT_URI].
  assert (Hset : forall s, s <> "" -> truthy_env (Some s) = true).
  { intros s Hs. cbn. apply String.eqb_neq in Hs. now rewrite Hs. }
  repeat split.
  - intros s -> Hs. now rewrite (Hset s Hs).
  - now intros ->.
  - intros s -> Hs. now rewrite (Hset s Hs).
  - now intros ->.
  - destruct (truthy_env (environ "FIREBASE_CONFIG_STRAVA_CLIENT_ID")) eqn:E;
      [now left |].
    destruct (truthy_env (environ "STRAVA_CLIENT_ID")); [now right |].
    discriminate H.
  - destruct (truthy_env (environ "FIREBASE_CONFIG_STRAVA_CLIENT_SECRET"))
      eqn:E; [now left |].
    destruct (truthy_env (environ "STRAVA_CLIENT_SECRET")); [now right |].
    apply orb_false_elim in H. destruct H as [_ H]. discriminate H.
  - intros [Hid Hsecret].
    destruct (truthy_env (environ "FIREBASE_CONFIG_STRAVA_CLIENT_ID")) eqn:E1,
      (truthy_env (environ "FIREBASE_CONFIG_STRAVA_CLIENT_SECRET")) eqn:E2;
      rewrite ?E1, ?E2; cbn [negb orb];
      destruct Hid as [Hid | Hid], Hsecret as [Hsecret | Hsecret];
      try discriminate; now rewrite ?Hid, ?Hsecret.
  - intros s -> Hs. now rewrite (Hset s Hs).
  - now intros ->.
Qed.

Lemma X15_config_precedence_witness :
  STRAVA_CLIENT_ID (load_config firebase_environ) = Some "42" /\
  STRAVA_CLIENT_SECRET (load_config firebase_environ) = Some "s3cr3t".
Proof.
  destruct (X15_config_precedence firebase_environ)
    as (Hid & _ & _ & Hsecret & _).
  split.
  - apply (Hid "42"); [reflexivity | discriminate].
  - exact (Hsecret eq_refl).
Defined.

(** X16 — what the import reports.  Importing the module yields the
    configuration read from the environment, calls nothing, and logs
    the credentials-missing error exactly when the client id or the
    client secret is unset or empty: the very test by which the token
    operations later answer their configuration 500. *)
Theorem X16_import_reports_missing_credentials :
  forall dotenv_installed environ net,
    let run := module_init dotenv_installed environ net world0 in
    fst run = Ok (load_config environ) /\
    io_trace (snd run) = [] /\
    (In (EvLog ERROR msg_credentials_missing) (events (snd run)) <->
     credentials_missing (load_config environ) = true).
Proof.
  intros dotenv_installed environ net. cbv zeta.
  unfold module_init. unfold_monad. cbv zeta.
  fold (credentials_missing (load_config environ)).
  destruct dotenv_installed;
    destruct (credentials_missing (load_config environ)); cbn;
    unfold io_trace, note, world0;
    cbn [events calls app filter is_io In fst snd];
    (split; [reflexivity |]); (split; [reflexivity |]); split;
    first
      [ reflexivity
      | intros _; right; right; left; reflexivity
      | intros [H | [H | [H | []]]]; discriminate H
      | intros H; discriminate H ].
Qed.

Lemma X16_import_reports_missing_credentials_witness :
  fst (module_init true firebase_environ two_timeouts world0)
  = Ok (load_config firebase_environ) /\
  (In (EvLog ERROR msg_credentials_missing)
      (events (snd (module_init true firebase_environ two_timeouts world0)))
   <-> credentials_missing (load_config firebase_environ) = true).
Proof.
  destruct (X16_import_reports_missing_credentials true firebase_environ
              two_timeouts) as (Hcfg & _ & Hlog).
  split; [exact Hcfg | exact Hlog].
Defined.

(** X17 — debug-info gives nothing away.  It answers 200 without any
    upstream call or log record; its body holds the configured
    redirect URI, the time and version strings, and of the client id
    only whether it is set at all.  That flag is true also for an empty
    client id, for which auth-url answers 500.  The answer is the same
    for any client secret and any two client ids that are both set. *)
Theorem X17_debug_info :
  forall cfg server_time major minor micro net w,
    (exists flag,
       debug_info cfg server_time major minor micro net w
       = (Ok (mkHttp
                (JDict
                   [("strava_client_id_set", JBool flag);
                    ("expected_redirect_uri", JStr (EXPECTED_REDIRECT_URI cfg));
                    ("server_time", JStr server_time);
                    ("python_version",
                     JStr (str_of_int major ++ "." ++ str_of_int minor ++ "."
                             ++ str_of_int micro))]) 200), w) /\
       (flag = true <-> STRAVA_CLIENT_ID cfg <> None)) /\
    (forall id id' secret secret',
       debug_info (mkConfig (Some id) secret (EXPECTED_REDIRECT_URI cfg))
         server_time major minor micro net w
       = debug_info (mkConfig (Some id') secret' (EXPECTED_REDIRECT_URI cfg))
           server_time major minor micro net w) /\
    (STRAVA_CLIENT_ID cfg = Some "" ->
     dict_lookup "strava_client_id_set"
       match fst (debug_info cfg server_time major minor micro net w) with
       | Ok r => match body r with JDict d => d | _ => [] end
       | Raise _ => []
       end = Some (JBool true) /\
     fst (get_auth_url cfg (mkRequest (inr JNull) None []) net w)
     = Ok (mkHttp (error_json
                     "Server configuration error: STRAVA_CLIENT_ID missing")
                  500)).
Proof.
  intros cfg server_time major minor micro net w.
  unfold debug_info. unfold_monad. split; [| split].
  - destruct (STRAVA_CLIENT_ID cfg) as [id |].
    + exists true. split; [reflexivity |]. split; [discriminate | trivial].
    + exists false. split; [reflexivity |].
      split; [discriminate | intros H; now destruct H].
  - reflexivity.
  - intros Hid. unfold get_auth_url. unfold_monad. rewrite Hid.
    split; reflexivity.
Qed.

Lemma X17_debug_info_witness :
  dict_lookup "strava_client_id_set"
    match fst (debug_info empty_id_cfg "2026-01-01T00:00:00Z" 3 12 1
                 two_timeouts world0) with
    | Ok r => match body r with JDict d => d | _ => [] end
    | Raise _ => []
    end = Some (JBool true) /\
  fst (get_auth_url empty_id_cfg (mkRequest (inr JNull) None []) two_timeouts
         world0)
  = Ok (mkHttp (error_json
                  "Server configuration error: STRAVA_CLIENT_ID missing") 500).
Proof.
  exact (proj2 (proj2 (X17_debug_info empty_id_cfg "2026-01-01T00:00:00Z"
                         3 12 1 two_timeouts world0)) eq_refl).
Defined.

(** X18 — what the fetch operations let through.  They catch
    [RequestException] only: a fault of any other class raised by the
    client leaves activities and athlete-zones as that exception, after
    the one GET and without a log record, where a token operation turns
    the same fault into a 500 answer. *)
Theorem X18_fetch_lets_other_faults_through :
  forall json_dumps py_repr cfg req net w e,
    access_token_of req <> "" ->
    net (calls w) = Fails e ->
    is_RequestException e = false ->
    get_activities req net w
    = (Raise e, called w (EvGet STRAVA_ACTIVITIES_URL
                            (bearer_header (access_token_of req))
                            (request_args req))) /\
    get_athlete_zones req net w
    = (Raise e, called w (EvGet STRAVA_ATHLETE_ZONES_URL
                            (bearer_header (access_token_of req)) [])) /\
    (credentials_missing cfg = false ->
     forall req' code, carries "code" req' code ->
       fst (exchange_token json_dumps py_repr cfg req' net w)
       = Ok (mkHttp (error_json ("Exception during token exchange: "
                                   ++ exn_str e)) 500)).
Proof.
  intros json_dumps py_repr cfg req net w e Htok Hnet Hother.
  rewrite get_activities_fetch, get_athlete_zones_fetch, token_present
    by trivial.
  rewrite !fetch_from_run. cbv zeta.
  rewrite Hnet, Hother, activities_params_args.
  split; [reflexivity |]. split; [reflexivity |].
  intros Hcfg req' code Hreq.
  destruct (exchange_token_accepted json_dumps py_repr cfg req' code net w
              Hcfg Hreq) as (w1 & Hc1 & _ & ->).
  assert (Hkind : is_transport_fault e = false).
  { destruct (is_transport_fault e) eqn:E; trivial.
    apply transport_fault_is_RequestException in E. congruence. }
  destruct (make_token_request_ends_at (code_grant cfg code) 3 0 net w1)
    as (_ & _ & Hres).
  - lia.
  - intros k Hk. lia.
  - intros e' He'. rewrite Nat.add_0_r, Hc1, Hnet in He'.
    now injection He' as <-.
  - rewrite Nat.add_0_r, Hc1, Hnet in Hres.
    destruct (make_token_request_with_retry _ 3 net w1) as [res w2].
    simpl fst in Hres.
    destruct res as [[resp |] | e']; try discriminate Hres; try contradiction.
    injection Hres as <-. reflexivity.
Qed.

Lemma X18_fetch_lets_other_faults_through_witness :
  fst (get_activities bearer_request broken_client world0)
  = Raise (mkExn OtherException "unsupported operand" None) /\
  fst (exchange_token sample_dumps sample_dumps sample_cfg code_request
         broken_client world0)
  = Ok (mkHttp (error_json
                  "Exception during token exchange: unsupported operand") 500).
Proof.
  destruct (X18_fetch_lets_other_faults_through sample_dumps sample_dumps
              sample_cfg bearer_request broken_client world0
              (mkExn OtherException "unsupported operand" None)
              bearer_request_token eq_refl eq_refl) as (Ha & _ & Hex).
  split.
  - now rewrite Ha.
  - exact (Hex sample_configured code_request (JStr "abc123")
             code_request_carries).
Defined.

(** X19 — a body the decoder gives up on.  With a bearer token, when
    decoding the upstream's body raises an exception of its own (not
    the one for a body that is no JSON), the fetch operations let it
    through in two places: after a status outside 400..599 when the
    exception is no [RequestException], and in the failure handler
    (error status, or a [RequestException] carrying the response) when
    it is no [ValueError].  A plain [ValueError] is caught in the
    failure handler, not on the success path. *)
Theorem X19_fetch_decoder_fault :
  forall req net w resp cls msg,
    access_token_of req <> "" ->
    json_body resp = inl (DecoderFault cls msg) ->
    let fault := mkExn cls msg None in
    (net (calls w) = Responds resp ->
     ~ (400 <= status_code resp < 600) ->
     is_RequestException fault = false ->
     fst (get_activities req net w) = Raise fault /\
     fst (get_athlete_zones req net w) = Raise fault) /\
    (net (calls w) = Responds resp ->
     400 <= status_code resp < 600 ->
     is_ValueError fault = false ->
     fst (get_activities req net w) = Raise fault /\
     fst (get_athlete_zones req net w) = Raise fault) /\
    (forall e,
       net (calls w) = Fails e ->
       is_RequestException e = true ->
       exn_response e = Some resp ->
       is_ValueError fault = false ->
       fst (get_activities req net w) = Raise fault /\
       fst (get_athlete_zones req net w) = Raise fault).
Proof.
  intros req net w resp cls msg Htok Hbody. cbv zeta.
  rewrite get_activities_fetch, get_athlete_zones_fetch, token_present
    by trivial.
  rewrite !fetch_from_run. cbv zeta. split; [| split].
  - intros Hnet Hst Hother.
    rewrite Hnet, (not_error_status resp Hst), Hbody.
    cbn [undecoded_exn]. rewrite Hother. split; reflexivity.
  - intros Hnet Hst Hother. rewrite Hnet.
    assert (Herr : is_error_status resp = true).
    { unfold is_error_status.
      destruct (Z.leb_spec 400 (status_code resp)),
        (Z.ltb_spec (status_code resp) 600); trivial; lia. }
    rewrite Herr. unfold fetch_failure. cbn. rewrite Hbody.
    cbn [undecoded_exn]. rewrite Hother. split; reflexivity.
  - intros e Hnet Hreq Hresp Hother. rewrite Hnet, Hreq.
    unfold fetch_failure. cbv zeta. rewrite Hresp, Hbody.
    cbn [undecoded_exn]. rewrite Hother. split; reflexivity.
Qed.

Lemma X19_fetch_decoder_fault_witness :
  fst (get_activities bearer_request (always huge_integer_200) world0)
  = Raise (mkExn ValueError
             ("Exceeds the limit (4300 digits) for integer string conversion: "
                ++ "value has 5000 digits; use sys.set_int_max_str_digits() "
                ++ "to increase the limit") None) /\
  fst (get_athlete_zones bearer_request (always deep_401) world0)
  = Raise (mkExn OtherException
             ("maximum recursion depth exceeded while decoding a JSON array "
                ++ "from a unicode string") None).
Proof.
  split.
  - refine (proj1 (proj1 (X19_fetch_decoder_fault bearer_request
                            (always huge_integer_200) world0 huge_integer_200
                            _ _ bearer_request_token eq_refl)
                     eq_refl _ eq_refl)).
    simpl; lia.
  - refine (proj2 (proj1 (proj2 (X19_fetch_decoder_fault bearer_request
                                   (always deep_401) world0 deep_401
                                   _ _ bearer_request_token eq_refl))
                     eq_refl _ eq_refl)).
    simpl; lia.
Defined.
